(** * pacwrap: the package ledger, the staleness policy and the reconciler

    A shallow embedding of [scripts/python/pacwrap_cli.py]: the JSON ledger
    kept by [Database], the update policy of [Pacwrap._check_update_policy],
    the scraping of pacman output in [SystemInterface] and the commands of
    [Pacwrap] that read or write the ledger.

    Conventions of the embedding.
    - A Python object that can sit in the ledger is a [value]: the image of
      [json.load] (floats are left out; a dict is an association list in
      insertion order, with unique keys).
    - A method of the program is a computation [M A]: it threads the [world]
      (the in-memory [Database.data], the ledger file, the log, the terminal,
      the clock and the sub-processes) and finishes with [Ok] or with a raised
      Python exception; what was mutated before a raise stays mutated.
    - [datetime.strptime] and [datetime.fromisoformat] belong to the Python
      library and depend on its version, the locale and the time zone of the
      machine: they are the fields of the class [DateLib]. *)

From Stdlib Require Import ZArith List String Ascii Bool Lia DecimalString.
Import ListNotations.
Open Scope string_scope.
Open Scope Z_scope.

(** ** Python strings *)

Module PyStr.

(** [str(n)] for an int. *)
Definition of_Z (n : Z) : string := NilZero.string_of_int (Z.to_int n).

(** [s.startswith(p)]. *)
Definition startswith (p s : string) : bool := String.prefix p s.

Fixpoint drop (n : nat) (s : string) : string :=
  match n, s with
  | O, _ => s
  | S n', String _ s' => drop n' s'
  | S _, EmptyString => EmptyString
  end.

(** [s.split(sep)[0]] for a non-empty [sep]: what comes before the first
    occurrence of [sep], the whole of [s] when there is none. *)
Fixpoint split_head (sep s : string) : string :=
  match s with
  | EmptyString => EmptyString
  | String c s' => if startswith sep s then EmptyString
                   else String c (split_head sep s')
  end.

(** [s.split(sep, 1)[1]] for a non-empty [sep]: what comes after the first
    occurrence of [sep]; [None] stands for the [IndexError] raised when [sep]
    does not occur. *)
Fixpoint split_tail (sep s : string) : option string :=
  match s with
  | EmptyString => None
  | String _ s' => if startswith sep s then Some (drop (String.length sep) s)
                   else split_tail sep s'
  end.

(** [sub in s]. *)
Fixpoint contains (sub s : string) : bool :=
  startswith sub s ||
  match s with
  | EmptyString => false
  | String _ s' => contains sub s'
  end.

(** [c.isspace()] on the code points below 256. *)
Definition isspace (c : ascii) : bool :=
  let n := nat_of_ascii c in
  ((9 <=? n) && (n <=? 13) || (28 <=? n) && (n <=? 32)
   || (n =? 133) || (n =? 160))%nat.

Fixpoint lstrip (s : string) : string :=
  match s with
  | String c s' => if isspace c then lstrip s' else s
  | EmptyString => EmptyString
  end.

Fixpoint rstrip (s : string) : string :=
  match s with
  | EmptyString => EmptyString
  | String c s' =>
      match rstrip s' with
      | EmptyString => if isspace c then EmptyString else String c EmptyString
      | r => String c r
      end
  end.

(** [s.strip()]. *)
Definition strip (s : string) : string := rstrip (lstrip s).

(** [s.split()]: the maximal runs of non-blank characters. [cur] is the run
    being read, in reverse. *)
Fixpoint words_aux (cur : list ascii) (s : string) : list string :=
  let flush := match cur with
               | [] => []
               | _ => [string_of_list_ascii (rev cur)]
               end in
  match s with
  | EmptyString => flush
  | String c s' => if isspace c then flush ++ words_aux [] s'
                   else words_aux (c :: cur) s'
  end.

Definition words (s : string) : list string := words_aux [] s.

(** [s.splitlines()]: lines end at LF, CR, CR LF, VT, FF, FS, GS, RS and NEL;
    no empty last line is produced. *)
Definition islinebreak (c : ascii) : bool :=
  let n := nat_of_ascii c in
  ((10 <=? n) && (n <=? 13) || (28 <=? n) && (n <=? 30) || (n =? 133))%nat.

Fixpoint splitlines_aux (cur : list ascii) (s : string) : list string :=
  match s with
  | EmptyString => match cur with
                   | [] => []
                   | _ => [string_of_list_ascii (rev cur)]
                   end
  | String c s' =>
      if islinebreak c then
        string_of_list_ascii (rev cur) ::
        match s' with
        | String c' s'' =>
            if ((nat_of_ascii c =? 13) && (nat_of_ascii c' =? 10))%nat
            then splitlines_aux [] s''
            else splitlines_aux [] s'
        | EmptyString => []
        end
      else splitlines_aux (c :: cur) s'
  end.

Definition splitlines (s : string) : list string := splitlines_aux [] s.

(** [s.lower()] on ASCII letters. *)
Definition lower_char (c : ascii) : ascii :=
  let n := nat_of_ascii c in
  if ((65 <=? n) && (n <=? 90))%nat then ascii_of_nat (n + 32) else c.

Fixpoint lower (s : string) : string :=
  match s with
  | EmptyString => EmptyString
  | String c s' => String (lower_char c) (lower s')
  end.

End PyStr.

(** ** Paths *)

Module PyPath.

(** [s.split("/")]. *)
Fixpoint split_slash (s : string) : list string :=
  match s with
  | EmptyString => [EmptyString]
  | String c s' =>
      if Ascii.eqb c "/" then EmptyString :: split_slash s'
      else match split_slash s' with
           | part :: rest => String c part :: rest
           | [] => [String c EmptyString]
           end
  end.

(** [str(Path(s))] on a POSIX system: the root is [//] for exactly two
    leading slashes and [/] for any other number of them; the empty parts
    and the parts [.] are dropped; a path with no root and no part is
    written [.]. *)
Definition str (s : string) : string :=
  let root := if negb (PyStr.startswith "/" s) then ""
              else if PyStr.startswith "//" s &&
                      negb (PyStr.startswith "///" s) then "//"
              else "/" in
  let parts := filter (fun part => negb (String.eqb part "") &&
                                   negb (String.eqb part "."))
                      (split_slash s) in
  match root ++ String.concat "/" parts with
  | EmptyString => "."
  | text => text
  end.

End PyPath.

(** ** Python values and exceptions *)

Set Warnings "-register-all".

Inductive value : Type :=
| VNone
| VBool (b : bool)
| VInt (n : Z)
| VStr (s : string)
| VList (l : list value)
| VDict (d : list (string * value)).

Definition dict : Type := list (string * value).

(** An exception. Its constructor is its class, which decides the [except]
    clauses that catch it; its arguments are what tells one exception of the
    class from another, and so what its text [str(e)] depends on: the
    operation that failed and its operand for an exception of the
    interpreter, a description of the failure for one of the system or of a
    library. Only [PacwrapError] is raised by the program, with a message
    that it builds. *)
Inductive exn : Type :=
| KeyError (key : string)                  (* [d[key]] without the key *)
| TypeError (op : string) (v : value)      (* [op] on a [v] of a wrong type *)
| AttributeError (attr : string) (v : value)  (* [v.attr] *)
| IndexError                               (* [l[1]] on a list of one item *)
| NameError (name : string)                (* a variable read while unbound *)
| ValueError (op : string) (text : string) (* [op] cannot read [text] *)
| JSONDecodeError (detail : string)
| UnicodeDecodeError (detail : string)
| FileNotFoundError (detail : string)
| OSError (detail : string)                (* any other OSError *)
| CalledProcessError (cmd : list string) (returncode : Z)
| OtherError (cls detail : string)         (* of a class the program never
                                              names: RecursionError, ... *)
| PacwrapError (msg : string).

Inductive result (A : Type) : Type :=
| Ok (a : A)
| Raise (e : exn).
Arguments Ok {A} a.
Arguments Raise {A} e.

(** [except ValueError]: the class and its subclasses. *)
Definition is_ValueError (e : exn) : bool :=
  match e with
  | ValueError _ _ | JSONDecodeError _ | UnicodeDecodeError _ => true
  | _ => false
  end.

Definition is_JSONDecodeError (e : exn) : bool :=
  match e with JSONDecodeError _ => true | _ => false end.

Definition is_FileNotFoundError (e : exn) : bool :=
  match e with FileNotFoundError _ => true | _ => false end.

Definition is_CalledProcessError (e : exn) : bool :=
  match e with CalledProcessError _ _ => true | _ => false end.

Definition is_PacwrapError (e : exn) : bool :=
  match e with PacwrapError _ => true | _ => false end.

(** [except Exception]. *)
Definition is_Exception (e : exn) : bool := true.

(** [str(e)], which is what [f"{e}"] prints: the message for the exception
    of the program; for the others the text that the interpreter, the system
    or the library gave them, [text e]. *)
Definition str_of (text : exn -> string) (e : exn) : string :=
  match e with
  | PacwrapError msg => msg
  | _ => text e
  end.

Definition rbind {A B} (r : result A) (k : A -> result B) : result B :=
  match r with
  | Ok a => k a
  | Raise e => Raise e
  end.

Notation "'let?' x ':=' r 'in' k" := (rbind r (fun x => k))
  (at level 10, x name, r at level 100, k at level 200).

(** *** Dictionaries, in insertion order *)

Fixpoint dict_get (k : string) (d : dict) : option value :=
  match d with
  | [] => None
  | (k', v) :: d' => if String.eqb k' k then Some v else dict_get k d'
  end.

Definition dict_has (k : string) (d : dict) : bool :=
  match dict_get k d with Some _ => true | None => false end.

(** [d[k] = v]: in place when [k] is a key, at the end otherwise. *)
Fixpoint dict_set (k : string) (v : value) (d : dict) : dict :=
  match d with
  | [] => [(k, v)]
  | (k', v') :: d' => if String.eqb k' k then (k', v) :: d'
                      else (k', v') :: dict_set k v d'
  end.

(** [d.pop(k, None)]. *)
Fixpoint dict_pop (k : string) (d : dict) : dict :=
  match d with
  | [] => []
  | (k', v') :: d' => if String.eqb k' k then d'
                      else (k', v') :: dict_pop k d'
  end.

(** *** The operators of Python on ledger values *)

(** [a == b]: [True == 1]; lists compare element by element, dicts as
    mappings whatever the order of their keys. *)
Fixpoint py_eqb (a b : value) {struct a} : bool :=
  match a, b with
  | VNone, VNone => true
  | VBool x, VBool y => Bool.eqb x y
  | VBool x, VInt n => n =? (if x then 1 else 0)
  | VInt n, VBool x => n =? (if x then 1 else 0)
  | VInt m, VInt n => m =? n
  | VStr s, VStr t => String.eqb s t
  | VList l, VList l' =>
      (fix all2 (l l' : list value) {struct l} : bool :=
         match l, l' with
         | [], [] => true
         | x :: xs, y :: ys => py_eqb x y && all2 xs ys
         | _, _ => false
         end) l l'
  | VDict d, VDict d' =>
      (List.length d =? List.length d')%nat &&
      (fix sub (d : dict) {struct d} : bool :=
         match d with
         | [] => true
         | (k, v) :: r =>
             match dict_get k d' with
             | Some v' => py_eqb v v'
             | None => false
             end && sub r
         end) d
  | _, _ => false
  end.

(** [bool(v)]. *)
Definition truthy (v : value) : bool :=
  match v with
  | VNone => false
  | VBool b => b
  | VInt n => negb (n =? 0)
  | VStr s => negb (String.eqb s "")
  | VList l => match l with [] => false | _ => true end
  | VDict d => match d with [] => false | _ => true end
  end.

(** [v[k]] for a string [k]. *)
Definition py_getitem (v : value) (k : string) : result value :=
  match v with
  | VDict d => match dict_get k d with
               | Some x => Ok x
               | None => Raise (KeyError k)
               end
  | _ => Raise (TypeError "getitem" v)
  end.

(** [v[k] = x] for a string [k]. *)
Definition py_setitem (v : value) (k : string) (x : value) : result value :=
  match v with
  | VDict d => Ok (VDict (dict_set k x d))
  | _ => Raise (TypeError "setitem" v)
  end.

(** [k in v] for a string [k]. *)
Definition py_contains (k : string) (v : value) : result bool :=
  match v with
  | VDict d => Ok (dict_has k d)
  | VList l => Ok (existsb (fun x => py_eqb x (VStr k)) l)
  | VStr s => Ok (PyStr.contains k s)
  | _ => Raise (TypeError "in" v)
  end.

(** [v.get(k, dflt)]. *)
Definition py_get (v : value) (k : string) (dflt : value) : result value :=
  match v with
  | VDict d => Ok (match dict_get k d with Some x => x | None => dflt end)
  | _ => Raise (AttributeError "get" v)
  end.

(** [v.items()]. *)
Definition py_items (v : value) : result dict :=
  match v with
  | VDict d => Ok d
  | _ => Raise (AttributeError "items" v)
  end.

Definition is_dict (v : value) : bool :=
  match v with VDict _ => true | _ => false end.

(** ** Dates *)

(** A naive [datetime] is its distance from 0001-01-01 00:00:00 in
    microseconds, as in Python's own arithmetic; an aware one also carries the
    name that [%Z] prints. *)
Inductive datetime : Type :=
| Naive (us : Z)
| Aware (us : Z) (tzname : string).

Module Clock.

Definition us_per_second : Z := 1000000.
Definition us_per_day : Z := 86400 * us_per_second.

(** Year, month and day of the [n]-th day after 0001-01-01 in the proleptic
    Gregorian calendar (the era-based computation on 400-year cycles that
    start on 1 March). *)
Definition civil (n : Z) : Z * Z * Z :=
  let z := n + 306 in
  let era := z / 146097 in
  let doe := z mod 146097 in
  let yoe := (doe - doe / 1460 + doe / 36524 - doe / 146096) / 365 in
  let doy := doe - (365 * yoe + yoe / 4 - yoe / 100) in
  let mp := (5 * doy + 2) / 153 in
  let d := doy - (153 * mp + 2) / 5 + 1 in
  let m := if mp <? 10 then mp + 3 else mp - 9 in
  (yoe + era * 400 + (if m <=? 2 then 1 else 0), m, d).

Definition day_names : list string :=
  ["Mon"; "Tue"; "Wed"; "Thu"; "Fri"; "Sat"; "Sun"].

Definition month_names : list string :=
  ["Jan"; "Feb"; "Mar"; "Apr"; "May"; "Jun";
   "Jul"; "Aug"; "Sep"; "Oct"; "Nov"; "Dec"].

Definition pad2 (n : Z) : string :=
  if n <? 10 then "0" ++ PyStr.of_Z n else PyStr.of_Z n.

(** [dt.strftime("%a %d %b %Y %I:%M:%S %p %Z")] in the C locale, for years
    of four digits. The microseconds are not printed; [%Z] is empty for a
    naive date, so that the text then ends with a blank. *)
Definition strftime_human (dt : datetime) : string :=
  let '(us, tz) := match dt with
                   | Naive us => (us, "")
                   | Aware us tz => (us, tz)
                   end in
  let secs := us / us_per_second in
  let days := secs / 86400 in
  let sod := secs mod 86400 in
  let '(y, m, d) := civil days in
  let h := sod / 3600 in
  let h12 := if h mod 12 =? 0 then 12 else h mod 12 in
  nth (Z.to_nat (days mod 7)) day_names "" ++ " " ++ pad2 d ++ " " ++
  nth (Z.to_nat (m - 1)) month_names "" ++ " " ++ PyStr.of_Z y ++ " " ++
  pad2 h12 ++ ":" ++ pad2 (sod mod 3600 / 60) ++ ":" ++ pad2 (sod mod 60) ++
  " " ++ (if h <? 12 then "AM" else "PM") ++ " " ++ tz.

(** [(a - b).days] for two naive dates: [timedelta] rounds towards minus
    infinity. *)
Definition days_between (a b : Z) : Z := (a - b) / us_per_day.

(** The naive date [y]-[m]-[d] [hh]:[mm]:[ss], for [m] from 1 to 12 (the
    inverse of [civil], used to write dates down). *)
Definition naive (y m d hh mm ss : Z) : Z :=
  let y' := if m <=? 2 then y - 1 else y in
  let era := y' / 400 in
  let yoe := y' mod 400 in
  let mp := if m <=? 2 then m + 9 else m - 3 in
  let doy := (153 * mp + 2) / 5 + d - 1 in
  let doe := yoe * 365 + yoe / 4 - yoe / 100 + doy in
  ((era * 146097 + doe - 306) * 86400 + hh * 3600 + mm * 60 + ss)
  * us_per_second.

End Clock.

(** The two parsers of the Python library the program calls. [None] is the
    [ValueError] they raise on a text they cannot read. [strptime_human s] is
    [datetime.strptime(s, "%a %d %b %Y %I:%M:%S %p %Z")]: with no [%z] in the
    format its result is always naive. *)
Class DateLib : Type := {
  strptime_human : string -> option Z;
  fromisoformat : string -> option datetime
}.

(** ** The world a method runs in *)

Inductive file : Type :=
| Missing                 (* no file at the path; its directory can be made *)
| Json (v : value)        (* a text that [json.load] reads as [v] *)
| Unloadable (e : exn).   (* a file on which [open] or [json.load] raises [e]:
                             JSONDecodeError on a text that is not JSON,
                             UnicodeDecodeError on bytes that are not UTF-8,
                             RecursionError on brackets nested too deep,
                             PermissionError on a file that may not be
                             read, ... *)

Record log_entry : Type := LogEntry {
  level : string;
  category : string;
  message : string
}.

(** What [subprocess.run] does with a command line: the process ends with
    a status and what it printed; there is no such command
    (FileNotFoundError); or the call raises another exception,
    PermissionError on a file that may not be run or, with [text=True],
    UnicodeDecodeError on an output that is not UTF-8. *)
Inductive proc_result : Type :=
| Exit (returncode : Z) (stdout : string)
| NoSuchCommand
| Crash (e : exn).

Record world : Type := World {
  data : value;                          (* Database.data *)
  db_file : file;                        (* the file at Database.db_path *)
  db_writable : bool;                    (* does open(db_path, 'w') succeed *)
  log : list log_entry;                  (* what Logger appended, oldest first *)
  out : list string;                     (* what print wrote, oldest first *)
  clock : nat -> Z;                      (* the successive datetime.now() *)
  tick : nat;                            (* how many were read *)
  dryrun : bool;                         (* Pacwrap.dryrun *)
  aur_helper : option string;            (* SystemInterface.aur_helper; None when it is falsy *)
  proc : list string -> proc_result;     (* subprocess.run on a command line *)
  stdin : string;                        (* what input() will return *)
  str_exn : exn -> string;               (* str(e), for the exceptions that the
                                            program does not build itself *)
  db_error : exn                         (* what open(db_path, 'w') raises
                                            when it fails *)
}.

Definition M (A : Type) : Type := world -> result A * world.

Definition ret {A} (a : A) : M A := fun w => (Ok a, w).

Definition bind {A B} (c : M A) (k : A -> M B) : M B :=
  fun w => match c w with
           | (Ok a, w') => k a w'
           | (Raise e, w') => (Raise e, w')
           end.

Definition raise {A} (e : exn) : M A := fun w => (Raise e, w).

Definition lift {A} (r : result A) : M A := fun w => (r, w).

(** [f"{e}"]. *)
Definition describe (e : exn) : M string :=
  fun w => (Ok (str_of (str_exn w) e), w).

(** [try: c  except <handles> as e: h e]. *)
Definition try {A} (c : M A) (handles : exn -> bool) (h : exn -> M A) : M A :=
  fun w => match c w with
           | (Raise e, w') => if handles e then h e w' else (Raise e, w')
           | r => r
           end.

Declare Scope py_scope.
Delimit Scope py_scope with py.
Notation "x <- c ;; k" := (bind c (fun x => k))
  (at level 100, c at next level, right associativity) : py_scope.
Notation "c ;;; k" := (bind c (fun _ => k))
  (at level 100, right associativity) : py_scope.
Open Scope py_scope.

Definition get_data : M value := fun w => (Ok (data w), w).

Definition set_data (v : value) : M unit := fun w =>
  (Ok tt, World v (db_file w) (db_writable w) (log w) (out w) (clock w)
                (tick w) (dryrun w) (aur_helper w) (proc w) (stdin w) (str_exn w)
                (db_error w)).

Definition write_db (v : value) : M unit := fun w =>
  (Ok tt, World (data w) (Json v) (db_writable w) (log w) (out w) (clock w)
                (tick w) (dryrun w) (aur_helper w) (proc w) (stdin w) (str_exn w)
                (db_error w)).

Definition logger (lvl cat msg : string) : M unit := fun w =>
  (Ok tt, World (data w) (db_file w) (db_writable w)
                (log w ++ [LogEntry lvl cat msg]) (out w) (clock w)
                (tick w) (dryrun w) (aur_helper w) (proc w) (stdin w) (str_exn w)
                (db_error w)).

Definition print (msg : string) : M unit := fun w =>
  (Ok tt, World (data w) (db_file w) (db_writable w) (log w)
                (out w ++ [msg]) (clock w)
                (tick w) (dryrun w) (aur_helper w) (proc w) (stdin w) (str_exn w)
                (db_error w)).

(** [datetime.now()]. *)
Definition now : M Z := fun w =>
  (Ok (clock w (tick w)),
   World (data w) (db_file w) (db_writable w) (log w) (out w) (clock w)
         (S (tick w)) (dryrun w) (aur_helper w) (proc w) (stdin w) (str_exn w)
                (db_error w)).

(** [datetime.now().strftime("%a %d %b %Y %I:%M:%S %p %Z")]. *)
Definition now_human : M string :=
  t <- now ;; ret (Clock.strftime_human (Naive t)).

(** ** Database *)

Section Program.

Context {L : DateLib}.

(** [datetime.fromisoformat(v)]. *)
Definition py_fromisoformat (v : value) : result datetime :=
  match v with
  | VStr s => match fromisoformat s with
              | Some dt => Ok dt
              | None => Raise (ValueError "fromisoformat" s)
              end
  | _ => Raise (TypeError "fromisoformat" v)
  end.

(** The conversion that [_load] and [update_metadata] apply to a date:
    [try: v = datetime.fromisoformat(v).strftime(...)  except ValueError: pass]. *)
Definition iso_to_human (v : value) : result value :=
  match py_fromisoformat v with
  | Ok dt => Ok (VStr (Clock.strftime_human dt))
  | Raise e => if is_ValueError e then Ok v else Raise e
  end.

Definition default_data : value :=
  VDict [("packages", VDict []);
         ("metadata", VDict [("last_full_update_date", VNone)])].

(** [Database._save]. *)
Definition _save (arg : option value) : M unit :=
  doc <- match arg with Some d => ret d | None => get_data end ;;
  writable <- (fun w => (Ok (db_writable w), w)) ;;
  if (writable : bool) then
    write_db doc ;;;
    logger "INFO" "database" "Database saved successfully"
  else
    e <- (fun w => (Ok (db_error w), w)) ;;
    msg <- describe e ;;
    logger "ERROR" "database" ("Failed to save database: " ++ msg) ;;;
    raise (PacwrapError ("Database save failed: " ++ msg)).

(** The body of the first loop of [_load] for one entry. *)
Definition normalize_entry (pkg : value) : result value :=
  let? has := py_contains "last_update_date" pkg in
  if (has : bool) then
    let? v := py_getitem pkg "last_update_date" in
    if truthy v then
      let? v' := iso_to_human v in
      py_setitem pkg "last_update_date" v'
    else Ok pkg
  else Ok pkg.

Fixpoint normalize_entries (items : dict) : result dict :=
  match items with
  | [] => Ok []
  | (name, pkg) :: rest =>
      let? pkg' := normalize_entry pkg in
      let? rest' := normalize_entries rest in
      Ok ((name, pkg') :: rest')
  end.

(** What [_load] does to the document it has read; the entries are updated
    in place, so that nothing changes when there is no [packages] key. *)
Definition normalize_loaded (doc : value) : result value :=
  let? pkgs := py_get doc "packages" (VDict []) in
  let? items := py_items pkgs in
  let? items' := normalize_entries items in
  let? doc1 := match items with
               | [] => Ok doc
               | _ => py_setitem doc "packages" (VDict items')
               end in
  let? meta := py_get doc1 "metadata" (VDict []) in
  let? last := py_get meta "last_full_update_date" VNone in
  if truthy last then
    let? last' := iso_to_human last in
    let? meta' := py_setitem meta "last_full_update_date" last' in
    py_setitem doc1 "metadata" meta'
  else Ok doc1.

(** [Database._load]; its [except] clause names two classes. *)
Definition _load : M value :=
  f <- (fun w => (Ok (db_file w), w)) ;;
  match f with
  | Missing => _save (Some default_data) ;;; ret default_data
  | Json doc => lift (normalize_loaded doc)
  | Unloadable e =>
      if is_JSONDecodeError e || is_FileNotFoundError e then
        msg <- describe e ;;
        logger "ERROR" "database" ("Failed to load database: " ++ msg) ;;;
        ret default_data
      else raise e
  end.

(** [Database.__init__]. *)
Definition init_database : M unit :=
  d <- _load ;; set_data d.

(** [self.data["packages"]]. *)
Definition packages : M value :=
  d <- get_data ;; lift (py_getitem d "packages").

(** [self.data["packages"][name] = pkg]. *)
Definition put_entry (name : string) (pkg : value) : M unit :=
  d <- get_data ;;
  pkgs <- lift (py_getitem d "packages") ;;
  pkgs' <- lift (py_setitem pkgs name pkg) ;;
  d' <- lift (py_setitem d "packages" pkgs') ;;
  set_data d'.

(** [x if x is not None else []]. *)
Definition or_empty (x : value) : value :=
  match x with VNone => VList [] | _ => x end.

(** The assignments of [add_package] to an entry that exists. *)
Definition merge_entry (pkg installed repo dependencies groups provides
                        version install_date : value) (now : string)
  : result value :=
  let? p := py_setitem pkg "installed" installed in
  let? p := py_setitem p "repo" repo in
  let? p := py_setitem p "dependencies" dependencies in
  let? p := py_setitem p "groups" (or_empty groups) in
  let? p := py_setitem p "provides" (or_empty provides) in
  let? p := py_setitem p "last_update_date" (VStr now) in
  let? p := if truthy version then py_setitem p "version" version
            else Ok p in
  if truthy install_date then py_setitem p "install_date" install_date
  else Ok p.

(** The entry [add_package] creates for a new name. *)
Definition new_entry (name : string) (installed repo dependencies groups
                      provides version install_date : value) (now : string)
  : value :=
  VDict [("name", VStr name);
         ("installed", installed);
         ("repo", repo);
         ("dependencies", dependencies);
         ("groups", or_empty groups);
         ("provides", or_empty provides);
         ("version", version);
         ("install_date",
          if truthy install_date then install_date else VStr now);
         ("update_history", VList []);
         ("last_update_date", VStr now)].

(** [Database.add_package]. *)
Definition add_package (name : string) (repo dependencies installed version
                        install_date groups provides : value) : M unit :=
  now <- now_human ;;
  pkgs <- packages ;;
  present <- lift (py_contains name pkgs) ;;
  (if (present : bool) then
     pkg <- lift (py_getitem pkgs name) ;;
     pkg' <- lift (merge_entry pkg installed repo dependencies groups
                               provides version install_date now) ;;
     put_entry name pkg'
   else
     put_entry name (new_entry name installed repo dependencies groups
                               provides version install_date now)) ;;;
  _save None ;;;
  logger "INFO" "database" ("Package " ++ name ++ " updated in database").

(** [Database.set_installed]. The right-hand side of the second assignment,
    and so the reading of the clock, is evaluated after the first one. *)
Definition set_installed (name : string) (installed : bool) : M unit :=
  pkgs <- packages ;;
  present <- lift (py_contains name pkgs) ;;
  if (present : bool) then
    pkg <- lift (py_getitem pkgs name) ;;
    pkg1 <- lift (py_setitem pkg "installed" (VBool installed)) ;;
    put_entry name pkg1 ;;;
    now <- now_human ;;
    pkg2 <- lift (py_setitem pkg1 "last_update_date" (VStr now)) ;;
    put_entry name pkg2 ;;;
    _save None ;;;
    logger "INFO" "database"
           ("Package " ++ name ++ " marked as " ++
            (if installed then "installed" else "uninstalled"))
  else ret tt.

(** [history.append(item)]. *)
Definition py_append (history item : value) : result value :=
  match history with
  | VList l => Ok (VList (l ++ [item]))
  | _ => Raise (AttributeError "append" history)
  end.

(** [Database.add_version_history]. The method [append] is looked up before
    its argument is built. *)
Definition add_version_history (name : string) (version : value) : M unit :=
  pkgs <- packages ;;
  present <- lift (py_contains name pkgs) ;;
  if (present : bool) then
    pkg <- lift (py_getitem pkgs name) ;;
    history <- lift (py_getitem pkg "update_history") ;;
    _ <- lift (py_append history VNone) ;;
    now <- now_human ;;
    history' <- lift (py_append history
                        (VDict [("version", version); ("date", VStr now)])) ;;
    pkg' <- lift (py_setitem pkg "update_history" history') ;;
    put_entry name pkg' ;;;
    _save None
  else ret tt.

(** [Database.get_package]: [None] when the name is not a key. *)
Definition get_package (name : string) : M value :=
  pkgs <- packages ;;
  lift (py_get pkgs name VNone).

(** The inner loop of [query_packages]: the value of [match] for one entry. *)
Fixpoint entry_matches (filters : dict) (pkg : value) : result bool :=
  match filters with
  | [] => Ok true
  | (key, wanted) :: rest =>
      let? has := py_contains key pkg in
      if (has : bool) then
        let? v := py_getitem pkg key in
        if negb (py_eqb v wanted) then Ok false
        else entry_matches rest pkg
      else entry_matches rest pkg
  end.

Fixpoint query_items (filters : dict) (items : dict) : result dict :=
  match items with
  | [] => Ok []
  | (name, pkg) :: rest =>
      let? keep := entry_matches filters pkg in
      let? found := query_items filters rest in
      Ok (if (keep : bool) then (name, pkg) :: found else found)
  end.

(** [Database.query_packages]; [filters] are its keyword arguments. *)
Definition query_packages (filters : dict) : M dict :=
  pkgs <- packages ;;
  items <- lift (py_items pkgs) ;;
  lift (query_items filters items).

(** [Database.update_metadata]. *)
Definition update_metadata (key : string) (v : value) : M unit :=
  v' <- lift (if String.eqb key "last_full_update_date" then
                match v with
                | VStr _ => iso_to_human v
                | _ => Ok v
                end
              else Ok v) ;;
  d <- get_data ;;
  meta <- lift (py_getitem d "metadata") ;;
  meta' <- lift (py_setitem meta key v') ;;
  d' <- lift (py_setitem d "metadata" meta') ;;
  set_data d' ;;;
  _save None.

(** [export_pkg = pkg.copy()] followed, without metadata, by
    [export_pkg.pop("update_history", None)]: a list has [copy] but its [pop]
    takes no default. *)
Definition export_entry (include_metadata : bool) (pkg : value)
  : result value :=
  match pkg with
  | VDict d => Ok (VDict (if include_metadata then d
                          else dict_pop "update_history" d))
  | VList l => if include_metadata then Ok pkg
               else Raise (TypeError "pop" pkg)
  | _ => Raise (AttributeError "copy" pkg)
  end.

Fixpoint export_items (include_metadata : bool) (items : dict)
  : result dict :=
  match items with
  | [] => Ok []
  | (name, pkg) :: rest =>
      let? pkg' := export_entry include_metadata pkg in
      let? rest' := export_items include_metadata rest in
      Ok ((name, pkg') :: rest')
  end.

(** [Database.export_data]. *)
Definition export_data (include_metadata : bool) : M value :=
  pkgs <- packages ;;
  items <- lift (py_items pkgs) ;;
  items' <- lift (export_items include_metadata items) ;;
  if include_metadata then
    d <- get_data ;;
    meta <- lift (py_getitem d "metadata") ;;
    ret (VDict [("packages", VDict items'); ("metadata", meta)])
  else ret (VDict [("packages", VDict items')]).

(** ** SystemInterface *)

(** [SystemInterface._run_command]; the result is the return code and the
    captured output. [subprocess.run] raises CalledProcessError itself when
    [check] is set and the status is not 0; the two [except] clauses turn
    that and FileNotFoundError into [PacwrapError], and whatever else
    [subprocess.run] raises goes through. *)
Definition _run_command (cmd : list string) (check : bool)
  : M (Z * string) :=
  logger "INFO" "system" ("Running command: " ++ String.concat " " cmd) ;;;
  try (r <- (fun w => (Ok (proc w cmd), w)) ;;
       match r with
       | Exit code text =>
           if check && negb (code =? 0)
           then raise (CalledProcessError cmd code)
           else ret (code, text)
       | NoSuchCommand => raise (FileNotFoundError (hd "" cmd))
       | Crash e => raise e
       end)
      (fun e => is_CalledProcessError e || is_FileNotFoundError e)
      (fun e =>
         if is_CalledProcessError e then
           msg <- describe e ;;
           logger "ERROR" "system"
                  ("Command failed: " ++ String.concat " " cmd ++ " - " ++
                   msg) ;;;
           raise (PacwrapError ("Command failed: " ++ msg))
         else
           logger "ERROR" "system" ("Command not found: " ++ hd "" cmd) ;;;
           raise (PacwrapError ("Command not found: " ++ hd "" cmd))).

(** [SystemInterface.is_package_in_repos]; its bare [except] answers
    [False] to whatever is raised. *)
Definition is_package_in_repos (package : string) : M bool :=
  try (r <- _run_command ["pacman"; "-Si"; package] false ;;
       ret (fst r =? 0))
      is_Exception (fun _ => ret false).

(** [SystemInterface.install_package]. *)
Definition install_package (package : string) (dry : bool) : M bool :=
  if dry then
    print ("[DRY RUN] Would install: " ++ package) ;;; ret true
  else
    official <- is_package_in_repos package ;;
    if (official : bool) then
      logger "INFO" "install"
             ("Installing " ++ package ++ " using pacman") ;;;
      try (_run_command ["sudo"; "pacman"; "-S"; "--needed"; package] true ;;;
           ret true)
          is_PacwrapError (fun _ => ret false)
    else
      helper <- (fun w => (Ok (aur_helper w), w)) ;;
      match helper with
      | None =>
          logger "ERROR" "install"
                 ("No AUR helper configured for package " ++ package) ;;;
          ret false
      | Some h =>
          logger "INFO" "install"
                 ("Installing " ++ package ++ " using " ++ h) ;;;
          try (_run_command [h; "-S"; "--needed"; package] true ;;; ret true)
              is_PacwrapError (fun _ => ret false)
      end.

(** [SystemInterface.remove_package]. *)
Definition remove_package (package : string) (dry : bool) : M bool :=
  if dry then
    print ("[DRY RUN] Would remove: " ++ package) ;;; ret true
  else
    logger "INFO" "remove" ("Removing " ++ package) ;;;
    try (_run_command ["sudo"; "pacman"; "-R"; package] true ;;; ret true)
        is_PacwrapError (fun _ => ret false).

(** [SystemInterface.update_system]. *)
Definition update_system (dry : bool) : M bool :=
  if dry then
    print "[DRY RUN] Would update system and AUR packages" ;;; ret true
  else
    try (logger "INFO" "update" "Updating official repositories" ;;;
         print "Updating official repositories..." ;;;
         _run_command ["sudo"; "pacman"; "-Syu"] true ;;;
         helper <- (fun w => (Ok (aur_helper w), w)) ;;
         match helper with
         | Some h =>
             logger "INFO" "update" "Updating AUR packages" ;;;
             print "Updating AUR packages..." ;;;
             _run_command [h; "-Sua"] true ;;; ret true
         | None => ret true
         end)
        is_PacwrapError (fun _ => ret false).

(** The chain of [split] that every reported name goes through:
    [g.split('>=')[0].split('<=')[0].split('=')[0].split('>')[0].split('<')[0]]. *)
Definition bare_name (g : string) : string :=
  PyStr.split_head "<"
    (PyStr.split_head ">"
       (PyStr.split_head "="
          (PyStr.split_head "<=" (PyStr.split_head ">=" g)))).

(** [line.split(":", 1)[1].strip()]. *)
Definition field_value (line : string) : result string :=
  match PyStr.split_tail ":" line with
  | Some v => Ok (PyStr.strip v)
  | None => Raise IndexError
  end.

(** [[bare_name(g) for g in text.split()]]. *)
Definition bare_names (text : string) : value :=
  VList (map (fun g => VStr (bare_name g)) (PyStr.words text)).

Definition is_named (text : string) : bool :=
  negb (String.eqb text "") && negb (String.eqb text "None").

(** One line of [pacman -Si]. [groups_str] is a local variable of the whole
    method: [None] while it is unbound. The [Provides] branch tests
    [groups_str], not [provides_str]. *)
Definition si_official_line (groups_str : option string) (info : dict)
           (line : string) : option string * result dict :=
  if PyStr.startswith "Repository" line then
    (groups_str,
     let? v := field_value line in Ok (dict_set "repo" (VStr v) info))
  else if PyStr.startswith "Groups" line then
    match field_value line with
    | Ok g => (Some g,
               Ok (dict_set "groups"
                      (if is_named g then bare_names g else VList []) info))
    | Raise e => (groups_str, Raise e)
    end
  else if PyStr.startswith "Provides" line then
    (groups_str,
     let? p := field_value line in
     if String.eqb p "" then Ok (dict_set "provides" (VList []) info)
     else match groups_str with
          | None => Raise (NameError "groups_str")
          | Some g =>
              Ok (dict_set "provides"
                    (if negb (String.eqb g "None") then bare_names p
                     else VList []) info)
          end)
  else (groups_str, Ok info).

(** One line of the helper's [-Si]. *)
Definition si_aur_line (groups_str : option string) (info : dict)
           (line : string) : option string * result dict :=
  if PyStr.startswith "Groups" line then
    match field_value line with
    | Ok g => (Some g,
               Ok (dict_set "groups"
                      (if is_named g then bare_names g else VList []) info))
    | Raise e => (groups_str, Raise e)
    end
  else if PyStr.startswith "Provides" line then
    (groups_str,
     let? p := field_value line in
     Ok (dict_set "provides"
           (if is_named p then bare_names p else VList []) info))
  else (groups_str, Ok info).

(** One line of [pacman -Qi]. *)
Definition qi_line (info : dict) (line : string) : result dict :=
  if PyStr.startswith "Version" line then
    let? v := field_value line in Ok (dict_set "version" (VStr v) info)
  else if PyStr.startswith "Install Date" line then
    let? v := field_value line in Ok (dict_set "install_date" (VStr v) info)
  else if PyStr.startswith "Install Reason" line then
    let? v := field_value line in
    Ok (dict_set "install_reason"
          (VStr (if PyStr.contains "explicitly installed" (PyStr.lower v)
                 then "explicit" else "dependency")) info)
  else if PyStr.startswith "Depends On" line then
    let? deps := field_value line in
    Ok (dict_set "dependencies"
          (VList (map (fun dep => VStr (bare_name dep))
                      (filter (fun dep => negb (String.eqb dep "None"))
                              (PyStr.words deps)))) info)
  else Ok info.

(** A [for line in ...] loop whose body may rebind [groups_str]. *)
Fixpoint scan_lines
         (body : option string -> dict -> string -> option string * result dict)
         (lines : list string) (groups_str : option string) (info : dict)
  : option string * result dict :=
  match lines with
  | [] => (groups_str, Ok info)
  | line :: rest =>
      match body groups_str info line with
      | (g, Ok info') => scan_lines body rest g info'
      | (g, Raise e) => (g, Raise e)
      end
  end.

Fixpoint scan_qi (lines : list string) (info : dict) : result dict :=
  match lines with
  | [] => Ok info
  | line :: rest => let? info' := qi_line info line in scan_qi rest info'
  end.

(** Runs [c] and hands its exception back as a value: for a [try] whose
    handler needs the local variables of the body. *)
Definition attempt {A} (c : M A) : M (result A) :=
  fun w => let '(r, w') := c w in (Ok r, w').

Definition base_info (pkg : string) : dict :=
  [("name", VStr pkg); ("dependencies", VList []);
   ("groups", VList []); ("provides", VList [])].

(** The body of the [try] of [get_explicitly_installed_packages] for one
    name, up to the test of [install_reason]. *)
Definition package_info (pkg : string) (groups_str : option string)
  : M (option string * result dict) :=
  r <- attempt (_run_command ["pacman"; "-Si"; pkg] false) ;;
  match r with
  | Raise e => ret (groups_str, Raise e)
  | Ok (code, text) =>
      st <- (if code =? 0 then
               ret (scan_lines si_official_line (PyStr.splitlines text)
                      groups_str
                      (dict_set "repo" (VStr "unknown") (base_info pkg)))
             else
               helper <- (fun w => (Ok (aur_helper w), w)) ;;
               match helper with
               | Some h =>
                   r2 <- attempt (_run_command [h; "-Si"; pkg] false) ;;
                   match r2 with
                   | Raise e => ret (groups_str, Raise e)
                   | Ok (code2, text2) =>
                       ret (if code2 =? 0 then
                              scan_lines si_aur_line (PyStr.splitlines text2)
                                groups_str
                                (dict_set "repo" (VStr "aur") (base_info pkg))
                            else
                              (groups_str,
                               Ok (dict_set "repo" (VStr "aur")
                                            (base_info pkg))))
                   end
               | None =>
                   ret (groups_str,
                        Ok (dict_set "repo" (VStr "aur") (base_info pkg)))
               end) ;;
      match st with
      | (g, Raise e) => ret (g, Raise e)
      | (g, Ok info) =>
          r3 <- attempt (_run_command ["pacman"; "-Qi"; pkg] true) ;;
          match r3 with
          | Raise e => ret (g, Raise e)
          | Ok (_, text3) => ret (g, scan_qi (PyStr.splitlines text3) info)
          end
      end
  end.

Definition dict_get_or (k : string) (dflt : value) (d : dict) : value :=
  match dict_get k d with Some v => v | None => dflt end.

(** The loop of [get_explicitly_installed_packages] over the names that
    [pacman -Qqe] printed. *)
Fixpoint scan_packages (names : list string) (groups_str : option string)
         (found : list dict) : M (list dict) :=
  match names with
  | [] => ret found
  | raw :: rest =>
      let pkg := PyStr.strip raw in
      if String.eqb pkg "" then scan_packages rest groups_str found
      else
        st <- package_info pkg groups_str ;;
        match st with
        | (g, Ok info) =>
            if py_eqb (dict_get_or "install_reason" VNone info)
                      (VStr "explicit")
            then scan_packages rest g (found ++ [info])
            else
              logger "INFO" "updatedb"
                     ("Skipping package " ++ pkg ++
                      ": not explicitly installed") ;;;
              scan_packages rest g found
        | (g, Raise e) =>
            msg <- describe e ;;
            logger "ERROR" "updatedb"
                   ("Failed to process package " ++ pkg ++ ": " ++ msg) ;;;
            scan_packages rest g found
        end
  end.

(** [SystemInterface.get_explicitly_installed_packages]. *)
Definition get_explicitly_installed_packages : M (list dict) :=
  try (r <- _run_command ["pacman"; "-Qqe"] true ;;
       scan_packages (PyStr.splitlines (snd r)) None [])
      is_PacwrapError
      (fun e =>
         msg <- describe e ;;
         logger "ERROR" "updatedb" ("Failed to get package list: " ++ msg) ;;;
         ret []).

(** ** Pacwrap *)

(** [datetime.strptime(v, "%a %d %b %Y %I:%M:%S %p %Z")]. *)
Definition py_strptime (v : value) : result datetime :=
  match v with
  | VStr s => match strptime_human s with
              | Some t => Ok (Naive t)
              | None => Raise (ValueError "strptime" s)
              end
  | _ => Raise (TypeError "strptime" v)
  end.

(** The two nested [try] of [_check_update_policy]: [None] when both parsers
    raise [ValueError]. *)
Definition parse_last_update (v : value) : result (option datetime) :=
  match py_strptime v with
  | Ok dt => Ok (Some dt)
  | Raise e =>
      if is_ValueError e then
        match py_fromisoformat v with
        | Ok dt => Ok (Some dt)
        | Raise e' => if is_ValueError e' then Ok None else Raise e'
        end
      else Raise e
  end.

(** [(now - last_date).days], [now] being naive: an aware date cannot be
    subtracted from it. *)
Definition days_since (now : Z) (last_date : datetime) : result Z :=
  match last_date with
  | Naive t => Ok (Clock.days_between now t)
  | Aware _ tz => Raise (TypeError "sub" (VStr tz))
  end.

(** The cascade of thresholds of [_check_update_policy]. *)
Definition policy_band (days : Z) : bool * string :=
  if days >=? 90 then
    (true, "Critical: " ++ PyStr.of_Z days ++ " days since last update")
  else if days >=? 30 then
    (false, "Warning: " ++ PyStr.of_Z days ++ " days since last update")
  else if days >=? 7 then
    (false, "Recommended: " ++ PyStr.of_Z days ++ " days since last update")
  else
    (false, "Recent: " ++ PyStr.of_Z days ++ " days since last update").

(** [Pacwrap._check_update_policy]. *)
Definition _check_update_policy : M (bool * string) :=
  d <- get_data ;;
  meta <- lift (py_getitem d "metadata") ;;
  last_update <- lift (py_get meta "last_full_update_date" VNone) ;;
  if negb (truthy last_update) then ret (true, "No previous update found")
  else
    parsed <- lift (parse_last_update last_update) ;;
    match parsed with
    | None => ret (true, "Invalid last update date format")
    | Some last_date =>
        t <- now ;;
        days <- lift (days_since t last_date) ;;
        ret (policy_band days)
    end.

(** [Pacwrap.cmd_uninstall]; [args_package] is [args.package]. *)
Definition cmd_uninstall (args_package : list string) : M bool :=
  match args_package with
  | [] => print "Error: Package name required" ;;; ret false
  | package :: _ =>
      try (dry <- (fun w => (Ok (dryrun w), w)) ;;
           success <- (if negb dry then remove_package package dry
                       else ret true) ;;
           (if (success : bool) then
              set_installed package false ;;;
              print ("✓ Uninstalled " ++ package ++ " (kept in database)")
            else print ("✗ Failed to uninstall " ++ package)) ;;;
           ret success)
          is_Exception
          (fun e =>
             msg <- describe e ;;
             print ("✗ Failed to uninstall " ++ package ++ ": " ++ msg) ;;;
             ret false)
  end.

(** [input(prompt)]. *)
Definition input (prompt : string) : M string :=
  print prompt ;;; (fun w => (Ok (stdin w), w)).

(** [Pacwrap.cmd_update]; [force] and [interactive] are the flags of [args]. *)
Definition cmd_update (force interactive : bool) : M bool :=
  policy <- _check_update_policy ;;
  let '(needs_update, message) := policy in
  proceed <- (if negb force && negb needs_update then
                print ("Update policy: " ++ message) ;;;
                if negb interactive then ret false
                else
                  response <- input "Update anyway? (y/N): " ;;
                  ret (String.eqb (PyStr.lower response) "y")
              else ret true) ;;
  if negb proceed then ret true
  else
    try (dry <- (fun w => (Ok (dryrun w), w)) ;;
         success <- update_system dry ;;
         (if (success : bool) then
            stamp <- now_human ;;
            update_metadata "last_full_update_date" (VStr stamp) ;;;
            print "✓ System updated successfully"
          else print "✗ System update failed") ;;;
         ret success)
        is_Exception
        (fun e =>
           msg <- describe e ;;
           print ("✗ System update failed: " ++ msg) ;;; ret false).

(** The loop of [cmd_updatedb]. *)
Fixpoint store_scanned (found : list dict) : M unit :=
  match found with
  | [] => ret tt
  | pkg :: rest =>
      name <- lift (py_getitem (VDict pkg) "name") ;;
      logger "INFO" "updatedb"
             ("Processing package: " ++
              match name with VStr n => n | _ => "" end) ;;;
      add_package (match name with VStr n => n | _ => "" end)
                  (dict_get_or "repo" (VStr "unknown") pkg)
                  (dict_get_or "dependencies" (VList []) pkg)
                  (VBool true)
                  (dict_get_or "version" (VStr "") pkg)
                  (dict_get_or "install_date" (VStr "") pkg)
                  (dict_get_or "groups" (VList []) pkg)
                  (dict_get_or "provides" (VList []) pkg) ;;;
      store_scanned rest
  end.

(** [Pacwrap.cmd_updatedb], without its spinner. *)
Definition cmd_updatedb : M bool :=
  logger "INFO" "updatedb" "Starting database update" ;;;
  try (found <- get_explicitly_installed_packages ;;
       store_scanned found ;;;
       let msg := "Updated database with " ++
                  PyStr.of_Z (Z.of_nat (List.length found)) ++
                  " explicitly installed packages" in
       logger "INFO" "updatedb" msg ;;;
       print ("✓ " ++ msg) ;;;
       ret true)
      is_Exception
      (fun e =>
         msg <- describe e ;;
         logger "ERROR" "updatedb" ("Failed to update database: " ++ msg) ;;;
         print ("✗ Failed to update database: " ++ msg) ;;;
         ret false).

(** What [cmd_import] finds at the path it is given. *)
Inductive import_file : Type :=
| NoSuchFile                 (* not filepath.exists() *)
| UnsupportedSuffix          (* neither .json nor .toml *)
| TomlUnavailable            (* .toml and HAS_TOMLLIB is False *)
| Unreadable (e : exn)       (* open or the parser raises e *)
| Parsed (doc : value).      (* the document json.load or tomllib.load returns *)

Definition required_fields : list string :=
  ["repo"; "installed"; "dependencies"; "groups"; "provides"].

(** [all(key in pkg for key in keys)]. *)
Fixpoint has_all (keys : list string) (pkg : value) : result bool :=
  match keys with
  | [] => Ok true
  | key :: rest =>
      let? has := py_contains key pkg in
      if (has : bool) then has_all rest pkg else Ok false
  end.

(** The call of [add_package] that [cmd_import] makes for one entry. *)
Definition import_entry (name : string) (pkg : value) : M unit :=
  repo <- lift (py_get pkg "repo" (VStr "unknown")) ;;
  dependencies <- lift (py_get pkg "dependencies" (VList [])) ;;
  installed <- lift (py_get pkg "installed" (VBool false)) ;;
  version <- lift (py_get pkg "version" (VStr "")) ;;
  install_date <- lift (py_get pkg "install_date" (VStr "")) ;;
  groups <- lift (py_get pkg "groups" (VList [])) ;;
  provides <- lift (py_get pkg "provides" (VList [])) ;;
  add_package name repo dependencies installed version install_date
              groups provides.

(** The loop of [cmd_import]; [imported] is its counter. *)
Fixpoint import_items (items : dict) (imported : Z) : M Z :=
  match items with
  | [] => ret imported
  | (name, pkg) :: rest =>
      complete <- lift (has_all required_fields pkg) ;;
      if (complete : bool) then
        import_entry name pkg ;;;
        import_items rest (imported + 1)
      else
        logger "WARNING" "import"
               ("Skipping package " ++ name ++
                ": missing required fields") ;;;
        import_items rest imported
  end.

(** [Pacwrap.cmd_import]; [args_file] is [args.file] and [fs] tells what is
    at a path. *)
Definition cmd_import (args_file : list string) (fs : string -> import_file)
  : M bool :=
  match args_file with
  | [] => print "Error: File path required" ;;; ret false
  | filepath :: _ =>
      match fs filepath with
      | NoSuchFile =>
          print ("Error: File " ++ PyPath.str filepath ++ " not found") ;;;
          ret false
      | TomlUnavailable =>
          print "Error: TOML support not available" ;;; ret false
      | UnsupportedSuffix =>
          print "Error: Unsupported file format. Use .json or .toml" ;;;
          ret false
      | Unreadable e =>
          msg <- describe e ;;
          print ("Error importing file: " ++ msg) ;;; ret false
      | Parsed doc =>
          try (pkgs <- lift (py_get doc "packages" VNone) ;;
               if negb (is_dict pkgs) then
                 print "Error: Invalid import file format - missing or invalid packages" ;;;
                 ret false
               else
                 items <- lift (py_items pkgs) ;;
                 imported <- import_items items 0 ;;
                 print ("✓ Imported " ++ PyStr.of_Z imported ++
                        " packages") ;;;
                 ret true)
              is_Exception
              (fun e =>
                 msg <- describe e ;;
                 print ("Error importing file: " ++ msg) ;;;
                 ret false)
      end
  end.

(** [Pacwrap.cmd_install]; [add_package] is called with its defaults for
    the version, the install date, the groups and the provides. *)
Definition cmd_install (args_package : list string) : M bool :=
  match args_package with
  | [] => print "Error: Package name required" ;;; ret false
  | package :: _ =>
      try (dry <- (fun w => (Ok (dryrun w), w)) ;;
           success <- install_package package dry ;;
           (if (success : bool) then
              official <- is_package_in_repos package ;;
              add_package package
                          (VStr (if negb official then "aur" else "core"))
                          (VList []) (VBool true) (VStr "") (VStr "")
                          VNone VNone ;;;
              if negb dry then print ("✓ Installed " ++ package)
              else ret tt
            else print ("✗ Failed to install " ++ package)) ;;;
           ret success)
          is_Exception
          (fun e =>
             msg <- describe e ;;
             print ("✗ Failed to install " ++ package ++ ": " ++ msg) ;;;
             ret false)
  end.

(** The loop of [cmd_sync]: the names whose installation failed. *)
Fixpoint sync_items (items : dict) (dry : bool) (failed : list string)
  : M (list string) :=
  match items with
  | [] => ret failed
  | (name, _) :: rest =>
      ok <- install_package name dry ;;
      sync_items rest dry (if (ok : bool) then failed
                           else (failed ++ [name])%list)
  end.

(** [Pacwrap.cmd_sync]. *)
Definition cmd_sync : M bool :=
  pkgs <- query_packages [("installed", VBool true)] ;;
  match pkgs with
  | [] => print "No packages marked for installation" ;;; ret true
  | _ =>
      let count := PyStr.of_Z (Z.of_nat (List.length pkgs)) in
      print ("Syncing " ++ count ++ " packages...") ;;;
      dry <- (fun w => (Ok (dryrun w), w)) ;;
      r <- attempt (sync_items pkgs dry []) ;;
      match r with
      | Raise e =>
          msg <- describe e ;;
          print ("✗ Sync failed: " ++ msg) ;;; ret false
      | Ok [] => print ("✓ Synced " ++ count ++ " packages") ;;; ret true
      | Ok failed =>
          print ("✗ Failed to sync: " ++ String.concat ", " failed) ;;;
          ret false
      end
  end.

End Program.
(** ** An excerpt of the date library

    The behaviour of CPython on a handful of texts, enough to run the program
    on concrete ledgers: [strptime] reads the human format only when a zone
    name follows the blank ([UTC] here), [fromisoformat] reads the ISO texts,
    with or without an offset. *)

Definition excerpt_strptime (s : string) : option Z :=
  if String.eqb s "Mon 01 Jan 2024 12:00:00 AM UTC"
  then Some (Clock.naive 2024 1 1 0 0 0)
  else if String.eqb s "Fri 31 Jul 2026 05:29:00 PM UTC"
  then Some (Clock.naive 2026 7 31 17 29 0)
  else None.

Definition excerpt_fromisoformat (s : string) : option datetime :=
  if String.eqb s "2024-01-01T00:00:00+00:00"
  then Some (Aware (Clock.naive 2024 1 1 0 0 0) "UTC")
  else if String.eqb s "2024-01-01T00:00:00"
  then Some (Naive (Clock.naive 2024 1 1 0 0 0))
  else None.

Definition excerpt : DateLib :=
  {| strptime_human := excerpt_strptime;
     fromisoformat := excerpt_fromisoformat |}.

(** ** An excerpt of the texts of exceptions

    What CPython 3.12 prints for the exceptions of the samples: a plain name
    between quotes for a KeyError, the name of the type of the operand for
    a failed [in] or a missing method, the command line as a list for a
    CalledProcessError, and for an exception of the system or of a library
    the description it carries. *)
Definition type_name (v : value) : string :=
  match v with
  | VNone => "NoneType"
  | VBool _ => "bool"
  | VInt _ => "int"
  | VStr _ => "str"
  | VList _ => "list"
  | VDict _ => "dict"
  end.

Definition excerpt_text (e : exn) : string :=
  match e with
  | KeyError key => "'" ++ key ++ "'"
  | TypeError "in" v => "argument of type '" ++ type_name v ++
                        "' is not iterable"
  | AttributeError attr v => "'" ++ type_name v ++
                             "' object has no attribute '" ++ attr ++ "'"
  | IndexError => "list index out of range"
  | CalledProcessError cmd code =>
      "Command '[" ++
      String.concat ", " (map (fun arg => "'" ++ arg ++ "'") cmd) ++
      "]' returned non-zero exit status " ++ PyStr.of_Z code ++ "."
  | JSONDecodeError detail | UnicodeDecodeError detail
  | FileNotFoundError detail | OSError detail | OtherError _ detail => detail
  | _ => ""
  end.

(** What [open] raises on the ledger of the samples when it may not be
    written. *)
Definition permission_denied : exn :=
  OSError "[Errno 13] Permission denied: '/root/.local/share/pacwrap/db.json'".

(** A machine whose clock starts on 3 November 2026 at 17:29:00 and is read
    every 200 ms, with a writable ledger holding [d], no log and commands
    that all succeed silently. *)
Definition machine (d : value) (dry : bool) : world :=
  {| data := d; db_file := Json d; db_writable := true;
     log := []; out := [];
     clock := fun n => Clock.naive 2026 11 3 17 29 0 + Z.of_nat n * 200000;
     tick := 0; dryrun := dry; aur_helper := Some "paru";
     proc := fun _ => Exit 0 ""; stdin := "";
     str_exn := excerpt_text; db_error := permission_denied |}.

Definition ledger (pkgs : dict) (last_full_update : value) : value :=
  VDict [("packages", VDict pkgs);
         ("metadata", VDict [("last_full_update_date", last_full_update)])].

(** * Observations *)

(** ** The ledger inside a world *)

(** The entries of the ledger, when it has the shape the program gives it. *)
Definition store_packages (v : value) : option dict :=
  match v with
  | VDict d => match dict_get "packages" d with
               | Some (VDict pkgs) => Some pkgs
               | _ => None
               end
  | _ => None
  end.

(** The entry recorded under [name]. *)
Definition entry_of (w : world) (name : string) : option value :=
  match store_packages (data w) with
  | Some pkgs => dict_get name pkgs
  | None => None
  end.

(** A field of the entry recorded under [name]. *)
Definition entry_field (w : world) (name field : string) : option value :=
  match entry_of w name with
  | Some (VDict e) => dict_get field e
  | _ => None
  end.

(** Every entry is a record. *)
Definition entries_are_records (pkgs : dict) : bool :=
  forallb (fun kv => is_dict (snd kv)) pkgs.

(** The text that [now_human] returns in [w]. *)
Definition stamp (w : world) : string :=
  Clock.strftime_human (Naive (clock w (tick w))).

(** [w] once [data] is [d] and the clock was read. *)
Definition mutated (d : value) (w : world) : world :=
  snd (set_data d (snd (now w))).

Section PolicyTerms.

Context {L : DateLib}.

(** What the metadata record of [w] holds under [last_full_update_date]
    ([None] when the key is not there). *)
Definition stored_timestamp (w : world) : result value :=
  let? meta := py_getitem (data w) "metadata" in
  py_get meta "last_full_update_date" VNone.



End PolicyTerms.

(** ** Queries *)

(** The entry [pkg] agrees with one filter: it lacks the key, or holds under
    it a value equal (as Python compares) to the wanted one. *)
Definition field_agrees (pkg : dict) (flt : string * value) : bool :=
  match dict_get (fst flt) pkg with
  | Some v => py_eqb v (snd flt)
  | None => true
  end.

(** The entry agrees with every filter. *)
Definition satisfies (filters : dict) (pkg : value) : bool :=
  match pkg with
  | VDict e => forallb (field_agrees e) filters
  | _ => false
  end.

(** ** Sample ledgers *)

Definition sample_entry (name repo : string) (installed : bool) : value :=
  VDict [("name", VStr name);
         ("installed", VBool installed);
         ("repo", VStr repo);
         ("dependencies", VList [VStr "glibc"]);
         ("groups", VList []);
         ("provides", VList []);
         ("version", VStr "3.4.1-1");
         ("install_date", VStr "Mon 05 Oct 2026 09:00:00 AM ");
         ("update_history",
          VList [VDict [("version", VStr "3.4.0-1");
                        ("date", VStr "Mon 05 Oct 2026 09:00:00 AM ")]]);
         ("last_update_date", VStr "Mon 05 Oct 2026 09:00:00 AM ")].

Definition three_packages : dict :=
  [("htop", sample_entry "htop" "core" true);
   ("paru", sample_entry "paru" "aur" true);
   ("yay", sample_entry "yay" "aur" false)].

(** ** Upserts *)

(** The entry that [add_package] leaves under a name: the old one merged
    when there is one, a new one otherwise. *)
Definition upserted (old : option value) (name : string)
           (installed repo dependencies groups provides version
            install_date : value) (now : string) : result value :=
  match old with
  | Some pkg => merge_entry pkg installed repo dependencies groups provides
                            version install_date now
  | None => Ok (new_entry name installed repo dependencies groups provides
                          version install_date now)
  end.

(** The ledger [d] with [pkg] under [name]. *)
Definition with_entry (d : dict) (pkgs : dict) (name : string) (pkg : value)
  : value :=
  VDict (dict_set "packages" (VDict (dict_set name pkg pkgs)) d).

(** ** Frames *)

(** [w'] differs from [w] at most by its log and its terminal. *)
Definition same_store (w w' : world) : Prop :=
  data w' = data w /\ db_file w' = db_file w /\
  db_writable w' = db_writable w /\ clock w' = clock w /\
  tick w' = tick w /\ dryrun w' = dryrun w.

(** ** Imports *)

(** An entry of an import file that [cmd_import] accepts: a record with the
    five required fields. *)
Definition importable (pkg : value) : bool :=
  match pkg with
  | VDict e => forallb (fun key => dict_has key e) required_fields
  | _ => false
  end.

(** The entry that importing the record [e] leaves under [name]. *)
Definition imported_entry (old : option value) (name : string) (e : dict)
           (now : string) : result value :=
  upserted old name
           (dict_get_or "installed" (VBool false) e)
           (dict_get_or "repo" (VStr "unknown") e)
           (dict_get_or "dependencies" (VList []) e)
           (dict_get_or "groups" (VList []) e)
           (dict_get_or "provides" (VList []) e)
           (dict_get_or "version" (VStr "") e)
           (dict_get_or "install_date" (VStr "") e)
           now.

(** Upserting every entry of [items], in order, with no test. *)
Fixpoint upsert_all (items : dict) : M unit :=
  match items with
  | [] => ret tt
  | (name, pkg) :: rest => import_entry name pkg ;;; upsert_all rest
  end.

(** The ledger is a record whose [packages] are records, and its file can
    be written. *)
Definition ledger_ok (w : world) : Prop :=
  exists d pkgs,
    data w = VDict d /\ dict_get "packages" d = Some (VDict pkgs) /\
    entries_are_records pkgs = true /\ db_writable w = true.

(** The ledger, its file and the clock are the same in both worlds. *)
Definition same_ledger (w1 w2 : world) : Prop :=
  data w1 = data w2 /\ db_file w1 = db_file w2 /\
  db_writable w1 = db_writable w2 /\ clock w1 = clock w2 /\
  tick w1 = tick w2.

Definition is_warning (l : log_entry) : bool := String.eqb (level l) "WARNING".

Definition skip_warning (item : string * value) : log_entry :=
  LogEntry "WARNING" "import"
           ("Skipping package " ++ fst item ++ ": missing required fields").

(** [w] after a successful [add_package] that left the ledger [doc]. *)
Definition upsert_world (w : world) (doc : value) (name : string) : world :=
  {| data := doc; db_file := Json doc; db_writable := true;
     log := (log w ++ [LogEntry "INFO" "database"
                                "Database saved successfully"])
            ++ [LogEntry "INFO" "database"
                         ("Package " ++ name ++ " updated in database")];
     out := out w; clock := clock w; tick := S (tick w);
     dryrun := dryrun w; aur_helper := aur_helper w; proc := proc w;
     stdin := stdin w; str_exn := str_exn w; db_error := db_error w |}.

(** ** Exports *)

(** An entry as [export_data] writes it without metadata. *)
Definition strip_history (item : string * value) : string * value :=
  (fst item,
   match snd item with
   | VDict e => VDict (dict_pop "update_history" e)
   | v => v
   end).

(** The fields of an entry that an export followed by an import gives
    back. *)
Definition kept_fields : list string :=
  ["name"; "repo"; "installed"; "dependencies"; "groups"; "provides";
   "version"; "install_date"].

(** An entry as [add_package] makes them: its [name] is its key, it has the
    five required fields and a [version], [groups] and [provides] are not
    [None] and [install_date] is not empty. *)
Definition complete_entry (name : string) (e : dict) : bool :=
  importable (VDict e) &&
  match dict_get "name" e with
  | Some (VStr n) => String.eqb n name
  | _ => false
  end &&
  match dict_get "groups" e with Some VNone => false | _ => true end &&
  match dict_get "provides" e with Some VNone => false | _ => true end &&
  dict_has "version" e &&
  truthy (dict_get_or "install_date" VNone e).

(** ** A sample of pacman *)

Definition nl : string := String (ascii_of_nat 10) "".

(** [pacman -Si bash] and [pacman -Qi bash], reduced to the lines that the
    program reads: bash is in no group and provides sh. *)
Definition pacman_si_bash : string :=
  "Repository      : core" ++ nl ++
  "Name            : bash" ++ nl ++
  "Version         : 5.2.037-1" ++ nl ++
  "Groups          : None" ++ nl ++
  "Provides        : sh" ++ nl ++
  "Depends On      : readline  libreadline.so=8-64  glibc  ncurses" ++ nl.

Definition pacman_qi_bash : string :=
  "Name            : bash" ++ nl ++
  "Version         : 5.2.037-1" ++ nl ++
  "Depends On      : readline  libreadline.so=8-64  glibc>=2.38  ncurses" ++ nl ++
  "Install Date    : Mon 05 Oct 2026 09:00:00 AM UTC" ++ nl ++
  "Install Reason  : Explicitly installed" ++ nl.

Fixpoint list_eqb (a b : list string) : bool :=
  match a, b with
  | [], [] => true
  | x :: a', y :: b' => String.eqb x y && list_eqb a' b'
  | _, _ => false
  end.

(** A system on which bash is the one explicitly installed package. *)
Definition pacman_with_bash (cmd : list string) : proc_result :=
  if list_eqb cmd ["pacman"; "-Qqe"] then Exit 0 ("bash" ++ nl)
  else if list_eqb cmd ["pacman"; "-Si"; "bash"] then Exit 0 pacman_si_bash
  else if list_eqb cmd ["pacman"; "-Qi"; "bash"] then Exit 0 pacman_qi_bash
  else Exit 1 "".

(** The same machine as [machine], on that system. *)
Definition machine_with_bash (d : value) : world :=
  {| data := d; db_file := Json d; db_writable := true;
     log := []; out := [];
     clock := fun n => Clock.naive 2026 11 3 17 29 0 + Z.of_nat n * 200000;
     tick := 0; dryrun := false; aur_helper := Some "paru";
     proc := pacman_with_bash; stdin := "";
     str_exn := excerpt_text; db_error := permission_denied |}.

(** ** Machines that start *)

(** The machine before [Database.__init__]: nothing in memory yet, [f] at
    the path of the ledger. *)
Definition booting (f : file) (writable : bool) : world :=
  {| data := VNone; db_file := f; db_writable := writable;
     log := []; out := [];
     clock := fun n => Clock.naive 2026 11 3 17 29 0 + Z.of_nat n * 200000;
     tick := 0; dryrun := false; aur_helper := Some "paru";
     proc := fun _ => Exit 0 ""; stdin := "";
     str_exn := excerpt_text; db_error := permission_denied |}.

(** ** Names *)

(** The characters that start a version constraint. *)
Definition is_operator (c : ascii) : bool :=
  Ascii.eqb c "<" || Ascii.eqb c ">" || Ascii.eqb c "=".

(** A text with no such character. *)
Fixpoint bare (s : string) : bool :=
  match s with
  | EmptyString => true
  | String c s' => negb (is_operator c) && bare s'
  end.

(** The text starts with an operator. *)
Definition decorated (s : string) : bool :=
  match s with
  | EmptyString => false
  | String c _ => is_operator c
  end.

(** ** Scans *)

(** [w] with another log. *)
Definition with_log (l : list log_entry) (w : world) : world :=
  {| data := data w; db_file := db_file w; db_writable := db_writable w;
     log := l; out := out w; clock := clock w; tick := tick w;
     dryrun := dryrun w; aur_helper := aur_helper w; proc := proc w;
     stdin := stdin w; str_exn := str_exn w; db_error := db_error w |}.

(** A list of bare names. *)
Definition bare_list (v : value) : bool :=
  match v with
  | VList l => forallb (fun x => match x with
                                 | VStr s => bare s
                                 | _ => false
                                 end) l
  | _ => false
  end.

(** What the scan promises of a package it returns: a name, bare names in
    its three lists, and an explicit install. *)
Definition clean_info (info : dict) : bool :=
  match dict_get "name" info with Some (VStr _) => true | _ => false end &&
  bare_list (dict_get_or "dependencies" VNone info) &&
  bare_list (dict_get_or "groups" VNone info) &&
  bare_list (dict_get_or "provides" VNone info).

Definition explicit_info (info : dict) : bool :=
  py_eqb (dict_get_or "install_reason" VNone info) (VStr "explicit").

(** ** Commands that fail *)

(** The command did not end with the status 0: it ended with another one,
    it was not found, or running it raised an exception. *)
Definition failed (r : proc_result) : bool :=
  match r with
  | Exit code _ => negb (code =? 0)
  | NoSuchCommand => true
  | Crash _ => true
  end.

(** A machine whose clock starts at [start] and whose commands answer as
    [run_cmd] says. *)
Definition machine_on (start : Z) (run_cmd : list string -> proc_result)
           (d : value) (dry : bool) : world :=
  {| data := d; db_file := Json d; db_writable := true;
     log := []; out := [];
     clock := fun n => start + Z.of_nat n * 200000;
     tick := 0; dryrun := dry; aur_helper := Some "paru";
     proc := run_cmd; stdin := "";
     str_exn := excerpt_text; db_error := permission_denied |}.

(** ** Texts of dates *)

(** The last character of the text is a blank. *)
Fixpoint ends_blank (s : string) : bool :=
  match s with
  | EmptyString => false
  | String c EmptyString => Ascii.eqb c " "
  | String _ s' => ends_blank s'
  end.

(** ** Ledgers that load as they are *)

Section Settled.

Context {L : DateLib}.

(** A date that [_load] leaves alone: nothing, or a text that is no ISO
    date. *)
Definition date_settled (v : value) : bool :=
  negb (truthy v) ||
  match v with
  | VStr s => match fromisoformat s with None => true | Some _ => false end
  | _ => false
  end.

Definition entry_settled (pkg : value) : bool :=
  match pkg with
  | VDict e => date_settled (dict_get_or "last_update_date" VNone e)
  | _ => false
  end.

(** A ledger with its two sections, every date of which is settled. *)
Definition settled (doc : value) : bool :=
  match doc with
  | VDict d =>
      match dict_get "packages" d with
      | Some (VDict pkgs) => forallb (fun kv => entry_settled (snd kv)) pkgs
      | _ => false
      end &&
      match dict_get "metadata" d with
      | Some (VDict m) =>
          date_settled (dict_get_or "last_full_update_date" VNone m)
      | _ => false
      end
  | _ => false
  end.

End Settled.


(** ** Syncs *)

(** The packages that [cmd_sync] goes through: the names of the entries
    that do not disagree with [installed=True], in the order of the
    ledger. *)
Definition marked (pkgs : dict) : list string :=
  map fst (filter (fun kv => satisfies [("installed", VBool true)] (snd kv))
                  pkgs).

(** What a sync prints in a dry run. *)
Definition dry_sync_report (names : list string) : list string :=
  match names with
  | [] => ["No packages marked for installation"]
  | _ =>
      let count := PyStr.of_Z (Z.of_nat (List.length names)) in
      ([("Syncing " ++ count ++ " packages...")%string] ++
       map (fun name => ("[DRY RUN] Would install: " ++ name)%string) names ++
       [("✓ Synced " ++ count ++ " packages")%string])%list
  end.

(** ** Imports *)

(** The names of the entries in the file that [cmd_import] is given; none
    when there is no readable file or no [packages] in it. *)
Definition file_names (args_file : list string) (fs : string -> import_file)
  : list string :=
  match args_file with
  | [] => []
  | filepath :: _ =>
      match fs filepath with
      | Parsed doc => match store_packages doc with
                      | Some items => map fst items
                      | None => []
                      end
      | _ => []
      end
  end.

(** What the steps of an import preserve from [w] to [w1]: the ledger stays
    well formed, the names outside [touched] keep their entries, and no
    name is lost. *)
Definition keeps (touched : list string) (w w1 : world) : Prop :=
  ledger_ok w1 /\
  (forall other, ~ In other touched -> entry_of w1 other = entry_of w other) /\
  (forall name, entry_of w name <> None -> entry_of w1 name <> None).

(** ** Commands that raise *)

(** An exception of [subprocess.run] that no [except] clause of
    [_run_command] catches, and that is no [PacwrapError] either. *)
Definition escapes (e : exn) : bool :=
  negb (is_CalledProcessError e || is_FileNotFoundError e ||
        is_PacwrapError e).

(** The exception that listing the packages with [pacman -Qqe] lets out of
    the scan, when there is one. *)
Definition listing_crash (w : world) : option exn :=
  match proc w ["pacman"; "-Qqe"] with
  | Crash e => if escapes e then Some e else None
  | _ => None
  end.

(** ** What an import writes *)


(** * Properties *)

(** The texts of dates and numbers are not computed while simplifying. *)
Arguments Clock.strftime_human : simpl never.
Arguments PyStr.of_Z : simpl never.
Arguments String.append : simpl never.

(** ** Dictionaries *)

Section DictFacts.

Lemma dict_get_set_eq (k : string) (v : value) (d : dict) :
  dict_get k (dict_set k v d) = Some v.
Proof.
  induction d as [|[k' v'] d IH]; cbn.
  - now rewrite String.eqb_refl.
  - destruct (String.eqb k' k) eqn:E; cbn; now rewrite E.
Qed.

Lemma dict_get_set_neq (k k' : string) (v : value) (d : dict) :
  k' <> k -> dict_get k (dict_set k' v d) = dict_get k d.
Proof.
  intros Hne. induction d as [|[k0 v0] d IH]; cbn.
  - destruct (String.eqb_spec k' k); [contradiction|reflexivity].
  - destruct (String.eqb_spec k0 k') as [->|Hk]; cbn.
    + destruct (String.eqb_spec k' k); [contradiction|reflexivity].
    + now rewrite IH.
Qed.

Lemma dict_set_same (k : string) (v : value) (d : dict) :
  dict_get k d = Some v -> dict_set k v d = d.
Proof.
  induction d as [|[k' v'] d IH]; cbn; [discriminate|].
  destruct (String.eqb_spec k' k) as [->|Hk]; intros H.
  - now inversion H.
  - now rewrite IH.
Qed.

Lemma dict_set_set (k : string) (v1 v2 : value) (d : dict) :
  dict_set k v2 (dict_set k v1 d) = dict_set k v2 d.
Proof.
  induction d as [|[k' v'] d IH]; cbn.
  - now rewrite String.eqb_refl.
  - destruct (String.eqb k' k) eqn:E; cbn; rewrite E; [reflexivity|].
    now rewrite IH.
Qed.

Lemma dict_has_get (k : string) (d : dict) :
  dict_has k d = match dict_get k d with Some _ => true | None => false end.
Proof. reflexivity. Qed.

(** Writing under another key keeps the keys of a dictionary and their
    order; the names of a ledger are the keys of its [packages]. *)
Lemma dict_set_keys (k : string) (v : value) (d : dict) :
  dict_has k d = true -> map fst (dict_set k v d) = map fst d.
Proof.
  unfold dict_has.
  induction d as [|[k' v'] d IH]; cbn; [discriminate|].
  destruct (String.eqb k' k) eqn:E; cbn; [reflexivity|].
  intros H. now rewrite IH.
Qed.

Lemma dict_pop_get_neq (k k' : string) (d : dict) :
  k' <> k -> dict_get k (dict_pop k' d) = dict_get k d.
Proof.
  intros Hne. induction d as [|[k0 v0] d IH]; cbn; [reflexivity|].
  destruct (String.eqb_spec k0 k') as [->|Hk]; cbn.
  - destruct (String.eqb_spec k' k); [contradiction|reflexivity].
  - now rewrite IH.
Qed.

End DictFacts.

(** Looks a literal key up through a pile of [dict_set]. *)
Ltac lookup_literal :=
  repeat (rewrite dict_get_set_neq by discriminate);
  first [ apply dict_get_set_eq | eassumption ].

Lemma store_packages_getitem (v : value) (pkgs : dict) :
  store_packages v = Some pkgs ->
  py_getitem v "packages" = Ok (VDict pkgs).
Proof.
  unfold store_packages, py_getitem.
  destruct v as [| | | | |d]; try discriminate.
  destruct (dict_get "packages" d) as [[| | | | |p]|]; try discriminate.
  now intros [= ->].
Qed.

Lemma store_packages_set (d pkgs' : dict) :
  store_packages (VDict (dict_set "packages" (VDict pkgs') d)) = Some pkgs'.
Proof. unfold store_packages. now rewrite dict_get_set_eq. Qed.


Section Policy.

Context {L : DateLib}.



End Policy.


(** ** The record store *)

Section Store.

Context {L : DateLib}.

(** C4. On a name that the ledger does not hold, [set_installed] and
    [add_version_history] return without touching anything: the memory, the
    file, the log and the clock are what they were, and the name still has
    no entry. *)
Theorem absent_name_is_noop (w : world) (pkgs : dict) (name : string)
        (installed : bool) (version : value) :
  store_packages (data w) = Some pkgs ->
  dict_get name pkgs = None ->
  set_installed name installed w = (Ok tt, w) /\
  add_version_history name version w = (Ok tt, w) /\
  entry_of (snd (set_installed name installed w)) name = None /\
  entry_of (snd (add_version_history name version w)) name = None.
Proof.
  intros Hp Hn.
  assert (Hs : set_installed name installed w = (Ok tt, w)).
  { unfold set_installed, packages, bind, get_data, lift.
    rewrite (store_packages_getitem _ _ Hp). cbn.
    unfold dict_has. now rewrite Hn. }
  assert (Ha : add_version_history name version w = (Ok tt, w)).
  { unfold add_version_history, packages, bind, get_data, lift.
    rewrite (store_packages_getitem _ _ Hp). cbn.
    unfold dict_has. now rewrite Hn. }
  rewrite Hs, Ha. cbn [snd]. unfold entry_of. rewrite Hp.
  repeat split; assumption.
Qed.

Lemma entry_matches_record (filters : dict) (e : dict) :
  entry_matches filters (VDict e) = Ok (forallb (field_agrees e) filters).
Proof.
  induction filters as [|[key wanted] rest IH]; cbn; [reflexivity|].
  unfold field_agrees at 1, dict_has. cbn [fst snd].
  destruct (dict_get key e) as [v|]; cbn.
  - destruct (py_eqb v wanted); cbn; [exact IH|reflexivity].
  - exact IH.
Qed.

Lemma query_items_filter (filters : dict) (items : dict) :
  entries_are_records items = true ->
  query_items filters items =
  Ok (filter (fun kv => satisfies filters (snd kv)) items).
Proof.
  unfold entries_are_records.
  induction items as [|[name pkg] rest IH]; cbn; [reflexivity|].
  intros H. apply andb_prop in H as [Hd Hr].
  destruct pkg as [| | | | |e]; try discriminate.
  rewrite entry_matches_record, (IH Hr). cbn.
  now destruct (forallb (field_agrees e) filters).
Qed.

(** C6. A query returns exactly the entries that agree with every filter,
    in the order of the ledger, where an entry agrees with a filter when it
    lacks the key or holds an equal value under it; the ledger is not
    touched. *)
Theorem query_packages_exact (w : world) (pkgs filters : dict) :
  store_packages (data w) = Some pkgs ->
  entries_are_records pkgs = true ->
  query_packages filters w =
  (Ok (filter (fun kv => satisfies filters (snd kv)) pkgs), w).
Proof.
  intros Hp Hr.
  unfold query_packages, packages, bind, get_data, lift.
  rewrite (store_packages_getitem _ _ Hp). cbn.
  now rewrite (query_items_filter _ _ Hr).
Qed.

(** *** What [add_package] does to a well-formed ledger *)

Lemma add_package_run (w : world) (d pkgs : dict) (name : string)
      (repo dependencies installed version install_date groups provides
       pkg' : value) :
  data w = VDict d ->
  dict_get "packages" d = Some (VDict pkgs) ->
  upserted (dict_get name pkgs) name installed repo dependencies groups
           provides version install_date (stamp w) = Ok pkg' ->
  add_package name repo dependencies installed version install_date groups
              provides w =
  (_save None ;;;
   logger "INFO" "database" ("Package " ++ name ++ " updated in database"))
    (mutated (with_entry d pkgs name pkg') w).
Proof.
  intros Hd Hp Hu.
  unfold add_package, now_human, packages, put_entry, bind, now, get_data,
    lift, ret. cbn [data].
  rewrite Hd. cbn [py_getitem]. rewrite Hp. cbn [py_contains].
  unfold upserted, dict_has in *.
  destruct (dict_get name pkgs) as [old|] eqn:Ho.
  - cbn [py_getitem]. rewrite Ho. fold (stamp w). rewrite Hu.
    cbn. rewrite Hp. reflexivity.
  - fold (stamp w). injection Hu as <-.
    cbn. rewrite Hp. reflexivity.
Qed.

Lemma save_and_log_keep (w : world) (lvl cat msg : string) :
  let w' := snd ((_save None ;;; logger lvl cat msg) w) in
  data w' = data w /\ tick w' = tick w /\ clock w' = clock w /\
  db_writable w' = db_writable w.
Proof.
  unfold _save, bind, get_data, write_db, logger, raise, ret. cbn.
  destruct (db_writable w) eqn:E; cbn; now rewrite ?E.
Qed.

Lemma add_package_entry (w : world) (pkgs : dict) (name : string)
      (repo dependencies installed version install_date groups provides
       pkg' : value) :
  store_packages (data w) = Some pkgs ->
  upserted (dict_get name pkgs) name installed repo dependencies groups
           provides version install_date (stamp w) = Ok pkg' ->
  let w' := snd (add_package name repo dependencies installed version
                             install_date groups provides w) in
  store_packages (data w') = Some (dict_set name pkg' pkgs) /\
  tick w' = S (tick w) /\ clock w' = clock w /\
  db_writable w' = db_writable w.
Proof.
  intros Hs Hu. unfold store_packages in Hs.
  destruct (data w) as [| | | | |d] eqn:Hd; try discriminate.
  destruct (dict_get "packages" d) as [[| | | | |p]|] eqn:Hp;
    try discriminate.
  injection Hs as ->.
  cbv zeta. rewrite (add_package_run w d pkgs name _ _ _ _ _ _ _ pkg' Hd Hp Hu).
  destruct (save_and_log_keep (mutated (with_entry d pkgs name pkg') w)
              "INFO" "database" ("Package " ++ name ++ " updated in database"))
    as (H1 & H2 & H3 & H4).
  rewrite H1, H2, H3, H4. cbn.
  split; [apply store_packages_set|]. repeat split.
Qed.

Lemma merge_entry_record (e : dict) (installed repo dependencies groups
      provides version install_date : value) (now : string) :
  exists e', merge_entry (VDict e) installed repo dependencies groups provides
                         version install_date now = Ok (VDict e').
Proof.
  unfold merge_entry. cbn.
  destruct (truthy version), (truthy install_date); cbn; eexists; reflexivity.
Qed.

(** Merging the same fields again only moves [last_update_date]. *)
Lemma merge_entry_again (e e1 : dict) (installed repo dependencies groups
      provides version install_date : value) (now1 now2 : string) :
  merge_entry (VDict e) installed repo dependencies groups provides version
              install_date now1 = Ok (VDict e1) ->
  merge_entry (VDict e1) installed repo dependencies groups provides version
              install_date now2 =
  Ok (VDict (dict_set "last_update_date" (VStr now2) e1)).
Proof.
  unfold merge_entry. cbn.
  destruct (truthy version) eqn:Hv, (truthy install_date) eqn:Hi; cbn;
    intros [= He];
    assert (H1 : dict_get "installed" e1 = Some installed)
      by (subst e1; lookup_literal);
    assert (H2 : dict_get "repo" e1 = Some repo)
      by (subst e1; lookup_literal);
    assert (H3 : dict_get "dependencies" e1 = Some dependencies)
      by (subst e1; lookup_literal);
    assert (H4 : dict_get "groups" e1 = Some (or_empty groups))
      by (subst e1; lookup_literal);
    assert (H5 : dict_get "provides" e1 = Some (or_empty provides))
      by (subst e1; lookup_literal);
    try assert (H6 : dict_get "version" e1 = Some version)
      by (subst e1; lookup_literal);
    try assert (H7 : dict_get "install_date" e1 = Some install_date)
      by (subst e1; lookup_literal);
    clear He;
    rewrite (dict_set_same _ _ _ H1), (dict_set_same _ _ _ H2),
      (dict_set_same _ _ _ H3), (dict_set_same _ _ _ H4),
      (dict_set_same _ _ _ H5);
    repeat (rewrite dict_set_same by lookup_literal);
    reflexivity.
Qed.

Lemma upserted_again (old : option value) (name : string) (e1 : dict)
      (installed repo dependencies groups provides version
       install_date : value) (now1 now2 : string) :
  (forall pkg, old = Some pkg -> is_dict pkg = true) ->
  upserted old name installed repo dependencies groups provides version
           install_date now1 = Ok (VDict e1) ->
  upserted (Some (VDict e1)) name installed repo dependencies groups provides
           version install_date now2 =
  Ok (VDict (dict_set "last_update_date" (VStr now2) e1)).
Proof.
  intros Hold. destruct old as [pkg|]; cbn [upserted].
  - specialize (Hold pkg eq_refl).
    destruct pkg as [| | | | |e]; try discriminate.
    apply merge_entry_again.
  - unfold new_entry, merge_entry. intros [= <-].
    destruct (truthy version) eqn:Hv, (truthy install_date) eqn:Hi;
      reflexivity.
Qed.

Lemma upserted_record (old : option value) (name : string)
      (installed repo dependencies groups provides version
       install_date : value) (now : string) :
  (forall pkg, old = Some pkg -> is_dict pkg = true) ->
  exists e1, upserted old name installed repo dependencies groups provides
                      version install_date now = Ok (VDict e1).
Proof.
  intros Hold. destruct old as [pkg|]; cbn [upserted].
  - specialize (Hold pkg eq_refl).
    destruct pkg as [| | | | |e]; try discriminate.
    apply merge_entry_record.
  - eexists. reflexivity.
Qed.

End Store.

Lemma absent_name_is_noop_witness :
  let w := machine (ledger three_packages VNone) false in
  set_installed "vim" true w = (Ok tt, w) /\
  add_version_history "vim" (VStr "9.1") w = (Ok tt, w).
Proof.
  intros w.
  destruct (absent_name_is_noop w three_packages "vim" true
              (VStr "9.1") eq_refl eq_refl) as (Hs & Ha & _).
  split; assumption.
Defined.

(** Asking for the installed packages of the repository aur among three. *)
Lemma query_packages_exact_witness :
  fst (query_packages
         [("installed", VBool true); ("repo", VStr "aur")]
         (machine (ledger three_packages VNone) false))
  = Ok [("paru", sample_entry "paru" "aur" true)].
Proof.
  rewrite (query_packages_exact
             (machine (ledger three_packages VNone) false) three_packages
             [("installed", VBool true); ("repo", VStr "aur")]
             eq_refl eq_refl).
  reflexivity.
Defined.

(** ** Upserting twice *)

Lemma upserted_stamp (old : option value) (name : string) (e1 : dict)
      (installed repo dependencies groups provides version
       install_date : value) (now : string) :
  (forall pkg, old = Some pkg -> is_dict pkg = true) ->
  upserted old name installed repo dependencies groups provides version
           install_date now = Ok (VDict e1) ->
  dict_get "last_update_date" e1 = Some (VStr now).
Proof.
  intros Hold. destruct old as [pkg|]; cbn [upserted].
  - specialize (Hold pkg eq_refl).
    destruct pkg as [| | | | |e]; try discriminate.
    unfold merge_entry. cbn.
    destruct (truthy version), (truthy install_date); cbn;
      intros [= <-]; lookup_literal.
  - unfold new_entry. intros [= <-]. reflexivity.
Qed.

(** C3, amended. Once a package was upserted, upserting it again with the
    same arguments keeps the fields of its entry and the value of each of
    them, except [last_update_date], which becomes the time of the second
    call as [strftime] prints it, to the second. *)
Theorem add_package_twice (w : world) (pkgs : dict) (name : string)
        (repo dependencies installed version install_date groups
         provides : value) :
  store_packages (data w) = Some pkgs ->
  (forall old, dict_get name pkgs = Some old -> is_dict old = true) ->
  let upsert := add_package name repo dependencies installed version
                            install_date groups provides in
  let w1 := snd (upsert w) in
  let w2 := snd (upsert w1) in
  exists e1 e2,
    entry_of w1 name = Some (VDict e1) /\
    entry_of w2 name = Some (VDict e2) /\
    map fst e2 = map fst e1 /\
    (forall field, field <> "last_update_date" ->
                   dict_get field e2 = dict_get field e1) /\
    dict_get "last_update_date" e2 = Some (VStr (stamp w1)).
Proof.
  intros Hs Hold upsert w1 w2.
  destruct (upserted_record (dict_get name pkgs) name installed repo
              dependencies groups provides version install_date (stamp w)
              Hold) as [e1 He1].
  destruct (add_package_entry w pkgs name repo dependencies installed version
              install_date groups provides (VDict e1) Hs He1)
    as (Hs1 & _). fold upsert w1 in Hs1.
  pose proof (upserted_again _ name e1 _ _ _ _ _ _ _ (stamp w) (stamp w1)
                Hold He1) as He2.
  pose proof (dict_get_set_eq name (VDict e1) pkgs) as Hget.
  rewrite <- Hget in He2.
  destruct (add_package_entry w1 _ name repo dependencies installed version
              install_date groups provides _ Hs1 He2) as (Hs2 & _).
  fold upsert w2 in Hs2.
  exists e1, (dict_set "last_update_date" (VStr (stamp w1)) e1).
  unfold entry_of. rewrite Hs1, Hs2, !dict_get_set_eq.
  repeat split.
  - apply dict_set_keys. unfold dict_has.
    now rewrite (upserted_stamp _ _ _ _ _ _ _ _ _ _ _ Hold He1).
  - intros field Hf. apply dict_get_set_neq. congruence.
Qed.

Lemma add_package_twice_witness :
  let upsert := add_package "htop" (VStr "core") (VList [VStr "glibc"])
                            (VBool true) (VStr "3.4.1-1") (VStr "")
                            (VList []) (VList []) in
  let w1 := snd (upsert (machine (ledger three_packages VNone) false)) in
  let w2 := snd (upsert w1) in
  exists e1 e2,
    entry_of w1 "htop" = Some (VDict e1) /\
    entry_of w2 "htop" = Some (VDict e2) /\
    map fst e2 = map fst e1 /\
    (forall field, field <> "last_update_date" ->
                   dict_get field e2 = dict_get field e1) /\
    dict_get "last_update_date" e2 = Some (VStr (stamp w1)).
Proof.
  apply (add_package_twice (machine (ledger three_packages VNone) false)
           three_packages "htop").
  - reflexivity.
  - intros old [= <-]. reflexivity.
Defined.

(** C3 as it is worded fails: two identical upserts of a package of the
    ledger, the second 200 ms after the first, within the same second. The
    clock went forward and [last_update_date] did not. *)
Lemma add_package_twice_same_second :
  let upsert := add_package "htop" (VStr "core") (VList [VStr "glibc"])
                            (VBool true) (VStr "3.4.1-1") (VStr "")
                            (VList []) (VList []) in
  let w0 := machine (ledger three_packages VNone) false in
  let w1 := snd (upsert w0) in
  let w2 := snd (upsert w1) in
  clock w0 (tick w0) < clock w1 (tick w1) /\
  entry_field w1 "htop" "last_update_date"
  = Some (VStr "Tue 03 Nov 2026 05:29:00 PM ") /\
  entry_field w2 "htop" "last_update_date"
  = Some (VStr "Tue 03 Nov 2026 05:29:00 PM ").
Proof. vm_compute. repeat split. Qed.

(** ** Uninstalling *)

(** What [set_installed] does to a name whose entry is a record. *)
Lemma set_installed_run (w : world) (d pkgs e : dict) (name : string)
      (installed : bool) :
  data w = VDict d ->
  dict_get "packages" d = Some (VDict pkgs) ->
  dict_get name pkgs = Some (VDict e) ->
  set_installed name installed w =
  (_save None ;;;
   logger "INFO" "database"
          ("Package " ++ name ++ " marked as " ++
           (if installed then "installed" else "uninstalled")))
    (mutated
       (with_entry d pkgs name
                   (VDict (dict_set "last_update_date" (VStr (stamp w))
                             (dict_set "installed" (VBool installed) e))))
       w).
Proof.
  intros Hd Hp He.
  unfold set_installed, now_human, packages, put_entry, bind, now, get_data,
    lift, ret, set_data. cbn [data].
  rewrite Hd. cbn [py_getitem]. rewrite Hp. cbn [py_contains].
  unfold dict_has. rewrite He.
  repeat (rewrite ?Hd, ?Hp, ?He, ?dict_get_set_eq;
          cbn [py_getitem py_setitem data tick clock]).
  rewrite !dict_set_set.
  unfold mutated, with_entry, set_data, now, stamp. cbn.
  reflexivity.
Qed.

(** ** Commands *)

Lemma with_log_with_log (l1 l2 : list log_entry) (w : world) :
  with_log l2 (with_log l1 w) = with_log l2 w.
Proof. reflexivity. Qed.

(** Running a command writes to the log and nowhere else. *)
Lemma run_command_quiet (cmd : list string) (check : bool) (w : world) :
  exists r l, _run_command cmd check w = (r, with_log l w).
Proof.
  unfold _run_command, try, bind, logger, ret, raise, describe. cbn.
  destruct (proc w cmd) as [code text| |e]; cbn.
  - destruct (check && negb (code =? 0)); cbn; eexists; eexists; reflexivity.
  - eexists; eexists; reflexivity.
  - destruct e; cbn; eexists; eexists; reflexivity.
Qed.

Ltac settle_escape H1 H2 :=
  first [ discriminate H1
        | injection H1 as <-;
          first [ discriminate H2 | split; reflexivity | reflexivity ] ].

(** What [_run_command] raises is a [PacwrapError], or what
    [subprocess.run] raised when no clause catches it. *)
Lemma run_command_escape (cmd : list string) (check : bool) (w : world) :
  exists r l,
    _run_command cmd check w = (r, with_log l w) /\
    (forall e, r = Raise e -> is_PacwrapError e = false ->
               proc w cmd = Crash e /\ escapes e = true) /\
    (forall e, proc w cmd = Crash e -> escapes e = true -> r = Raise e).
Proof.
  unfold _run_command, try, bind, logger, ret, raise, describe. cbn.
  destruct (proc w cmd) as [code text| |e]; cbn.
  - destruct (check && negb (code =? 0)); cbn; eexists; eexists;
      (split; [reflexivity|]); split; intros e' H1 H2; settle_escape H1 H2.
  - eexists; eexists. split; [reflexivity|].
    split; intros e' H1 H2; settle_escape H1 H2.
  - destruct e; cbn; eexists; eexists; (split; [reflexivity|]);
      split; intros e' H1 H2; settle_escape H1 H2.
Qed.

Lemma attempt_run_command (cmd : list string) (check : bool) (w : world) :
  exists r l, attempt (_run_command cmd check) w = (Ok r, with_log l w).
Proof.
  unfold attempt.
  destruct (run_command_quiet cmd check w) as (r & l & ->).
  eexists; eexists; reflexivity.
Qed.

(** A checked command that is caught: the answer is [True] only when the
    command ended with the status 0, and what is raised is what
    [subprocess.run] raised. *)
Lemma checked_command_quiet (cmd : list string) (w : world) :
  exists r l,
    try (_run_command cmd true ;;; ret true) is_PacwrapError
        (fun _ => ret false) w = (r, with_log l w) /\
    (r = Ok true -> exists text, proc w cmd = Exit 0 text) /\
    (forall e, r = Raise e -> proc w cmd = Crash e) /\
    (failed (proc w cmd) = true -> r <> Ok true).
Proof.
  unfold _run_command, try, bind, logger, raise, ret, describe. cbn.
  destruct (proc w cmd) as [code text| |e]; cbn.
  - destruct (code =? 0) eqn:Hc; cbn.
    + apply Z.eqb_eq in Hc as ->.
      eexists; eexists. split; [reflexivity|].
      split; [eauto|]. split; [discriminate|discriminate].
    + eexists; eexists. split; [reflexivity|].
      split; [discriminate|]. split; discriminate.
  - eexists; eexists. split; [reflexivity|].
    split; [discriminate|]. split; discriminate.
  - destruct e; cbn; eexists; eexists; (split; [reflexivity|]);
      (split; [discriminate|]); (split; [|discriminate]);
      intros e' [= <-]; reflexivity.
Qed.

Lemma remove_package_frame (package : string) (dry : bool) (w : world) :
  same_store w (snd (remove_package package dry w)) /\
  (failed (proc w ["sudo"; "pacman"; "-R"; package]) = true ->
   dry = false -> fst (remove_package package dry w) <> Ok true).
Proof.
  destruct dry.
  - unfold remove_package, bind, print, ret. cbn.
    split; [repeat split|discriminate].
  - assert (Hrun : exists r l,
               remove_package package false w = (r, with_log l w) /\
               (failed (proc w ["sudo"; "pacman"; "-R"; package]) = true ->
                r <> Ok true)).
    { unfold remove_package. unfold bind at 1. unfold logger at 1.
      match goal with
      | |- context [try ?c ?h ?k ?W] =>
          destruct (checked_command_quiet
                      ["sudo"; "pacman"; "-R"; package] W)
            as (r & l & -> & _ & _ & Hfail)
      end.
      exists r, l. split; [reflexivity|exact Hfail]. }
    destruct Hrun as (r & l & -> & Hfail). cbn [fst snd].
    split; [repeat split|]. intros Hf _. now apply Hfail.
Qed.

(** C5. When [cmd_uninstall] reports success for a package that the ledger
    holds as installed, the ledger has the same names in the same order, the
    entry of the package is still there with [installed] false and
    [last_update_date] set to the time of the call, each of its other fields,
    [update_history] among them, is what it was, and the other entries are
    untouched. *)
Theorem cmd_uninstall_retains_entry (w : world) (pkgs e : dict)
        (name : string) (others : list string) :
  store_packages (data w) = Some pkgs ->
  dict_get name pkgs = Some (VDict e) ->
  dict_get "installed" e = Some (VBool true) ->
  fst (cmd_uninstall (name :: others) w) = Ok true ->
  let w' := snd (cmd_uninstall (name :: others) w) in
  exists pkgs' e',
    store_packages (data w') = Some pkgs' /\
    map fst pkgs' = map fst pkgs /\
    dict_get name pkgs' = Some (VDict e') /\
    dict_get "installed" e' = Some (VBool false) /\
    dict_get "last_update_date" e' = Some (VStr (stamp w)) /\
    dict_get "update_history" e' = dict_get "update_history" e /\
    (forall field, field <> "installed" -> field <> "last_update_date" ->
                   dict_get field e' = dict_get field e) /\
    (forall other, other <> name ->
                   dict_get other pkgs' = dict_get other pkgs).
Proof.
  intros Hs He Hi Hfst.
  destruct (cmd_uninstall (name :: others) w) as [r w'] eqn:Hrun.
  cbn [fst snd] in *. subst r.
  unfold store_packages in Hs.
  destruct (data w) as [| | | | |d] eqn:Hd; try discriminate.
  destruct (dict_get "packages" d) as [[| | | | |p]|] eqn:Hp;
    try discriminate.
  injection Hs as ->.
  set (e' := dict_set "last_update_date" (VStr (stamp w))
               (dict_set "installed" (VBool false) e)).
  assert (Hdata : data w' = with_entry d pkgs name (VDict e')).
  { unfold cmd_uninstall, try, bind in Hrun. cbn [fst snd] in Hrun.
    destruct (remove_package_frame name (dryrun w) w)
      as ((Hd1 & _ & Hw1 & Hc1 & Ht1 & _) & _).
    assert (Hstep : exists r1 w1,
               (if negb (dryrun w) then remove_package name (dryrun w)
                else ret true) w = (r1, w1) /\
               data w1 = VDict d /\ stamp w1 = stamp w).
    { destruct (dryrun w); cbn [negb].
      - exists (Ok true), w. repeat split. assumption.
      - destruct (remove_package name false w) as [r w1].
        cbn [fst snd] in *. exists r, w1.
        repeat split; [congruence|]. unfold stamp. now rewrite Hc1, Ht1. }
    destruct Hstep as (r1 & w1 & Hstep & Hd1' & Hst1).
    rewrite Hstep in Hrun.
    destruct r1 as [b1|e1].
    2:{ unfold is_Exception, describe, bind, print, ret in Hrun.
        cbn in Hrun. discriminate. }
    destruct b1.
    2:{ unfold print, ret in Hrun. cbn in Hrun. discriminate. }
    rewrite (set_installed_run w1 d pkgs e name false Hd1' Hp He) in Hrun.
    rewrite Hst1 in Hrun. fold e' in Hrun.
    unfold _save, bind, get_data, write_db, logger, raise, print, ret,
      mutated, set_data, now, is_Exception in Hrun.
    cbn in Hrun.
    destruct (db_writable w1); cbn in Hrun; [|discriminate].
    injection Hrun as <-. reflexivity. }
  exists (dict_set name (VDict e') pkgs), e'.
  rewrite Hdata. unfold with_entry.
  split; [apply store_packages_set|].
  split; [apply dict_set_keys; unfold dict_has; now rewrite He|].
  split; [apply dict_get_set_eq|].
  unfold e'.
  split; [lookup_literal|].
  split; [lookup_literal|].
  split; [now rewrite !dict_get_set_neq by discriminate|].
  split.
  - intros field H1 H2. rewrite !dict_get_set_neq by congruence. reflexivity.
  - intros other Ho. apply dict_get_set_neq. congruence.
Qed.

Lemma cmd_uninstall_retains_entry_witness :
  let w := machine (ledger three_packages VNone) false in
  let w' := snd (cmd_uninstall ["htop"] w) in
  exists pkgs' e',
    store_packages (data w') = Some pkgs' /\
    map fst pkgs' = map fst three_packages /\
    dict_get "htop" pkgs' = Some (VDict e') /\
    dict_get "installed" e' = Some (VBool false) /\
    dict_get "update_history" e'
    = Some (VList [VDict [("version", VStr "3.4.0-1");
                          ("date", VStr "Mon 05 Oct 2026 09:00:00 AM ")]]).
Proof.
  intros w w'.
  destruct (cmd_uninstall_retains_entry w three_packages
              [("name", VStr "htop");
               ("installed", VBool true);
               ("repo", VStr "core");
               ("dependencies", VList [VStr "glibc"]);
               ("groups", VList []);
               ("provides", VList []);
               ("version", VStr "3.4.1-1");
               ("install_date", VStr "Mon 05 Oct 2026 09:00:00 AM ");
               ("update_history",
                VList [VDict [("version", VStr "3.4.0-1");
                              ("date", VStr "Mon 05 Oct 2026 09:00:00 AM ")]]);
               ("last_update_date", VStr "Mon 05 Oct 2026 09:00:00 AM ")]
              "htop" [] eq_refl eq_refl eq_refl eq_refl)
    as (pkgs' & e' & H1 & H2 & H3 & H4 & _ & H6 & _).
  exists pkgs', e'. repeat split; assumption.
Defined.

(** ** Dry runs *)

Section DryRun.

Context {L : DateLib}.

Lemma check_update_policy_world (w : world) :
  snd (_check_update_policy w) = w \/
  snd (_check_update_policy w) = snd (now w).
Proof.
  unfold _check_update_policy, bind, get_data, lift, ret, now.
  destruct (py_getitem (data w) "metadata") as [meta|]; cbn; auto.
  destruct (py_get meta "last_full_update_date" VNone) as [v|]; cbn; auto.
  destruct (truthy v); cbn; auto.
  destruct (parse_last_update v) as [[dt|]|]; cbn; auto.
  destruct (days_since _ dt); cbn; auto.
Qed.

(** C10. A dry run still writes the ledger. With [dryrun] set and a ledger
    file that can be written, uninstalling a package that has an entry
    succeeds without any command being run, and the file then holds the
    entry with [installed] false; and an update that is forced, or due by
    the policy, succeeds and the file then holds, under
    [last_full_update_date], the time at which the command ran. *)
Theorem dryrun_still_writes :
  (forall (w : world) (pkgs e : dict) (name : string) (others : list string),
      dryrun w = true ->
      db_writable w = true ->
      store_packages (data w) = Some pkgs ->
      dict_get name pkgs = Some (VDict e) ->
      let w' := snd (cmd_uninstall (name :: others) w) in
      fst (cmd_uninstall (name :: others) w) = Ok true /\
      db_file w' = Json (data w') /\
      entry_field w' name "installed" = Some (VBool false)) /\
  (forall (w : world) (d meta : dict) (force interactive must : bool)
          (msg : string),
      (forall t, fromisoformat (Clock.strftime_human (Naive t)) = None) ->
      dryrun w = true ->
      db_writable w = true ->
      data w = VDict d ->
      dict_get "metadata" d = Some (VDict meta) ->
      fst (_check_update_policy w) = Ok (must, msg) ->
      force || must = true ->
      let w' := snd (cmd_update force interactive w) in
      fst (cmd_update force interactive w) = Ok true /\
      db_file w' = Json (data w') /\
      exists n, (n = tick w \/ n = S (tick w)) /\
                stored_timestamp w' =
                Ok (VStr (Clock.strftime_human (Naive (clock w n))))).
Proof.
  split.
  - intros w pkgs e name others Hdry Hwr Hs He.
    unfold store_packages in Hs.
    destruct (data w) as [| | | | |d] eqn:Hd; try discriminate.
    destruct (dict_get "packages" d) as [[| | | | |p]|] eqn:Hp;
      try discriminate.
    injection Hs as ->.
    unfold cmd_uninstall, try, bind. cbn [fst snd]. rewrite Hdry.
    cbn [negb ret].
    rewrite (set_installed_run w d pkgs e name false Hd Hp He).
    unfold _save, bind, get_data, write_db, logger, raise, print, ret,
      mutated, set_data, now, entry_field, entry_of, with_entry.
    cbn. rewrite Hwr. cbn.
    rewrite !dict_get_set_eq.
    repeat split. lookup_literal.
  - intros w d meta force interactive must msg Hlaw Hdry Hwr Hd Hm Hpol Hdue.
    assert (Hw1 : exists n, (n = tick w \/ n = S (tick w)) /\
                  snd (_check_update_policy w) =
                  World (data w) (db_file w) (db_writable w) (log w) (out w)
                        (clock w) n (dryrun w) (aur_helper w) (proc w)
                        (stdin w) (str_exn w)
                (db_error w)).
    { destruct (check_update_policy_world w) as [-> | ->].
      - exists (tick w). split; [now left|]. now destruct w.
      - exists (S (tick w)). split; [now right|]. reflexivity. }
    destruct Hw1 as (n & Hn & Hw1).
    unfold cmd_update, bind.
    destruct (_check_update_policy w) as [r w1]. cbn [fst snd] in *.
    subst r w1.
    assert (Hgo : negb force && negb must = false)
      by (destruct force, must; try reflexivity; discriminate).
    rewrite Hgo.
    unfold try, bind, ret, update_system, print, now_human, now,
      update_metadata, lift, get_data, set_data, _save, write_db, logger,
      stored_timestamp.
    cbn. rewrite Hdry. cbn.
    unfold iso_to_human, py_fromisoformat. rewrite Hlaw.
    cbn. rewrite Hd. cbn. rewrite Hm. cbn. rewrite Hwr. cbn.
    rewrite !dict_get_set_eq. cbn. rewrite !dict_get_set_eq.
    repeat split. exists n. split; [assumption|reflexivity].
Qed.

End DryRun.

(** The excerpt agrees with CPython on this: a date printed in the human
    format starts with the name of a day and is no ISO text. *)
Lemma excerpt_rejects_human (t : Z) :
  excerpt_fromisoformat (Clock.strftime_human (Naive t)) = None.
Proof.
  unfold Clock.strftime_human.
  destruct (Clock.civil _) as [[y m] d].
  generalize (Z.to_nat (t / Clock.us_per_second / 86400 mod 7)).
  intros n. unfold excerpt_fromisoformat.
  do 7 (destruct n as [|n]; [reflexivity|]). destruct n; reflexivity.
Qed.

Lemma dryrun_still_writes_witness :
  (let w := machine (ledger three_packages VNone) true in
   let w' := snd (cmd_uninstall ["htop"] w) in
   fst (cmd_uninstall ["htop"] w) = Ok true /\
   db_file w' = Json (data w') /\
   entry_field w' "htop" "installed" = Some (VBool false)) /\
  (let w := machine (ledger three_packages VNone) true in
   let w' := snd (@cmd_update excerpt false false w) in
   fst (@cmd_update excerpt false false w) = Ok true /\
   db_file w' = Json (data w') /\
   stored_timestamp w' = Ok (VStr "Tue 03 Nov 2026 05:29:00 PM ")).
Proof.
  destruct (@dryrun_still_writes excerpt) as [Hun Hup].
  split.
  - apply (Hun (machine (ledger three_packages VNone) true) three_packages
               [("name", VStr "htop");
                ("installed", VBool true);
                ("repo", VStr "core");
                ("dependencies", VList [VStr "glibc"]);
                ("groups", VList []);
                ("provides", VList []);
                ("version", VStr "3.4.1-1");
                ("install_date", VStr "Mon 05 Oct 2026 09:00:00 AM ");
                ("update_history",
                 VList [VDict [("version", VStr "3.4.0-1");
                               ("date",
                                VStr "Mon 05 Oct 2026 09:00:00 AM ")]]);
                ("last_update_date", VStr "Mon 05 Oct 2026 09:00:00 AM ")]
               "htop" []); reflexivity.
  - destruct (Hup (machine (ledger three_packages VNone) true)
                  [("packages", VDict three_packages);
                   ("metadata", VDict [("last_full_update_date", VNone)])]
                  [("last_full_update_date", VNone)]
                  false false true "No previous update found"
                  excerpt_rejects_human eq_refl eq_refl eq_refl eq_refl
                  eq_refl eq_refl) as (H1 & H2 & n & Hn & H3).
    cbv zeta. split; [exact H1|]. split; [exact H2|].
    rewrite H3. destruct Hn as [-> | ->]; reflexivity.
Defined.

(** ** Importing *)

Lemma add_package_ok (w : world) (d pkgs : dict) (name : string)
      (repo dependencies installed version install_date groups provides
       pkg' : value) :
  data w = VDict d ->
  dict_get "packages" d = Some (VDict pkgs) ->
  db_writable w = true ->
  upserted (dict_get name pkgs) name installed repo dependencies groups
           provides version install_date (stamp w) = Ok pkg' ->
  add_package name repo dependencies installed version install_date groups
              provides w =
  (Ok tt, upsert_world w (with_entry d pkgs name pkg') name).
Proof.
  intros Hd Hp Hw Hu.
  rewrite (add_package_run w d pkgs name _ _ _ _ _ _ _ pkg' Hd Hp Hu).
  unfold _save, bind, get_data, write_db, logger, ret, mutated, set_data, now,
    upsert_world.
  cbn. rewrite Hw. reflexivity.
Qed.

Lemma has_all_record (keys : list string) (e : dict) :
  has_all keys (VDict e) = Ok (forallb (fun key => dict_has key e) keys).
Proof.
  induction keys as [|key rest IH]; cbn; [reflexivity|].
  destruct (dict_has key e); cbn; [exact IH|reflexivity].
Qed.

Lemma import_entry_record (name : string) (e : dict) :
  import_entry name (VDict e) =
  add_package name
              (dict_get_or "repo" (VStr "unknown") e)
              (dict_get_or "dependencies" (VList []) e)
              (dict_get_or "installed" (VBool false) e)
              (dict_get_or "version" (VStr "") e)
              (dict_get_or "install_date" (VStr "") e)
              (dict_get_or "groups" (VList []) e)
              (dict_get_or "provides" (VList []) e).
Proof. reflexivity. Qed.

Lemma entries_are_records_set (name : string) (e : dict) (pkgs : dict) :
  entries_are_records pkgs = true ->
  entries_are_records (dict_set name (VDict e) pkgs) = true.
Proof.
  unfold entries_are_records.
  induction pkgs as [|[k v] pkgs IH]; cbn; [reflexivity|].
  intros H. apply andb_prop in H as [Hv Hr].
  destruct (String.eqb k name); cbn; [now rewrite Hr|].
  now rewrite Hv, IH.
Qed.

Lemma entries_are_records_get (name : string) (pkg : value) (pkgs : dict) :
  entries_are_records pkgs = true ->
  dict_get name pkgs = Some pkg -> is_dict pkg = true.
Proof.
  unfold entries_are_records.
  induction pkgs as [|[k v] pkgs IH]; cbn; [discriminate|].
  intros H. apply andb_prop in H as [Hv Hr].
  destruct (String.eqb k name); [now intros [= <-]|auto].
Qed.

(** One turn of the import loop on a record that has the required fields. *)
Lemma import_entry_ok (w : world) (name : string) (e : dict) :
  ledger_ok w ->
  exists d pkgs e',
    data w = VDict d /\ dict_get "packages" d = Some (VDict pkgs) /\
    imported_entry (dict_get name pkgs) name e (stamp w) = Ok (VDict e') /\
    import_entry name (VDict e) w =
    (Ok tt, upsert_world w (with_entry d pkgs name (VDict e')) name) /\
    ledger_ok (upsert_world w (with_entry d pkgs name (VDict e')) name).
Proof.
  intros (d & pkgs & Hd & Hp & Hr & Hw).
  destruct (upserted_record (dict_get name pkgs) name
              (dict_get_or "installed" (VBool false) e)
              (dict_get_or "repo" (VStr "unknown") e)
              (dict_get_or "dependencies" (VList []) e)
              (dict_get_or "groups" (VList []) e)
              (dict_get_or "provides" (VList []) e)
              (dict_get_or "version" (VStr "") e)
              (dict_get_or "install_date" (VStr "") e)
              (stamp w)) as [e' He'].
  { intros pkg Hg. exact (entries_are_records_get _ _ _ Hr Hg). }
  exists d, pkgs, e'. repeat split; try assumption.
  - rewrite import_entry_record. now apply add_package_ok.
  - exists (dict_set "packages" (VDict (dict_set name (VDict e') pkgs)) d),
           (dict_set name (VDict e') pkgs).
    repeat split.
    + apply dict_get_set_eq.
    + now apply entries_are_records_set.
Qed.

Lemma same_ledger_ok (w1 w2 : world) :
  same_ledger w1 w2 -> ledger_ok w1 -> ledger_ok w2.
Proof.
  intros (Hd & _ & Hw & _) (d & pkgs & H1 & H2 & H3 & H4).
  exists d, pkgs. repeat split; congruence.
Qed.

Lemma same_ledger_stamp (w1 w2 : world) :
  same_ledger w1 w2 -> stamp w1 = stamp w2.
Proof. intros (_ & _ & _ & Hc & Ht). unfold stamp. now rewrite Hc, Ht. Qed.

(** The import loop against the plain sequence of upserts of the entries
    that have the required fields: same ledger, same file, one warning for
    each of the others, and a counter that went up by the number of
    upserts. *)
Lemma import_items_run (items : dict) :
  entries_are_records items = true ->
  forall (w1 w2 : world) (k : Z),
    same_ledger w1 w2 -> ledger_ok w1 ->
    exists w1' w2',
      import_items items k w1 =
      (Ok (k + Z.of_nat
                 (List.length (filter (fun kv => importable (snd kv)) items))),
       w1') /\
      upsert_all (filter (fun kv => importable (snd kv)) items) w2 =
      (Ok tt, w2') /\
      same_ledger w1' w2' /\ ledger_ok w1' /\ out w1' = out w1 /\
      filter is_warning (log w1') =
      (filter is_warning (log w1) ++
       map skip_warning
           (filter (fun kv => negb (importable (snd kv))) items))%list.
Proof.
  unfold entries_are_records.
  induction items as [|[name pkg] rest IH]; intros Hrec w1 w2 k Hsame Hok.
  - exists w1, w2. cbn. rewrite Z.add_0_r, app_nil_r.
    split; [reflexivity|]. split; [reflexivity|].
    split; [exact Hsame|]. split; [exact Hok|]. split; reflexivity.
  - cbn [forallb snd] in Hrec. apply andb_prop in Hrec as [Hpkg Hrest].
    destruct pkg as [| | | | |e]; try discriminate.
    cbn [import_items filter snd negb].
    unfold bind at 1, lift at 1. rewrite has_all_record.
    change (forallb (fun key => dict_has key e) required_fields)
      with (importable (VDict e)).
    destruct (importable (VDict e)) eqn:Himp; cbn [negb].
    + destruct (import_entry_ok w1 name e Hok)
        as (d & pkgs & e' & Hd & Hp & He' & Hrun1 & Hok1).
      destruct (import_entry_ok w2 name e (same_ledger_ok _ _ Hsame Hok))
        as (d2 & pkgs2 & e2 & Hd2 & Hp2 & He2 & Hrun2 & _).
      assert (d2 = d) as ->
          by (destruct Hsame as (Hdata & _); congruence).
      assert (pkgs2 = pkgs) as -> by congruence.
      rewrite <- (same_ledger_stamp _ _ Hsame) in He2.
      assert (e2 = e') as -> by congruence.
      set (W1 := upsert_world w1 (with_entry d pkgs name (VDict e')) name)
        in *.
      set (W2 := upsert_world w2 (with_entry d pkgs name (VDict e')) name)
        in *.
      assert (HS : same_ledger W1 W2).
      { destruct Hsame as (_ & _ & _ & Hc & Ht).
        unfold same_ledger, W1, W2, upsert_world. cbn.
        repeat split; congruence. }
      destruct (IH Hrest W1 W2 (k + 1) HS Hok1)
        as (w1' & w2' & Hi & Hu & HS' & Hok' & Hout & Hlog).
      exists w1', w2'.
      unfold bind. rewrite Hrun1. cbn [upsert_all]. unfold bind.
      rewrite Hrun2, Hi, Hu.
      split; [f_equal; f_equal; cbn [List.length]; lia|].
      split; [reflexivity|]. split; [exact HS'|]. split; [exact Hok'|].
      split; [exact Hout|].
      rewrite Hlog. unfold W1, upsert_world. cbn [log].
      rewrite !filter_app. cbn. now rewrite !app_nil_r.
    + set (W1 := snd (logger "WARNING" "import"
                        ("Skipping package " ++ name ++
                         ": missing required fields") w1)).
      assert (HS : same_ledger W1 w2) by exact Hsame.
      assert (Hok1 : ledger_ok W1) by exact Hok.
      destruct (IH Hrest W1 w2 k HS Hok1)
        as (w1' & w2' & Hi & Hu & HS' & Hok' & Hout & Hlog).
      exists w1', w2'.
      unfold bind, logger at 1. fold W1.
      change (import_items rest k
                (World (data w1) (db_file w1) (db_writable w1)
                       (log w1 ++ [LogEntry "WARNING" "import"
                                     ("Skipping package " ++ name ++
                                      ": missing required fields")])
                       (out w1) (clock w1) (tick w1) (dryrun w1)
                       (aur_helper w1) (proc w1) (stdin w1) (str_exn w1)
                (db_error w1)))
        with (import_items rest k W1).
      rewrite Hi, Hu.
      split; [reflexivity|]. split; [reflexivity|].
      split; [exact HS'|]. split; [exact Hok'|]. split; [exact Hout|].
      rewrite Hlog. unfold W1, logger. cbn [snd log].
      rewrite filter_app. cbn. now rewrite <- app_assoc.
Qed.

Lemma same_ledger_refl (w : world) : same_ledger w w.
Proof. repeat split. Qed.

(** ** Export, then import *)

Lemma export_items_records (items : dict) :
  entries_are_records items = true ->
  export_items false items = Ok (map strip_history items).
Proof.
  unfold entries_are_records.
  induction items as [|[name pkg] rest IH]; cbn; [reflexivity|].
  intros H. apply andb_prop in H as [Hd Hr].
  destruct pkg as [| | | | |e]; try discriminate.
  cbn. now rewrite (IH Hr).
Qed.

Lemma export_data_run (w : world) (pkgs : dict) :
  store_packages (data w) = Some pkgs ->
  entries_are_records pkgs = true ->
  export_data false w =
  (Ok (VDict [("packages", VDict (map strip_history pkgs))]), w).
Proof.
  intros Hs Hr.
  unfold export_data, packages, bind, get_data, lift, ret.
  rewrite (store_packages_getitem _ _ Hs). cbn.
  now rewrite (export_items_records _ Hr).
Qed.

Lemma dict_get_In (name : string) (v : value) (d : dict) :
  dict_get name d = Some v -> In (name, v) d.
Proof.
  induction d as [|[k x] d IH]; cbn; [discriminate|].
  destruct (String.eqb_spec k name) as [->|Hk].
  - intros [= ->]. now left.
  - intros H. right. auto.
Qed.

Lemma entry_of_ledger (w : world) (d pkgs : dict) (name : string) :
  data w = VDict d -> dict_get "packages" d = Some (VDict pkgs) ->
  entry_of w name = dict_get name pkgs.
Proof.
  intros Hd Hp. unfold entry_of, store_packages. now rewrite Hd, Hp.
Qed.

Lemma entry_of_upsert_world (w : world) (d pkgs : dict) (name other : string)
      (pkg : value) :
  entry_of (upsert_world w (with_entry d pkgs name pkg) name) other =
  dict_get other (dict_set name pkg pkgs).
Proof.
  unfold entry_of, upsert_world, with_entry. cbn [data].
  now rewrite store_packages_set.
Qed.

(** Importing entries under new, distinct names: each accepted one is
    created at the time of its turn, and no other name is touched. *)
Lemma import_items_fresh (items : dict) :
  entries_are_records items = true ->
  NoDup (map fst items) ->
  forall (w : world) (k : Z),
    ledger_ok w ->
    (forall name, In name (map fst items) -> entry_of w name = None) ->
    let w' := snd (import_items items k w) in
    (forall name e,
        In (name, VDict e) items -> importable (VDict e) = true ->
        exists n, imported_entry None name e
                    (Clock.strftime_human (Naive (clock w n))) =
                  Ok (new_entry name
                        (dict_get_or "installed" (VBool false) e)
                        (dict_get_or "repo" (VStr "unknown") e)
                        (dict_get_or "dependencies" (VList []) e)
                        (dict_get_or "groups" (VList []) e)
                        (dict_get_or "provides" (VList []) e)
                        (dict_get_or "version" (VStr "") e)
                        (dict_get_or "install_date" (VStr "") e)
                        (Clock.strftime_human (Naive (clock w n)))) /\
                  entry_of w' name =
                  Some (new_entry name
                          (dict_get_or "installed" (VBool false) e)
                          (dict_get_or "repo" (VStr "unknown") e)
                          (dict_get_or "dependencies" (VList []) e)
                          (dict_get_or "groups" (VList []) e)
                          (dict_get_or "provides" (VList []) e)
                          (dict_get_or "version" (VStr "") e)
                          (dict_get_or "install_date" (VStr "") e)
                          (Clock.strftime_human (Naive (clock w n))))) /\
    (forall name, ~ In name (map fst items) ->
                  entry_of w' name = entry_of w name) /\
    clock w' = clock w.
Proof.
  unfold entries_are_records.
  induction items as [|[name pkg] rest IH];
    intros Hrec Hnd w k Hok Hfresh.
  - cbn. repeat split. intros name e [].
  - cbn [forallb snd] in Hrec. apply andb_prop in Hrec as [Hpkg Hrest].
    destruct pkg as [| | | | |e]; try discriminate.
    cbn [map fst] in Hnd, Hfresh. inversion Hnd as [|? ? Hnotin Hnd']; subst.
    destruct (importable (VDict e)) eqn:Himp.
    + destruct (import_entry_ok w name e Hok)
        as (d & pkgs & e' & Hd & Hp & He' & Hrun & Hok1).
      assert (Hnone : dict_get name pkgs = None).
      { rewrite <- (entry_of_ledger w d pkgs name Hd Hp).
        apply Hfresh. now left. }
      rewrite Hnone in He'. unfold imported_entry, upserted in He'.
      injection He' as He'.
      set (W1 := upsert_world w (with_entry d pkgs name (VDict e')) name)
        in *.
      assert (Heq : import_items ((name, VDict e) :: rest) k w =
                    import_items rest (k + 1) W1).
      { cbn [import_items]. unfold bind at 1, lift at 1.
        rewrite has_all_record.
        change (forallb (fun key => dict_has key e) required_fields)
          with (importable (VDict e)).
        rewrite Himp. unfold bind. now rewrite Hrun. }
      rewrite Heq.
      assert (Hfresh1 : forall other, In other (map fst rest) ->
                                      entry_of W1 other = None).
      { intros other Hin. unfold W1. rewrite entry_of_upsert_world.
        rewrite dict_get_set_neq by (intros ->; contradiction).
        rewrite <- (entry_of_ledger w d pkgs other Hd Hp).
        apply Hfresh. now right. }
      destruct (IH Hrest Hnd' W1 (k + 1) Hok1 Hfresh1) as (Ha & Hb & Hc).
      split; [|split].
      * intros name0 e0 [Hhead | Htail] Himp0.
        -- injection Hhead as <- <-.
           exists (tick w). split; [reflexivity|].
           rewrite (Hb name Hnotin). unfold W1.
           rewrite entry_of_upsert_world, dict_get_set_eq.
           now rewrite <- He'.
        -- destruct (Ha name0 e0 Htail Himp0) as (n & Hn1 & Hn2).
           exists n. replace (clock w) with (clock W1) by reflexivity.
           split; assumption.
      * intros other Hnot. cbn [map fst In] in Hnot.
        rewrite (Hb other) by tauto. unfold W1.
        rewrite entry_of_upsert_world.
        rewrite dict_get_set_neq by (intros ->; tauto).
        symmetry. apply (entry_of_ledger w d pkgs other Hd Hp).
      * exact Hc.
    + set (W1 := snd (logger "WARNING" "import"
                        ("Skipping package " ++ name ++
                         ": missing required fields") w)).
      assert (Heq : import_items ((name, VDict e) :: rest) k w =
                    import_items rest k W1).
      { cbn [import_items]. unfold bind at 1, lift at 1.
        rewrite has_all_record.
        change (forallb (fun key => dict_has key e) required_fields)
          with (importable (VDict e)).
        rewrite Himp. reflexivity. }
      rewrite Heq.
      assert (Hok1 : ledger_ok W1) by exact Hok.
      assert (Hfresh1 : forall other, In other (map fst rest) ->
                                      entry_of W1 other = None).
      { intros other Hin. apply (Hfresh other). now right. }
      destruct (IH Hrest Hnd' W1 k Hok1 Hfresh1) as (Ha & Hb & Hc).
      split; [|split].
      * intros name0 e0 [Hhead | Htail] Himp0.
        -- injection Hhead as <- <-. congruence.
        -- exact (Ha name0 e0 Htail Himp0).
      * intros other Hnot. cbn [map fst In] in Hnot.
        rewrite (Hb other) by tauto. reflexivity.
      * exact Hc.
Qed.

Lemma dict_has_pop (k : string) (e : dict) :
  k <> "update_history" ->
  dict_has k (dict_pop "update_history" e) = dict_has k e.
Proof.
  intros H. unfold dict_has. rewrite dict_pop_get_neq; congruence.
Qed.

Lemma importable_strip (e : dict) :
  importable (VDict (dict_pop "update_history" e)) = importable (VDict e).
Proof.
  unfold importable, required_fields. cbn [forallb].
  now rewrite !dict_has_pop by discriminate.
Qed.

Lemma dict_get_or_pop (k : string) (dflt : value) (e : dict) :
  k <> "update_history" ->
  dict_get_or k dflt (dict_pop "update_history" e) = dict_get_or k dflt e.
Proof.
  intros H. unfold dict_get_or. rewrite dict_pop_get_neq; congruence.
Qed.

Lemma dict_has_some (k : string) (e : dict) :
  dict_has k e = true -> exists x, dict_get k e = Some x.
Proof.
  unfold dict_has. destruct (dict_get k e) as [x|]; [eauto|discriminate].
Qed.

(** What a complete entry becomes when it is exported without its history
    and created again at the time [now]. *)
Lemma reimported_fields (name : string) (e : dict) (now : string) :
  complete_entry name e = true ->
  exists e',
    new_entry name
      (dict_get_or "installed" (VBool false) (dict_pop "update_history" e))
      (dict_get_or "repo" (VStr "unknown") (dict_pop "update_history" e))
      (dict_get_or "dependencies" (VList []) (dict_pop "update_history" e))
      (dict_get_or "groups" (VList []) (dict_pop "update_history" e))
      (dict_get_or "provides" (VList []) (dict_pop "update_history" e))
      (dict_get_or "version" (VStr "") (dict_pop "update_history" e))
      (dict_get_or "install_date" (VStr "") (dict_pop "update_history" e))
      now = VDict e' /\
    (forall field, In field kept_fields ->
                   dict_get field e' = dict_get field e) /\
    dict_get "update_history" e' = Some (VList []) /\
    dict_get "last_update_date" e' = Some (VStr now).
Proof.
  unfold complete_entry. intros H.
  apply andb_prop in H as [H Hdate]. apply andb_prop in H as [H Hver].
  apply andb_prop in H as [H Hprov]. apply andb_prop in H as [H Hgrp].
  apply andb_prop in H as [Himp Hname].
  unfold importable, required_fields in Himp. cbn [forallb] in Himp.
  apply andb_prop in Himp as [Hrepo Himp].
  apply andb_prop in Himp as [Hinst Himp].
  apply andb_prop in Himp as [Hdeps Himp].
  apply andb_prop in Himp as [Hgroups Himp].
  apply andb_prop in Himp as [Hprovides _].
  apply dict_has_some in Hrepo as [vrepo Erepo].
  apply dict_has_some in Hinst as [vinst Einst].
  apply dict_has_some in Hdeps as [vdeps Edeps].
  apply dict_has_some in Hgroups as [vgroups Egroups].
  apply dict_has_some in Hprovides as [vprovides Eprovides].
  apply dict_has_some in Hver as [vver Ever].
  destruct (dict_get "name" e) as [[| | |n| |]|] eqn:Ename;
    try discriminate.
  apply String.eqb_eq in Hname. subst n.
  unfold dict_get_or in Hdate.
  destruct (dict_get "install_date" e) as [vdate|] eqn:Edate;
    [|discriminate].
  rewrite Egroups in Hgrp. rewrite Eprovides in Hprov.
  rewrite !dict_get_or_pop by discriminate.
  unfold new_entry, dict_get_or.
  rewrite Erepo, Einst, Edeps, Egroups, Eprovides, Ever, Edate, Hdate.
  eexists. split; [reflexivity|].
  split; [|split; reflexivity].
  intros field Hin. cbn [kept_fields In] in Hin.
  destruct Hin as [<-|[<-|[<-|[<-|[<-|[<-|[<-|[<-|[]]]]]]]]]; cbn;
    try (symmetry; assumption).
  - rewrite Egroups. destruct vgroups; try reflexivity; discriminate.
  - rewrite Eprovides. destruct vprovides; try reflexivity; discriminate.
Qed.

Lemma cmd_import_run (w : world) (path : string) (others : list string)
      (fs : string -> import_file) (doc : value) (items : dict) :
  fs path = Parsed doc ->
  store_packages doc = Some items ->
  entries_are_records items = true ->
  ledger_ok w ->
  exists msg,
    cmd_import (path :: others) fs w =
    (Ok true, snd (print msg (snd (import_items items 0 w)))).
Proof.
  intros Hfs Hsome Hrec Hok.
  unfold store_packages in Hsome.
  destruct doc as [| | | | |dd]; try discriminate.
  destruct (dict_get "packages" dd) as [[| | | | |p]|] eqn:Hp;
    try discriminate.
  injection Hsome as ->.
  destruct (import_items_run items Hrec w w 0 (same_ledger_refl w) Hok)
    as (w1 & w2 & Hi & _).
  eexists.
  unfold cmd_import. rewrite Hfs.
  unfold try, bind, lift. cbn [py_get]. rewrite Hp. cbn [is_dict negb].
  cbn [py_items]. rewrite Hi. cbn. reflexivity.
Qed.

Lemma entries_are_records_strip (pkgs : dict) :
  entries_are_records pkgs = true ->
  entries_are_records (map strip_history pkgs) = true.
Proof.
  unfold entries_are_records.
  induction pkgs as [|[name pkg] rest IH]; cbn; [reflexivity|].
  intros H. apply andb_prop in H as [Hd Hr].
  destruct pkg; try discriminate. cbn. auto.
Qed.

(** C2, amended. Exporting a ledger without its history and importing the
    document into an empty ledger gives back, for every entry made the way
    [add_package] makes them, the fields [name], [repo], [installed],
    [dependencies], [groups], [provides], [version] and [install_date];
    [update_history] comes back empty and [last_update_date] is the time of
    the import, not the exported one. *)
Theorem export_import_roundtrip (w w0 : world) (pkgs : dict) (path : string)
        (others : list string) (fs : string -> import_file) (doc : value) :
  store_packages (data w) = Some pkgs ->
  entries_are_records pkgs = true ->
  NoDup (map fst pkgs) ->
  fst (export_data false w) = Ok doc ->
  fs path = Parsed doc ->
  ledger_ok w0 ->
  store_packages (data w0) = Some [] ->
  let w' := snd (cmd_import (path :: others) fs w0) in
  fst (cmd_import (path :: others) fs w0) = Ok true /\
  forall name e,
    dict_get name pkgs = Some (VDict e) ->
    complete_entry name e = true ->
    exists e' n,
      entry_of w' name = Some (VDict e') /\
      (forall field, In field kept_fields ->
                     dict_get field e' = dict_get field e) /\
      dict_get "update_history" e' = Some (VList []) /\
      dict_get "last_update_date" e' =
      Some (VStr (Clock.strftime_human (Naive (clock w0 n)))).
Proof.
  intros Hs Hrec Hnd Hexp Hfs Hok Hempty w'.
  rewrite (export_data_run w pkgs Hs Hrec) in Hexp.
  injection Hexp as <-.
  set (items := map strip_history pkgs) in *.
  assert (Hrec' : entries_are_records items = true)
    by now apply entries_are_records_strip.
  destruct (cmd_import_run w0 path others fs _ items Hfs eq_refl Hrec' Hok)
    as [msg Hrun].
  subst w'. rewrite Hrun. cbn [fst snd].
  split; [reflexivity|].
  intros name e Hget Hcomplete.
  assert (Hnd' : NoDup (map fst items)).
  { unfold items. rewrite map_map. cbn. exact Hnd. }
  assert (Hfresh : forall other, In other (map fst items) ->
                                 entry_of w0 other = None).
  { intros other _. unfold entry_of. now rewrite Hempty. }
  destruct (import_items_fresh items Hrec' Hnd' w0 0 Hok Hfresh)
    as (Ha & _ & _).
  assert (Hin : In (name, VDict (dict_pop "update_history" e)) items).
  { unfold items.
    change (name, VDict (dict_pop "update_history" e))
      with (strip_history (name, VDict e)).
    apply in_map. now apply dict_get_In. }
  assert (Himp : importable (VDict (dict_pop "update_history" e)) = true).
  { rewrite importable_strip. pose proof Hcomplete as Hc.
    unfold complete_entry in Hc.
    do 5 (apply andb_prop in Hc as [Hc _]). exact Hc. }
  destruct (Ha name _ Hin Himp) as (n & _ & Hentry).
  destruct (reimported_fields name e
              (Clock.strftime_human (Naive (clock w0 n))) Hcomplete)
    as (e' & He' & Hkept & Hhist & Hlast).
  exists e', n.
  unfold entry_of in *. cbn [print snd data] in *.
  rewrite Hentry, He'. repeat split; assumption.
Qed.

Lemma export_import_roundtrip_witness :
  let w := machine (ledger three_packages VNone) false in
  let doc := VDict [("packages", VDict (map strip_history three_packages))] in
  let w' := snd (cmd_import ["export.json"] (fun _ => Parsed doc)
                            (machine (ledger [] VNone) false)) in
  exists e' n,
    entry_of w' "paru" = Some (VDict e') /\
    (forall field, In field kept_fields ->
                   dict_get field e' =
                   dict_get field
                     [("name", VStr "paru");
                      ("installed", VBool true);
                      ("repo", VStr "aur");
                      ("dependencies", VList [VStr "glibc"]);
                      ("groups", VList []);
                      ("provides", VList []);
                      ("version", VStr "3.4.1-1");
                      ("install_date", VStr "Mon 05 Oct 2026 09:00:00 AM ");
                      ("update_history",
                       VList [VDict [("version", VStr "3.4.0-1");
                                     ("date",
                                      VStr "Mon 05 Oct 2026 09:00:00 AM ")]]);
                      ("last_update_date",
                       VStr "Mon 05 Oct 2026 09:00:00 AM ")]) /\
    dict_get "update_history" e' = Some (VList []) /\
    dict_get "last_update_date" e' =
    Some (VStr (Clock.strftime_human
                  (Naive (clock (machine (ledger [] VNone) false) n)))).
Proof.
  intros w doc w'.
  destruct (export_import_roundtrip w (machine (ledger [] VNone) false)
              three_packages "export.json" [] (fun _ => Parsed doc) doc)
    as (_ & Hentries); try reflexivity.
  - repeat constructor; cbn; intuition discriminate.
  - exists [("packages", VDict []);
            ("metadata", VDict [("last_full_update_date", VNone)])], [].
    repeat split.
  - apply (Hentries "paru"); reflexivity.
Defined.

(** C2 as it is worded fails on [last_update_date]: the entry of htop was
    last updated on 5 October, and after the export and the import into an
    empty ledger on 3 November it says 3 November. *)
Lemma export_import_restamps :
  let w := machine (ledger three_packages VNone) false in
  let w0 := machine (ledger [] VNone) false in
  let doc := VDict [("packages", VDict (map strip_history three_packages))] in
  let w' := snd (cmd_import ["export.json"] (fun _ => Parsed doc) w0) in
  fst (export_data false w) = Ok doc /\
  fst (cmd_import ["export.json"] (fun _ => Parsed doc) w0) = Ok true /\
  entry_field w "htop" "last_update_date"
  = Some (VStr "Mon 05 Oct 2026 09:00:00 AM ") /\
  entry_field w' "htop" "last_update_date"
  = Some (VStr "Tue 03 Nov 2026 05:29:00 PM ").
Proof. cbv zeta. repeat split; vm_compute; reflexivity. Qed.

(** ** Loading *)

Section Load.

Context {L : DateLib}.


End Load.



(** ** Scanning the system *)

(** C8, where the code departs from it. pacman reports that bash is in no
    group and provides sh; [cmd_updatedb] records the dependencies under
    their bare names and records no provide at all, because the branch for
    the official repositories tests the text of the groups where the branch
    for the helper tests the text of the provides: the latter keeps sh on
    the same lines. *)
Theorem updatedb_drops_provides :
  let w' := snd (cmd_updatedb (machine_with_bash (ledger [] VNone))) in
  fst (cmd_updatedb (machine_with_bash (ledger [] VNone))) = Ok true /\
  entry_field w' "bash" "dependencies"
  = Some (VList [VStr "readline"; VStr "libreadline.so"; VStr "glibc";
                 VStr "ncurses"]) /\
  entry_field w' "bash" "provides" = Some (VList []) /\
  snd (scan_lines si_aur_line (PyStr.splitlines pacman_si_bash) None
                  (base_info "bash"))
  = Ok [("name", VStr "bash"); ("dependencies", VList []);
        ("groups", VList []); ("provides", VList [VStr "sh"])].
Proof. cbv zeta. repeat split; vm_compute; reflexivity. Qed.

(** * Further properties *)

(** ** Bare names *)

Section Names.

Lemma append_cons (c : ascii) (b rest : string) :
  String c b ++ rest = String c (b ++ rest).
Proof. reflexivity. Qed.

(** A separator that starts with an operator is not found at the start of
    a text that starts otherwise. *)
Lemma startswith_operator (sep : string) (c : ascii) (s : string) :
  decorated sep = true -> is_operator c = false ->
  PyStr.startswith sep (String c s) = false.
Proof.
  destruct sep as [|c' sep']; cbn; [discriminate|].
  intros Hop Hc. destruct (ascii_dec c' c) as [->|Hne]; [congruence|].
  reflexivity.
Qed.

Lemma split_head_bare_prefix (sep b rest : string) :
  decorated sep = true -> bare b = true ->
  PyStr.split_head sep (b ++ rest) = b ++ PyStr.split_head sep rest.
Proof.
  intros Hsep. induction b as [|c b IH]; [reflexivity|].
  cbn [bare]. intros Hb. apply andb_prop in Hb as [Hc Hb].
  rewrite !append_cons. cbn [PyStr.split_head].
  rewrite (startswith_operator sep c (b ++ rest) Hsep)
    by (now destruct (is_operator c)).
  now rewrite IH.
Qed.

Lemma bare_name_bare_prefix (b rest : string) :
  bare b = true -> bare_name (b ++ rest) = b ++ bare_name rest.
Proof.
  intros Hb. unfold bare_name.
  now rewrite !split_head_bare_prefix by (assumption || reflexivity).
Qed.

(** Cutting at a separator keeps the first character, or leaves nothing. *)
Lemma split_head_first (sep : string) (c : ascii) (s : string) :
  PyStr.split_head sep (String c s) = "" \/
  exists t, PyStr.split_head sep (String c s) = String c t.
Proof.
  cbn [PyStr.split_head].
  destruct (PyStr.startswith sep (String c s)); eauto.
Qed.

Lemma split_head_empty (sep : string) : PyStr.split_head sep "" = "".
Proof. reflexivity. Qed.

Lemma split_head_hit (c : ascii) (s : string) :
  PyStr.split_head (String c "") (String c s) = "".
Proof.
  cbn [PyStr.split_head]. unfold PyStr.startswith. cbn [String.prefix].
  destruct (ascii_dec c c) as [_|Hne]; [|contradiction].
  now destruct s.
Qed.

Lemma bare_name_decorated (s : string) :
  decorated s = true -> bare_name s = "".
Proof.
  destruct s as [|c s]; cbn [decorated]; [discriminate|].
  unfold is_operator, bare_name. intros Hop.
  destruct (split_head_first ">=" c s) as [-> | [t1 ->]];
    [reflexivity|].
  destruct (split_head_first "<=" c t1) as [-> | [t2 ->]];
    [reflexivity|].
  destruct (Ascii.eqb_spec c "=") as [->|Heq].
  { now rewrite split_head_hit. }
  destruct (split_head_first "=" c t2) as [-> | [t3 ->]];
    [reflexivity|].
  destruct (Ascii.eqb_spec c ">") as [->|Hgt].
  { now rewrite split_head_hit. }
  destruct (split_head_first ">" c t3) as [-> | [t4 ->]];
    [reflexivity|].
  destruct (Ascii.eqb_spec c "<") as [->|Hlt]; [|discriminate].
  now rewrite split_head_hit.
Qed.

(** [bare_name] reads a name up to its first operator. *)
Lemma bare_name_cons (c : ascii) (s : string) :
  bare_name (String c s) =
  if is_operator c then "" else String c (bare_name s).
Proof.
  destruct (is_operator c) eqn:Hc.
  - now apply bare_name_decorated.
  - change (String c s) with (String c "" ++ s).
    rewrite bare_name_bare_prefix; [reflexivity|].
    cbn. now rewrite Hc.
Qed.

Lemma string_app_empty (s : string) : s ++ "" = s.
Proof. induction s as [|c s IH]; [reflexivity|]. now rewrite append_cons, IH. Qed.

(** X1. A name followed by a version constraint, that is by anything that
    starts with [<], [>] or [=], or by nothing, is stored as the name. *)
Theorem bare_name_strips (name rest : string) :
  bare name = true ->
  decorated rest = true \/ rest = "" ->
  bare_name (name ++ rest) = name.
Proof.
  intros Hb Hrest. rewrite (bare_name_bare_prefix name rest Hb).
  destruct Hrest as [Hd | ->].
  - now rewrite (bare_name_decorated rest Hd), string_app_empty.
  - apply string_app_empty.
Qed.

(** X2. Whatever the tool prints, the identifier that is stored holds none
    of [<], [>] and [=], and storing it again changes nothing. *)
Theorem bare_name_is_bare (s : string) :
  bare (bare_name s) = true /\ bare_name (bare_name s) = bare_name s.
Proof.
  assert (Hbare : forall t, bare (bare_name t) = true).
  { induction t as [|c t IH]; [reflexivity|].
    rewrite bare_name_cons. destruct (is_operator c) eqn:Hc; [reflexivity|].
    cbn [bare]. now rewrite Hc, IH. }
  split; [apply Hbare|].
  rewrite <- (string_app_empty (bare_name s)) at 1.
  apply bare_name_strips; [apply Hbare | now right].
Qed.

End Names.

Lemma bare_name_strips_witness :
  bare_name ("libreadline.so" ++ "=8-64") = "libreadline.so" /\
  bare_name ("foo" ++ ">=1.2") = "foo" /\ bare_name ("foo" ++ "") = "foo".
Proof.
  split; [|split].
  - apply (bare_name_strips "libreadline.so" "=8-64");
      [reflexivity | left; reflexivity].
  - apply (bare_name_strips "foo" ">=1.2"); [reflexivity | left; reflexivity].
  - apply (bare_name_strips "foo" ""); [reflexivity | right; reflexivity].
Defined.

(** ** The scan of the system *)

Section Scan.

Lemma dict_get_set (K k : string) (v : value) (d : dict) :
  dict_get K (dict_set k v d) =
  if String.eqb k K then Some v else dict_get K d.
Proof.
  destruct (String.eqb_spec k K) as [->|Hne].
  - apply dict_get_set_eq.
  - now apply dict_get_set_neq.
Qed.

Lemma clean_info_set (k : string) (v : value) (info : dict) :
  clean_info info = true ->
  k <> "name" ->
  (k = "dependencies" \/ k = "groups" \/ k = "provides" ->
   bare_list v = true) ->
  clean_info (dict_set k v info) = true.
Proof.
  unfold clean_info, dict_get_or. intros Hc Hn Hl.
  apply andb_prop in Hc as [Hc HD]. apply andb_prop in Hc as [Hc HC].
  apply andb_prop in Hc as [HA HB].
  rewrite !dict_get_set.
  destruct (String.eqb_spec k "name") as [E|_]; [contradiction|].
  rewrite HA. cbn [andb].
  destruct (String.eqb_spec k "dependencies") as [E1|_];
    [rewrite (Hl (or_introl E1))|rewrite HB];
    (destruct (String.eqb_spec k "groups") as [E2|_];
     [rewrite (Hl (or_intror (or_introl E2)))|rewrite HC]);
    (destruct (String.eqb_spec k "provides") as [E3|_];
     [rewrite (Hl (or_intror (or_intror E3)))|rewrite HD]);
    reflexivity.
Qed.

Lemma bare_names_bare (text : string) : bare_list (bare_names text) = true.
Proof.
  unfold bare_names, bare_list.
  induction (PyStr.words text) as [|g gs IH]; [reflexivity|].
  cbn [map forallb]. rewrite IH.
  now destruct (bare_name_is_bare g) as [-> _].
Qed.

Lemma si_official_line_clean (g : option string) (info info' : dict)
      (line : string) :
  clean_info info = true ->
  snd (si_official_line g info line) = Ok info' ->
  clean_info info' = true.
Proof.
  intros Hc. unfold si_official_line.
  destruct (PyStr.startswith "Repository" line).
  { cbn [snd]. destruct (field_value line); cbn; [|discriminate].
    intros [= <-]. apply clean_info_set; [assumption|discriminate|].
    intros [H|[H|H]]; discriminate. }
  destruct (PyStr.startswith "Groups" line).
  { destruct (field_value line) as [t|]; cbn; [|discriminate].
    intros [= <-]. apply clean_info_set; [assumption|discriminate|].
    intros _. destruct (is_named t); [apply bare_names_bare|reflexivity]. }
  destruct (PyStr.startswith "Provides" line); [|now intros [= <-]].
  cbn [snd]. destruct (field_value line) as [p|]; cbn; [|discriminate].
  destruct (String.eqb p "").
  { intros [= <-]. apply clean_info_set; [assumption|discriminate|].
    reflexivity. }
  destruct g as [t|]; [|discriminate].
  intros [= <-]. apply clean_info_set; [assumption|discriminate|].
  intros _. destruct (negb (String.eqb t "None"));
    [apply bare_names_bare|reflexivity].
Qed.

Lemma si_aur_line_clean (g : option string) (info info' : dict)
      (line : string) :
  clean_info info = true ->
  snd (si_aur_line g info line) = Ok info' ->
  clean_info info' = true.
Proof.
  intros Hc. unfold si_aur_line.
  destruct (PyStr.startswith "Groups" line).
  { destruct (field_value line) as [t|]; cbn; [|discriminate].
    intros [= <-]. apply clean_info_set; [assumption|discriminate|].
    intros _. destruct (is_named t); [apply bare_names_bare|reflexivity]. }
  destruct (PyStr.startswith "Provides" line); [|now intros [= <-]].
  cbn [snd]. destruct (field_value line) as [p|]; cbn; [|discriminate].
  intros [= <-]. apply clean_info_set; [assumption|discriminate|].
  intros _. destruct (is_named p); [apply bare_names_bare|reflexivity].
Qed.

Lemma scan_lines_clean
      (body : option string -> dict -> string -> option string * result dict)
      (lines : list string) :
  (forall g info info' line,
      clean_info info = true -> snd (body g info line) = Ok info' ->
      clean_info info' = true) ->
  forall g info info',
    clean_info info = true ->
    snd (scan_lines body lines g info) = Ok info' ->
    clean_info info' = true.
Proof.
  intros Hbody. induction lines as [|line rest IH]; intros g info info' Hc.
  - cbn. now intros [= <-].
  - cbn [scan_lines].
    destruct (body g info line) as [g1 [info1|e]] eqn:Hb; [|discriminate].
    apply IH. apply (Hbody g info info1 line Hc). now rewrite Hb.
Qed.

Lemma qi_line_clean (info info' : dict) (line : string) :
  clean_info info = true -> qi_line info line = Ok info' ->
  clean_info info' = true.
Proof.
  intros Hc. unfold qi_line.
  repeat match goal with
         | |- context [if PyStr.startswith ?p line then _ else _] =>
             destruct (PyStr.startswith p line)
         end;
    try (now intros [= <-]);
    (destruct (field_value line) as [t|]; cbn; [|discriminate];
     intros [= <-]; apply clean_info_set;
     [assumption | discriminate | ]);
    try (intros [H|[H|H]]; discriminate).
  intros _. unfold bare_list.
  induction (filter (fun dep => negb (String.eqb dep "None")) (PyStr.words t))
    as [|dep deps IH]; [reflexivity|].
  cbn [map forallb]. rewrite IH.
  now destruct (bare_name_is_bare dep) as [-> _].
Qed.

Lemma scan_qi_clean (lines : list string) :
  forall info info',
    clean_info info = true -> scan_qi lines info = Ok info' ->
    clean_info info' = true.
Proof.
  induction lines as [|line rest IH]; intros info info' Hc.
  - cbn. now intros [= <-].
  - cbn [scan_qi]. destruct (qi_line info line) as [info1|e] eqn:Hq;
      cbn; [|discriminate].
    apply IH. exact (qi_line_clean info info1 line Hc Hq).
Qed.

Lemma base_info_repo_clean (pkg repo : string) :
  clean_info (dict_set "repo" (VStr repo) (base_info pkg)) = true.
Proof. reflexivity. Qed.

(** The inspection of one package ends, whatever the commands answer,
    writes to the log only, and what it returns is clean. *)
Lemma package_info_quiet (pkg : string) (g : option string) (w : world) :
  exists g' r l,
    package_info pkg g w = (Ok (g', r), with_log l w) /\
    forall info, r = Ok info -> clean_info info = true.
Proof.
  unfold package_info, bind at 1.
  destruct (attempt_run_command ["pacman"; "-Si"; pkg] false w)
    as (r1 & l1 & ->).
  destruct r1 as [[code text]|e];
    [|do 3 eexists; split; [reflexivity|discriminate]].
  assert (Hst : exists st l2,
             (if code =? 0
              then ret (scan_lines si_official_line (PyStr.splitlines text) g
                          (dict_set "repo" (VStr "unknown") (base_info pkg)))
              else
                helper <- (fun w0 => (Ok (aur_helper w0), w0)) ;;
                match helper with
                | Some h =>
                    r2 <- attempt (_run_command [h; "-Si"; pkg] false) ;;
                    match r2 with
                    | Raise e => ret (g, Raise e)
                    | Ok (code2, text2) =>
                        ret (if code2 =? 0
                             then scan_lines si_aur_line
                                    (PyStr.splitlines text2) g
                                    (dict_set "repo" (VStr "aur")
                                              (base_info pkg))
                             else (g, Ok (dict_set "repo" (VStr "aur")
                                                   (base_info pkg))))
                    end
                | None =>
                    ret (g, Ok (dict_set "repo" (VStr "aur") (base_info pkg)))
                end) (with_log l1 w) = (Ok st, with_log l2 w) /\
             forall info, snd st = Ok info -> clean_info info = true).
  { destruct (code =? 0).
    { do 2 eexists. split; [reflexivity|]. intros info.
      apply (scan_lines_clean si_official_line);
        [exact si_official_line_clean | apply base_info_repo_clean]. }
    unfold bind at 1. cbn [aur_helper with_log].
    destruct (aur_helper w) as [h|].
    2:{ do 2 eexists. split; [reflexivity|]. cbn. now intros info [= <-]. }
    unfold bind.
    destruct (attempt_run_command [h; "-Si"; pkg] false (with_log l1 w))
      as (r2 & l2 & ->).
    rewrite with_log_with_log.
    destruct r2 as [[code2 text2]|e].
    2:{ do 2 eexists. split; [reflexivity|]. cbn. discriminate. }
    do 2 eexists. split; [reflexivity|].
    destruct (code2 =? 0).
    - intros info.
      apply (scan_lines_clean si_aur_line);
        [exact si_aur_line_clean | apply base_info_repo_clean].
    - cbn. now intros info [= <-]. }
  destruct Hst as ([g1 r1] & l2 & Hst & Hclean).
  unfold bind at 1. rewrite Hst.
  destruct r1 as [info|e];
    [|do 3 eexists; split; [reflexivity|discriminate]].
  unfold bind.
  destruct (attempt_run_command ["pacman"; "-Qi"; pkg] true (with_log l2 w))
    as (r3 & l3 & ->).
  rewrite with_log_with_log.
  destruct r3 as [[code3 text3]|e];
    do 3 eexists; (split; [reflexivity|]); [|discriminate].
  intros info'. apply scan_qi_clean. now apply Hclean.
Qed.

(** The loop over the names ends with a list, writes to the log only, and
    keeps what it has found clean and explicit. *)
Lemma scan_packages_quiet (names : list string) :
  forall (g : option string) (found : list dict) (w : world),
    forallb (fun i => clean_info i && explicit_info i) found = true ->
    exists found' l,
      scan_packages names g found w = (Ok found', with_log l w) /\
      forallb (fun i => clean_info i && explicit_info i) found' = true.
Proof.
  induction names as [|raw rest IH]; intros g found w Hfound.
  - exists found, (log w). split; [now destruct w|assumption].
  - cbn [scan_packages].
    destruct (String.eqb (PyStr.strip raw) ""); [now apply IH|].
    unfold bind at 1.
    destruct (package_info_quiet (PyStr.strip raw) g w)
      as (g' & r & l & -> & Hclean).
    destruct r as [info|e].
    + fold (explicit_info info).
      destruct (explicit_info info) eqn:Hex.
      * destruct (IH g' (found ++ [info])%list (with_log l w))
          as (found' & l' & Hrun & Hall).
        { rewrite forallb_app, Hfound. cbn.
          now rewrite (Hclean info eq_refl), Hex. }
        exists found', l'. now rewrite Hrun.
      * unfold bind, logger. cbn [with_log log].
        destruct (IH g' found
                    (with_log (l ++ [LogEntry "INFO" "updatedb"
                                       ("Skipping package " ++
                                        PyStr.strip raw ++
                                        ": not explicitly installed")])
                              w) Hfound)
          as (found' & l' & Hrun & Hall).
        exists found', l'. split; [|assumption]. exact Hrun.
    + unfold bind, logger, describe. cbn [with_log log str_exn].
      destruct (IH g' found
                  (with_log (l ++ [LogEntry "ERROR" "updatedb"
                                     ("Failed to process package " ++
                                      PyStr.strip raw ++ ": " ++
                                      str_of (str_exn w) e)])
                            w) Hfound)
        as (found' & l' & Hrun & Hall).
      exists found', l'. split; [|assumption]. exact Hrun.
Qed.

(** The scan ends with a list of clean, explicit packages, unless listing
    the packages raised an exception that nothing catches. *)
Lemma scan_run (w : world) :
  exists l,
    match listing_crash w with
    | Some e =>
        get_explicitly_installed_packages w = (Raise e, with_log l w)
    | None =>
        exists found,
          get_explicitly_installed_packages w = (Ok found, with_log l w) /\
          forallb (fun i => clean_info i && explicit_info i) found = true
    end.
Proof.
  unfold get_explicitly_installed_packages, try, bind.
  destruct (run_command_escape ["pacman"; "-Qqe"] true w)
    as (r & l & -> & Hraise & Hcrash).
  unfold listing_crash.
  destruct r as [[code text]|e].
  - destruct (scan_packages_quiet (PyStr.splitlines (snd (code, text))) None
                [] (with_log l w) eq_refl) as (found & l' & -> & Hall).
    exists l'.
    destruct (proc w ["pacman"; "-Qqe"]) as [c t| |e]; eauto.
    destruct (escapes e) eqn:He; eauto.
    discriminate (Hcrash e eq_refl He).
  - destruct (is_PacwrapError e) eqn:Hp.
    + unfold describe, logger, ret. cbn [with_log log str_exn].
      eexists.
      destruct (proc w ["pacman"; "-Qqe"]) as [c t| |e'];
        try (eexists; split; reflexivity).
      destruct (escapes e') eqn:He; [|eexists; split; reflexivity].
      injection (Hcrash e' eq_refl He) as <-.
      unfold escapes in He. rewrite Hp, !orb_true_r in He. discriminate.
    + destruct (Hraise e eq_refl Hp) as (-> & ->). now exists l.
Qed.

(** X3. The scan of the system only writes to the log. Whatever the
    package manager and the helper answer for each package, it ends with a
    list, and every package in it has a name, is explicitly installed and
    lists its dependencies, groups and provides under bare names. It raises
    in one case only: when listing the packages with [pacman -Qqe] makes
    [subprocess.run] raise an exception that is neither CalledProcessError
    nor FileNotFoundError (nor a PacwrapError); that exception is the one
    that leaves the scan. *)
Theorem scan_fails_only_at_listing (w : world) :
  exists l,
    match listing_crash w with
    | Some e =>
        get_explicitly_installed_packages w = (Raise e, with_log l w)
    | None =>
        exists found,
          get_explicitly_installed_packages w = (Ok found, with_log l w) /\
          forallb (fun i => clean_info i && explicit_info i) found = true
    end.
Proof. exact (scan_run w). Qed.

End Scan.

(** ** More on upserts *)

Section Upserts.

Lemma dict_set_keys_new (k : string) (v : value) (d : dict) :
  dict_has k d = false -> map fst (dict_set k v d) = (map fst d ++ [k])%list.
Proof.
  unfold dict_has.
  induction d as [|[k' v'] d IH]; cbn; [reflexivity|].
  destruct (String.eqb k' k) eqn:E; cbn; [discriminate|].
  intros H. now rewrite IH.
Qed.

(** X4. Upserting an existing package with no version and no install date
    (the way [cmd_install] does) keeps its [version], its [install_date],
    its [name] and its [update_history]; it sets [installed], [repo],
    [dependencies], [groups] and [provides] to the ones given ([None]
    becoming the empty list) and [last_update_date] to the time of the
    call. *)
Theorem add_package_keeps_unset (w : world) (pkgs e : dict) (name : string)
        (repo dependencies installed version install_date groups
         provides : value) :
  store_packages (data w) = Some pkgs ->
  dict_get name pkgs = Some (VDict e) ->
  truthy version = false ->
  truthy install_date = false ->
  let w' := snd (add_package name repo dependencies installed version
                             install_date groups provides w) in
  exists e',
    entry_of w' name = Some (VDict e') /\
    dict_get "version" e' = dict_get "version" e /\
    dict_get "install_date" e' = dict_get "install_date" e /\
    dict_get "name" e' = dict_get "name" e /\
    dict_get "update_history" e' = dict_get "update_history" e /\
    dict_get "installed" e' = Some installed /\
    dict_get "repo" e' = Some repo /\
    dict_get "dependencies" e' = Some dependencies /\
    dict_get "groups" e' = Some (or_empty groups) /\
    dict_get "provides" e' = Some (or_empty provides) /\
    dict_get "last_update_date" e' = Some (VStr (stamp w)).
Proof.
  intros Hs He Hv Hi w'.
  assert (Hu : upserted (dict_get name pkgs) name installed repo dependencies
                        groups provides version install_date (stamp w) =
               Ok (VDict
                     (dict_set "last_update_date" (VStr (stamp w))
                        (dict_set "provides" (or_empty provides)
                           (dict_set "groups" (or_empty groups)
                              (dict_set "dependencies" dependencies
                                 (dict_set "repo" repo
                                    (dict_set "installed" installed e)))))))).
  { rewrite He. unfold upserted, merge_entry. cbn. now rewrite Hv, Hi. }
  destruct (add_package_entry w pkgs name repo dependencies installed version
              install_date groups provides _ Hs Hu) as (Hs' & _).
  fold w' in Hs'.
  eexists. unfold entry_of. rewrite Hs', dict_get_set_eq.
  split; [reflexivity|].
  repeat split;
    first [ lookup_literal
          | now rewrite !dict_get_set_neq by discriminate ].
Qed.

(** X5. An upsert touches one name: the other entries are what they were;
    the names of the ledger keep their order, a new name going last. *)
Theorem add_package_frame (w : world) (pkgs : dict) (name : string)
        (repo dependencies installed version install_date groups
         provides : value) :
  store_packages (data w) = Some pkgs ->
  (forall old, dict_get name pkgs = Some old -> is_dict old = true) ->
  let w' := snd (add_package name repo dependencies installed version
                             install_date groups provides w) in
  exists pkgs',
    store_packages (data w') = Some pkgs' /\
    (forall other, other <> name ->
                   dict_get other pkgs' = dict_get other pkgs) /\
    map fst pkgs' = (if dict_has name pkgs then map fst pkgs
                     else map fst pkgs ++ [name])%list.
Proof.
  intros Hs Hold w'.
  destruct (upserted_record (dict_get name pkgs) name installed repo
              dependencies groups provides version install_date (stamp w)
              Hold) as [e1 He1].
  destruct (add_package_entry w pkgs name repo dependencies installed version
              install_date groups provides (VDict e1) Hs He1) as (Hs' & _).
  fold w' in Hs'.
  exists (dict_set name (VDict e1) pkgs). split; [assumption|]. split.
  - intros other Ho. apply dict_get_set_neq. congruence.
  - destruct (dict_has name pkgs) eqn:Hh.
    + now apply dict_set_keys.
    + now apply dict_set_keys_new.
Qed.

(** X6. When the ledger file cannot be opened for writing, an upsert
    raises [PacwrapError] with the text of the error of [open] in its
    message and leaves the file as it was, but the entry is already changed
    in memory; the failure is logged with the same text. *)
Theorem add_package_unsaved (w : world) (pkgs : dict) (name : string)
        (repo dependencies installed version install_date groups
         provides : value) :
  store_packages (data w) = Some pkgs ->
  (forall old, dict_get name pkgs = Some old -> is_dict old = true) ->
  db_writable w = false ->
  let run := add_package name repo dependencies installed version
                         install_date groups provides w in
  let text := str_of (str_exn w) (db_error w) in
  fst run = Raise (PacwrapError ("Database save failed: " ++ text)) /\
  db_file (snd run) = db_file w /\
  (exists e', entry_of (snd run) name = Some (VDict e') /\
              dict_get "last_update_date" e' = Some (VStr (stamp w))) /\
  log (snd run) =
  (log w ++ [LogEntry "ERROR" "database"
                      ("Failed to save database: " ++ text)])%list.
Proof.
  intros Hs Hold Hw run text.
  destruct (upserted_record (dict_get name pkgs) name installed repo
              dependencies groups provides version install_date (stamp w)
              Hold) as [e1 He1].
  unfold store_packages in Hs.
  destruct (data w) as [| | | | |d] eqn:Hd; try discriminate.
  destruct (dict_get "packages" d) as [[| | | | |p]|] eqn:Hp;
    try discriminate.
  injection Hs as ->.
  subst run text.
  rewrite (add_package_run w d pkgs name _ _ _ _ _ _ _ (VDict e1) Hd Hp He1).
  unfold _save, bind, get_data, logger, raise, describe, mutated, set_data,
    now, entry_of, with_entry.
  cbn. rewrite Hw. cbn.
  rewrite !dict_get_set_eq.
  split; [reflexivity|]. split; [reflexivity|]. split; [|reflexivity].
  exists e1. split; [reflexivity|].
  exact (upserted_stamp _ _ _ _ _ _ _ _ _ _ _ Hold He1).
Qed.

End Upserts.

Lemma add_package_keeps_unset_witness :
  let w' := snd (add_package "htop" (VStr "aur") (VList []) (VBool true)
                             (VStr "") (VStr "") VNone VNone
                             (machine (ledger three_packages VNone) false)) in
  entry_field w' "htop" "version" = Some (VStr "3.4.1-1") /\
  entry_field w' "htop" "repo" = Some (VStr "aur") /\
  entry_field w' "htop" "groups" = Some (VList []).
Proof.
  intros w'.
  destruct (add_package_keeps_unset
              (machine (ledger three_packages VNone) false) three_packages
              [("name", VStr "htop");
               ("installed", VBool true);
               ("repo", VStr "core");
               ("dependencies", VList [VStr "glibc"]);
               ("groups", VList []);
               ("provides", VList []);
               ("version", VStr "3.4.1-1");
               ("install_date", VStr "Mon 05 Oct 2026 09:00:00 AM ");
               ("update_history",
                VList [VDict [("version", VStr "3.4.0-1");
                              ("date", VStr "Mon 05 Oct 2026 09:00:00 AM ")]]);
               ("last_update_date", VStr "Mon 05 Oct 2026 09:00:00 AM ")]
              "htop" (VStr "aur") (VList []) (VBool true) (VStr "") (VStr "")
              VNone VNone eq_refl eq_refl eq_refl eq_refl)
    as (e' & He & Hv & _ & _ & _ & _ & Hr & _ & Hg & _).
  fold w' in He. unfold entry_field. rewrite He.
  repeat split; assumption.
Defined.

Lemma add_package_frame_witness :
  let w' := snd (add_package "vim" (VStr "core") (VList []) (VBool true)
                             (VStr "") (VStr "") VNone VNone
                             (machine (ledger three_packages VNone) false)) in
  exists pkgs',
    store_packages (data w') = Some pkgs' /\
    dict_get "htop" pkgs' = dict_get "htop" three_packages /\
    map fst pkgs' = ["htop"; "paru"; "yay"; "vim"].
Proof.
  intros w'.
  destruct (add_package_frame
              (machine (ledger three_packages VNone) false) three_packages
              "vim" (VStr "core") (VList []) (VBool true) (VStr "") (VStr "")
              VNone VNone eq_refl)
    as (pkgs' & Hs & Hother & Hkeys).
  { intros old. discriminate. }
  exists pkgs'. split; [exact Hs|]. split; [|exact Hkeys].
  apply Hother. discriminate.
Defined.

Lemma add_package_unsaved_witness :
  let w := World (ledger three_packages VNone) (Json (ledger [] VNone)) false
                 [] [] (fun n => Z.of_nat n) 0 false None
                 (fun _ => NoSuchCommand) "" excerpt_text permission_denied in
  let run := add_package "vim" (VStr "core") (VList []) (VBool true)
                         (VStr "") (VStr "") VNone VNone w in
  fst run =
  Raise (PacwrapError
           "Database save failed: [Errno 13] Permission denied: '/root/.local/share/pacwrap/db.json'") /\
  db_file (snd run) = Json (ledger [] VNone).
Proof.
  intros w run.
  destruct (add_package_unsaved w three_packages "vim" (VStr "core")
              (VList []) (VBool true) (VStr "") (VStr "") VNone VNone eq_refl)
    as (H1 & H2 & _); try reflexivity.
  { intros old. discriminate. }
  split; assumption.
Defined.

(** ** Every change goes to the file *)

Lemma bind_ok_inv {A B} (c : M A) (k : A -> M B) (w w' : world) (b : B) :
  bind c k w = (Ok b, w') ->
  exists a w1, c w = (Ok a, w1) /\ k a w1 = (Ok b, w').
Proof.
  unfold bind. destruct (c w) as [[a|e] w1]; [eauto|discriminate].
Qed.

Lemma lift_ok_inv {A} (r : result A) (w w' : world) (a : A) :
  lift r w = (Ok a, w') -> r = Ok a /\ w' = w.
Proof. unfold lift. now intros [= -> ->]. Qed.

Lemma packages_ok_inv (w w' : world) (pkgs : value) :
  packages w = (Ok pkgs, w') -> w' = w.
Proof.
  unfold packages, bind, get_data, lift.
  destruct (py_getitem (data w) "packages"); now intros [= ].
Qed.

Lemma save_then_log (w w' : world) (lvl cat msg : string) :
  (_save None ;;; logger lvl cat msg) w = (Ok tt, w') ->
  db_file w' = Json (data w').
Proof.
  unfold _save, bind, get_data, write_db, logger, raise, ret. cbn.
  destruct (db_writable w); cbn; [|discriminate].
  now intros [= <-].
Qed.

Lemma save_alone (w w' : world) :
  _save None w = (Ok tt, w') -> db_file w' = Json (data w').
Proof.
  unfold _save, bind, get_data, write_db, logger, raise, ret. cbn.
  destruct (db_writable w); cbn; [|discriminate].
  now intros [= <-].
Qed.

Ltac bind_inv H :=
  let a := fresh "a" in
  let w1 := fresh "w" in
  let H1 := fresh "Hstep" in
  apply bind_ok_inv in H as (a & w1 & H1 & H).

Section Saved.

Context {L : DateLib}.

(** X7. A method of the store that returns normally has either changed
    nothing at all or left in the file exactly what is in memory: an upsert
    and a metadata update always write, [set_installed] and
    [add_version_history] write unless the name is unknown. *)
Theorem mutations_reach_the_file (w : world) :
  (forall name repo dependencies installed version install_date groups
          provides,
      let run := add_package name repo dependencies installed version
                             install_date groups provides w in
      fst run = Ok tt -> db_file (snd run) = Json (data (snd run))) /\
  (forall name installed,
      let run := set_installed name installed w in
      fst run = Ok tt ->
      snd run = w \/ db_file (snd run) = Json (data (snd run))) /\
  (forall name version,
      let run := add_version_history name version w in
      fst run = Ok tt ->
      snd run = w \/ db_file (snd run) = Json (data (snd run))) /\
  (forall key v,
      let run := update_metadata key v w in
      fst run = Ok tt -> db_file (snd run) = Json (data (snd run))).
Proof.
  split; [|split; [|split]]; intros; subst run.
  - destruct (add_package _ _ _ _ _ _ _ _ w) as [r w'] eqn:Hrun.
    cbn [fst snd] in *. subst r. unfold add_package in Hrun.
    do 4 bind_inv Hrun. exact (save_then_log _ _ _ _ _ Hrun).
  - destruct (set_installed _ _ w) as [r w'] eqn:Hrun.
    cbn [fst snd] in *. subst r. unfold set_installed in Hrun.
    bind_inv Hrun. apply packages_ok_inv in Hstep. subst.
    bind_inv Hrun. apply lift_ok_inv in Hstep as [_ ->].
    destruct a0.
    + right. do 6 bind_inv Hrun. exact (save_then_log _ _ _ _ _ Hrun).
    + left. unfold ret in Hrun. congruence.
  - destruct (add_version_history _ _ w) as [r w'] eqn:Hrun.
    cbn [fst snd] in *. subst r. unfold add_version_history in Hrun.
    bind_inv Hrun. apply packages_ok_inv in Hstep. subst.
    bind_inv Hrun. apply lift_ok_inv in Hstep as [_ ->].
    destruct a0.
    + right. do 7 bind_inv Hrun. exact (save_alone _ _ Hrun).
    + left. unfold ret in Hrun. congruence.
  - destruct (update_metadata _ _ w) as [r w'] eqn:Hrun.
    cbn [fst snd] in *. subst r. unfold update_metadata in Hrun.
    do 6 bind_inv Hrun. exact (save_alone _ _ Hrun).
Qed.

End Saved.

Lemma mutations_reach_the_file_witness :
  let w := machine (ledger three_packages VNone) false in
  db_file (snd (add_package "vim" (VStr "core") (VList []) (VBool true)
                            (VStr "") (VStr "") VNone VNone w))
  = Json (data (snd (add_package "vim" (VStr "core") (VList []) (VBool true)
                                 (VStr "") (VStr "") VNone VNone w))) /\
  db_file (snd (@update_metadata excerpt "note" (VInt 1) w))
  = Json (data (snd (@update_metadata excerpt "note" (VInt 1) w))).
Proof.
  intros w.
  destruct (@mutations_reach_the_file excerpt w) as (Ha & _ & _ & Hm).
  split; [apply Ha | apply Hm]; reflexivity.
Defined.

(** ** Version history *)

Section History.

(** X8. [add_version_history] appends one item, the version with the time
    of the call, at the end of the history of the package and touches no
    other field; on an entry that has no [update_history] it raises
    [KeyError] and changes nothing. *)
Theorem add_version_history_appends (w : world) (pkgs e : dict)
        (name : string) (version : value) :
  store_packages (data w) = Some pkgs ->
  dict_get name pkgs = Some (VDict e) ->
  let run := add_version_history name version w in
  (forall h, dict_get "update_history" e = Some (VList h) ->
             entry_of (snd run) name =
             Some (VDict
                     (dict_set "update_history"
                        (VList (h ++ [VDict [("version", version);
                                             ("date", VStr (stamp w))]]))
                        e))) /\
  (dict_get "update_history" e = None ->
   run = (Raise (KeyError "update_history"), w)).
Proof.
  intros Hs He run. subst run.
  unfold store_packages in Hs.
  destruct (data w) as [| | | | |d] eqn:Hd; try discriminate.
  destruct (dict_get "packages" d) as [[| | | | |p]|] eqn:Hp;
    try discriminate.
  injection Hs as ->.
  unfold add_version_history, now_human, packages, put_entry, bind, now,
    get_data, lift, ret, set_data.
  rewrite Hd. cbn [py_getitem]. rewrite Hp. cbn [py_contains].
  unfold dict_has. rewrite He.
  repeat (rewrite ?Hd, ?Hp, ?He; cbn [py_getitem py_setitem data]).
  split.
  - intros h Hh. rewrite Hh. cbn [py_append py_setitem data].
    repeat (rewrite ?Hd, ?Hp, ?He; cbn [py_getitem py_setitem data]).
    unfold _save, bind, get_data, write_db, logger, raise, describe, ret,
      entry_of.
    cbn [data db_writable].
    destruct (db_writable w); cbn [snd data];
      now rewrite store_packages_set, dict_get_set_eq.
  - intros Hnone. rewrite Hnone. reflexivity.
Qed.

End History.

Lemma add_version_history_appends_witness :
  entry_field (snd (add_version_history "htop" (VStr "3.4.2-1")
                      (machine (ledger three_packages VNone) false)))
              "htop" "update_history"
  = Some (VList [VDict [("version", VStr "3.4.0-1");
                        ("date", VStr "Mon 05 Oct 2026 09:00:00 AM ")];
                 VDict [("version", VStr "3.4.2-1");
                        ("date", VStr "Tue 03 Nov 2026 05:29:00 PM ")]]).
Proof.
  destruct (add_version_history_appends
              (machine (ledger three_packages VNone) false) three_packages
              [("name", VStr "htop");
               ("installed", VBool true);
               ("repo", VStr "core");
               ("dependencies", VList [VStr "glibc"]);
               ("groups", VList []);
               ("provides", VList []);
               ("version", VStr "3.4.1-1");
               ("install_date", VStr "Mon 05 Oct 2026 09:00:00 AM ");
               ("update_history",
                VList [VDict [("version", VStr "3.4.0-1");
                              ("date", VStr "Mon 05 Oct 2026 09:00:00 AM ")]]);
               ("last_update_date", VStr "Mon 05 Oct 2026 09:00:00 AM ")]
              "htop" (VStr "3.4.2-1") eq_refl eq_refl) as [Happ _].
  unfold entry_field. rewrite (Happ _ eq_refl). reflexivity.
Defined.

(** ** Commands that do nothing *)

Section Failures.

Context {L : DateLib}.

(** X9. When the removal by pacman fails (a status other than 0, or no
    pacman at all), [cmd_uninstall] answers [False] and the ledger, in
    memory and in its file, is what it was. *)
Theorem cmd_uninstall_failure (w : world) (name : string)
        (others : list string) :
  dryrun w = false ->
  failed (proc w ["sudo"; "pacman"; "-R"; name]) = true ->
  let run := cmd_uninstall (name :: others) w in
  fst run = Ok false /\ data (snd run) = data w /\
  db_file (snd run) = db_file w /\ tick (snd run) = tick w.
Proof.
  intros Hdry Hfail run. subst run.
  unfold cmd_uninstall, remove_package, _run_command, try, bind, logger,
    print, ret, raise, describe.
  cbn. rewrite Hdry. cbn.
  destruct (proc w ["sudo"; "pacman"; "-R"; name]) as [code text| |e];
    cbn [failed] in Hfail.
  - destruct (code =? 0); [discriminate|]. cbn. repeat split.
  - cbn. repeat split.
  - destruct e; cbn; repeat split.
Qed.

(** X10. An update that is neither forced nor due stops after printing the
    advice, unless the user is asked and answers y: it answers [True], runs
    no command and leaves the ledger, its file and the log alone. *)
Theorem cmd_update_not_due (w : world) (interactive : bool) (msg : string) :
  fst (_check_update_policy w) = Ok (false, msg) ->
  interactive = false \/ String.eqb (PyStr.lower (stdin w)) "y" = false ->
  let run := cmd_update false interactive w in
  fst run = Ok true /\ data (snd run) = data w /\
  db_file (snd run) = db_file w /\ log (snd run) = log w.
Proof.
  intros Hpol Hno run. subst run.
  destruct (cmd_update false interactive w) as [r w'] eqn:Hrun.
  cbn [fst snd].
  pose proof (check_update_policy_world w) as Hw.
  unfold cmd_update in Hrun. unfold bind at 1 in Hrun.
  destruct (_check_update_policy w) as [rp w1]. cbn [fst snd] in *.
  subst rp. cbn [negb andb] in Hrun.
  unfold bind, print, input, ret in Hrun. cbn in Hrun.
  assert (Hout : r = Ok true /\ data w' = data w1 /\
                 db_file w' = db_file w1 /\ log w' = log w1).
  { assert (Hin : stdin w1 = stdin w) by (now destruct Hw as [-> | ->]).
    destruct Hno as [-> | Hans].
    - cbn in Hrun. injection Hrun as <- <-. repeat split.
    - rewrite <- Hin in Hans.
      destruct interactive; cbn in Hrun; rewrite ?Hans in Hrun;
        cbn in Hrun; injection Hrun as <- <-; repeat split. }
  destruct Hout as (-> & Hd & Hf & Hl). rewrite Hd, Hf, Hl.
  destruct Hw as [-> | ->]; repeat split.
Qed.

(** X11. When the update of the system fails at pacman, [cmd_update]
    answers [False] and [last_full_update_date] is not stamped: the
    metadata, the ledger and its file are what they were. *)
Theorem cmd_update_failure (w : world) (force interactive must : bool)
        (msg : string) :
  dryrun w = false ->
  fst (_check_update_policy w) = Ok (must, msg) ->
  force || must = true ->
  failed (proc w ["sudo"; "pacman"; "-Syu"]) = true ->
  let run := cmd_update force interactive w in
  fst run = Ok false /\ data (snd run) = data w /\
  db_file (snd run) = db_file w.
Proof.
  intros Hdry Hpol Hdue Hfail run. subst run.
  assert (Hgo : negb force && negb must = false)
    by (destruct force, must; try reflexivity; discriminate).
  destruct (cmd_update force interactive w) as [r w'] eqn:Hrun.
  cbn [fst snd].
  pose proof (check_update_policy_world w) as Hw.
  unfold cmd_update in Hrun. unfold bind at 1 in Hrun.
  destruct (_check_update_policy w) as [rp w1]. cbn [fst snd] in *.
  subst rp. rewrite Hgo in Hrun.
  assert (Hw1 : dryrun w1 = false /\ proc w1 = proc w /\
                data w1 = data w /\ db_file w1 = db_file w).
  { destruct Hw as [-> | ->]; repeat split; assumption. }
  destruct Hw1 as (Hdry1 & Hproc1 & Hd1 & Hf1).
  unfold update_system, _run_command, try, bind, logger, print, ret, raise,
    describe in Hrun.
  cbn in Hrun. rewrite Hdry1 in Hrun. cbn in Hrun. rewrite Hproc1 in Hrun.
  destruct (proc w ["sudo"; "pacman"; "-Syu"]) as [code text| |e];
    cbn [failed] in Hfail.
  - destruct (code =? 0); [discriminate|]. cbn in Hrun.
    injection Hrun as <- <-. cbn. repeat split; assumption.
  - cbn in Hrun. injection Hrun as <- <-. cbn. repeat split; assumption.
  - destruct e; cbn in Hrun; injection Hrun as <- <-; cbn;
      repeat split; assumption.
Qed.

(** X12. The policy only reads: evaluating it changes neither the ledger,
    its file, the log nor the terminal. *)
Theorem check_update_policy_reads_only (w : world) :
  let w' := snd (_check_update_policy w) in
  data w' = data w /\ db_file w' = db_file w /\ log w' = log w /\
  out w' = out w.
Proof.
  cbv zeta. destruct (check_update_policy_world w) as [-> | ->];
    repeat split.
Qed.

End Failures.

Lemma cmd_uninstall_failure_witness :
  let w := machine_on (Clock.naive 2026 11 3 17 29 0) (fun _ => Exit 1 "")
                      (ledger three_packages VNone) false in
  fst (cmd_uninstall ["htop"] w) = Ok false /\
  data (snd (cmd_uninstall ["htop"] w)) = data w.
Proof.
  intros w.
  destruct (cmd_uninstall_failure w "htop" [] eq_refl eq_refl)
    as (H1 & H2 & _).
  split; assumption.
Defined.

(** Nine days after the last update, nothing is done. *)
Lemma cmd_update_not_due_witness :
  let w := machine_on (Clock.naive 2024 1 10 8 0 0) (fun _ => Exit 0 "")
                      (ledger [] (VStr "Mon 01 Jan 2024 12:00:00 AM UTC"))
                      false in
  fst (@cmd_update excerpt false false w) = Ok true /\
  data (snd (@cmd_update excerpt false false w)) = data w /\
  log (snd (@cmd_update excerpt false false w)) = [].
Proof.
  intros w.
  destruct (@cmd_update_not_due excerpt w false
              "Recommended: 9 days since last update" eq_refl
              (or_introl eq_refl)) as (H1 & H2 & _ & H4).
  repeat split; assumption.
Defined.

Lemma cmd_update_failure_witness :
  let w := machine_on (Clock.naive 2026 11 3 17 29 0) (fun _ => Exit 1 "")
                      (ledger [] VNone) false in
  fst (@cmd_update excerpt false false w) = Ok false /\
  data (snd (@cmd_update excerpt false false w)) = data w.
Proof.
  intros w.
  destruct (@cmd_update_failure excerpt w false false true
              "No previous update found" eq_refl eq_refl eq_refl eq_refl)
    as (H1 & H2 & _).
  split; assumption.
Defined.

(** ** The stamp of an update, read back *)

Lemma append_nonempty (a b : string) : b <> "" -> a ++ b <> "".
Proof.
  destruct a as [|c a]; [now rewrite ?append_cons|].
  rewrite append_cons. discriminate.
Qed.

Lemma ends_blank_app (a b : string) :
  b <> "" -> ends_blank (a ++ b) = ends_blank b.
Proof.
  intros Hb. induction a as [|c a IH]; [reflexivity|].
  rewrite append_cons. cbn [ends_blank].
  destruct (a ++ b) eqn:E; [|exact IH].
  now apply append_nonempty in E.
Qed.

Ltac nonempty :=
  first [ discriminate
        | rewrite append_cons; discriminate
        | apply append_nonempty; nonempty ].

Lemma strftime_naive_ends_blank (t : Z) :
  ends_blank (Clock.strftime_human (Naive t)) = true.
Proof.
  unfold Clock.strftime_human.
  destruct (Clock.civil _) as [[y m] d].
  repeat (rewrite ends_blank_app by nonempty).
  reflexivity.
Qed.

Lemma strftime_nonempty (dt : datetime) :
  String.eqb (Clock.strftime_human dt) "" = false.
Proof.
  apply String.eqb_neq. unfold Clock.strftime_human.
  destruct dt as [us|us tz]; destruct (Clock.civil _) as [[y m] d];
    nonempty.
Qed.

(** The excerpt agrees with CPython on this too: [strptime] wants the name
    of a zone after the last blank, and a naive date is printed with
    none. *)
Lemma excerpt_strptime_rejects_naive (t : Z) :
  excerpt_strptime (Clock.strftime_human (Naive t)) = None.
Proof.
  pose proof (strftime_naive_ends_blank t) as Hb.
  unfold excerpt_strptime.
  destruct (String.eqb_spec (Clock.strftime_human (Naive t))
                            "Mon 01 Jan 2024 12:00:00 AM UTC") as [E|_].
  { rewrite E in Hb. discriminate. }
  destruct (String.eqb_spec (Clock.strftime_human (Naive t))
                            "Fri 31 Jul 2026 05:29:00 PM UTC") as [E|_].
  { rewrite E in Hb. discriminate. }
  reflexivity.
Qed.

Section OwnStamp.

Context {L : DateLib}.

(** X13. With a date library that, like CPython, reads no zone name in
    the empty text that [%Z] prints for a naive date, the stamp that a
    successful update records cannot be read back: at the next evaluation
    the policy reports an invalid date and requires an update, however
    recent the stamp. *)
Theorem recorded_update_is_unreadable (w : world) (t : Z) :
  (forall t', strptime_human (Clock.strftime_human (Naive t')) = None) ->
  (forall t', fromisoformat (Clock.strftime_human (Naive t')) = None) ->
  let run := update_metadata "last_full_update_date"
                             (VStr (Clock.strftime_human (Naive t))) w in
  fst run = Ok tt ->
  fst (_check_update_policy (snd run)) =
  Ok (true, "Invalid last update date format").
Proof.
  intros Hstrp Hiso run Hok. subst run.
  destruct (update_metadata _ _ w) as [r w'] eqn:Hrun.
  cbn [fst snd] in *. subst r.
  unfold update_metadata in Hrun.
  bind_inv Hrun. apply lift_ok_inv in Hstep as [Hv ->].
  cbn [String.eqb Ascii.eqb Bool.eqb] in Hv.
  unfold iso_to_human, py_fromisoformat in Hv. rewrite Hiso in Hv.
  cbn in Hv. injection Hv as <-.
  bind_inv Hrun. unfold get_data in Hstep. injection Hstep as <- <-.
  bind_inv Hrun. apply lift_ok_inv in Hstep as [Hmeta ->].
  bind_inv Hrun. apply lift_ok_inv in Hstep as [Hset ->].
  bind_inv Hrun. apply lift_ok_inv in Hstep as [Hdoc ->].
  bind_inv Hrun. unfold set_data in Hstep. injection Hstep as _ <-.
  match goal with
  | Hm : py_getitem (data w) "metadata" = Ok ?meta,
    Hs : py_setitem ?meta "last_full_update_date" _ = Ok ?meta',
    Hd : py_setitem (data w) "metadata" ?meta' = Ok ?doc |- _ =>
      assert (Hdata : data w' = doc);
      [ unfold _save, bind, get_data, write_db, logger, raise, ret in Hrun;
        cbn in Hrun; destruct (db_writable w); cbn in Hrun;
        [now injection Hrun as <- | discriminate]
      | destruct meta as [| | | | |m]; try discriminate;
        cbn in Hs; injection Hs as <-;
        destruct (data w) as [| | | | |d]; try discriminate;
        cbn in Hd; injection Hd as <- ]
  end.
  unfold _check_update_policy, bind, get_data, lift, ret.
  rewrite Hdata. cbn [py_getitem]. rewrite dict_get_set_eq.
  cbn [py_get]. rewrite dict_get_set_eq.
  cbn [truthy]. rewrite strftime_nonempty. cbn [negb].
  unfold parse_last_update, py_strptime, py_fromisoformat.
  now rewrite Hstrp, Hiso.
Qed.

End OwnStamp.

Lemma recorded_update_is_unreadable_witness :
  let w := machine (ledger [] VNone) false in
  fst (@_check_update_policy excerpt
         (snd (@update_metadata excerpt "last_full_update_date"
                 (VStr (Clock.strftime_human
                          (Naive (Clock.naive 2026 11 3 17 29 0)))) w)))
  = Ok (true, "Invalid last update date format").
Proof.
  intros w.
  apply (@recorded_update_is_unreadable excerpt w
           (Clock.naive 2026 11 3 17 29 0)
           excerpt_strptime_rejects_naive excerpt_rejects_human).
  reflexivity.
Defined.

(** ** Saving, then loading *)

Section Reload.

Context {L : DateLib}.

Lemma iso_to_human_settled (v : value) :
  truthy v = true -> date_settled v = true -> iso_to_human v = Ok v.
Proof.
  unfold date_settled, iso_to_human, py_fromisoformat.
  intros Ht. rewrite Ht. cbn [negb orb].
  destruct v as [| | |s| |]; try discriminate.
  now destruct (fromisoformat s).
Qed.

Lemma normalize_entry_settled (pkg : value) :
  entry_settled pkg = true -> normalize_entry pkg = Ok pkg.
Proof.
  destruct pkg as [| | | | |e]; try discriminate.
  unfold entry_settled, normalize_entry, dict_get_or. cbn [py_contains rbind].
  unfold dict_has. cbn [py_getitem].
  destruct (dict_get "last_update_date" e) as [v|] eqn:Hv; [|reflexivity].
  cbn [rbind]. intros Hs.
  destruct (truthy v) eqn:Ht; [|reflexivity].
  rewrite (iso_to_human_settled v Ht Hs). cbn.
  now rewrite (dict_set_same _ _ _ Hv).
Qed.

Lemma normalize_entries_settled (items : dict) :
  forallb (fun kv => entry_settled (snd kv)) items = true ->
  normalize_entries items = Ok items.
Proof.
  induction items as [|[name pkg] rest IH]; cbn; [reflexivity|].
  intros H. apply andb_prop in H as [Hp Hr].
  now rewrite (normalize_entry_settled pkg Hp), (IH Hr).
Qed.

Lemma normalize_loaded_settled (doc : value) :
  settled doc = true -> normalize_loaded doc = Ok doc.
Proof.
  unfold settled. destruct doc as [| | | | |d]; try discriminate.
  intros H. apply andb_prop in H as [Hp Hm].
  destruct (dict_get "packages" d) as [[| | | | |pkgs]|] eqn:Ep;
    try discriminate.
  destruct (dict_get "metadata" d) as [[| | | | |m]|] eqn:Em;
    try discriminate.
  unfold normalize_loaded. cbn [py_get rbind]. rewrite Ep. cbn [py_items rbind].
  rewrite (normalize_entries_settled pkgs Hp). cbn [rbind].
  assert (Hdoc1 : match pkgs with
                  | [] => Ok (VDict d)
                  | _ :: _ => py_setitem (VDict d) "packages" (VDict pkgs)
                  end = Ok (VDict d)).
  { destruct pkgs; [reflexivity|]. cbn.
    now rewrite (dict_set_same _ _ _ Ep). }
  rewrite Hdoc1. cbn [rbind py_get]. rewrite Em. cbn [rbind py_get].
  unfold dict_get_or in Hm.
  destruct (dict_get "last_full_update_date" m) as [v|] eqn:Ev;
    [|reflexivity].
  destruct (truthy v) eqn:Ht; [|reflexivity].
  rewrite (iso_to_human_settled v Ht Hm). cbn.
  now rewrite (dict_set_same _ _ _ Ev), (dict_set_same _ _ _ Em).
Qed.

(** X14. A ledger that has its two sections and no ISO date in it comes
    back as it is: once it is saved, starting the database again puts the
    same data in memory. *)
Theorem save_load_roundtrip (w : world) :
  settled (data w) = true ->
  db_writable w = true ->
  let restart := init_database (snd (_save None w)) in
  fst restart = Ok tt /\ data (snd restart) = data w.
Proof.
  intros Hs Hw restart. subst restart.
  unfold init_database, _load, _save, bind, get_data, write_db, logger, lift,
    set_data, ret.
  cbn. rewrite Hw. cbn.
  rewrite (normalize_loaded_settled (data w) Hs). cbn. split; reflexivity.
Qed.

End Reload.

Lemma save_load_roundtrip_witness :
  let w := machine (ledger three_packages
                           (VStr "Tue 03 Nov 2026 05:29:00 PM ")) false in
  data (snd (@init_database excerpt (snd (_save None w)))) = data w.
Proof.
  intros w.
  apply (@save_load_roundtrip excerpt w); reflexivity.
Defined.

(** ** The exported view *)

Section ExportView.

Lemma dict_pop_get_eq (k : string) (d : dict) :
  NoDup (map fst d) -> dict_get k (dict_pop k d) = None.
Proof.
  induction d as [|[k' v] d IH]; cbn; [reflexivity|].
  intros Hnd. inversion Hnd as [|? ? Hnotin Hnd']; subst.
  destruct (String.eqb_spec k' k) as [->|Hne].
  - destruct (dict_get k d) as [x|] eqn:E; [|reflexivity].
    apply dict_get_In in E. apply (in_map fst) in E. contradiction.
  - cbn. destruct (String.eqb_spec k' k); [contradiction|]. auto.
Qed.

Lemma dict_get_strip (name : string) (pkgs : dict) :
  dict_get name (map strip_history pkgs) =
  match dict_get name pkgs with
  | Some v => Some (snd (strip_history (name, v)))
  | None => None
  end.
Proof.
  induction pkgs as [|[k v] pkgs IH]; cbn; [reflexivity|].
  destruct (String.eqb k name); [reflexivity|exact IH].
Qed.

(** X15. The export without metadata gives a document with the single
    section [packages], holding the names of the ledger in their order;
    each entry comes without [update_history] and with every other field as
    it is in the ledger; and the ledger itself is not touched. *)
Theorem export_data_view (w : world) (pkgs : dict) :
  store_packages (data w) = Some pkgs ->
  entries_are_records pkgs = true ->
  exists items,
    export_data false w = (Ok (VDict [("packages", VDict items)]), w) /\
    map fst items = map fst pkgs /\
    forall name e,
      dict_get name pkgs = Some (VDict e) ->
      NoDup (map fst e) ->
      exists e',
        dict_get name items = Some (VDict e') /\
        dict_get "update_history" e' = None /\
        forall field, field <> "update_history" ->
                      dict_get field e' = dict_get field e.
Proof.
  intros Hs Hr. exists (map strip_history pkgs).
  split; [now apply export_data_run|].
  split; [now rewrite map_map|].
  intros name e He Hnd. exists (dict_pop "update_history" e).
  rewrite dict_get_strip, He. cbn.
  split; [reflexivity|]. split; [now apply dict_pop_get_eq|].
  intros field Hf. apply dict_pop_get_neq. congruence.
Qed.

End ExportView.

Lemma export_data_view_witness :
  exists items,
    export_data false (machine (ledger three_packages VNone) false) =
    (Ok (VDict [("packages", VDict items)]),
     machine (ledger three_packages VNone) false) /\
    map fst items = ["htop"; "paru"; "yay"].
Proof.
  destruct (export_data_view (machine (ledger three_packages VNone) false)
              three_packages eq_refl eq_refl) as (items & H1 & H2 & _).
  exists items. split; assumption.
Defined.

(** ** Rescans and imports only add *)

Section Additive.

Lemma upserted_fields (old : option value) (name : string) (e1 : dict)
      (installed repo dependencies groups provides version
       install_date : value) (now : string) :
  (forall pkg, old = Some pkg -> is_dict pkg = true) ->
  upserted old name installed repo dependencies groups provides version
           install_date now = Ok (VDict e1) ->
  dict_get "installed" e1 = Some installed /\
  dict_get "repo" e1 = Some repo /\
  dict_get "dependencies" e1 = Some dependencies /\
  dict_get "groups" e1 = Some (or_empty groups) /\
  dict_get "provides" e1 = Some (or_empty provides).
Proof.
  intros Hold. destruct old as [pkg|]; cbn [upserted].
  - specialize (Hold pkg eq_refl).
    destruct pkg as [| | | | |e]; try discriminate.
    unfold merge_entry. cbn.
    destruct (truthy version), (truthy install_date); cbn;
      intros [= <-]; (split; [|split; [|split; [|split]]]); lookup_literal.
  - unfold new_entry. intros [= <-]. repeat split.
Qed.

(** One upsert in a well-formed, writable ledger. *)
Lemma add_package_step (w : world) (name : string)
      (repo dependencies installed version install_date groups
       provides : value) :
  ledger_ok w ->
  exists w' e1,
    add_package name repo dependencies installed version install_date groups
                provides w = (Ok tt, w') /\
    ledger_ok w' /\ db_file w' = Json (data w') /\
    entry_of w' name = Some (VDict e1) /\
    dict_get "installed" e1 = Some installed /\
    dict_get "repo" e1 = Some repo /\
    (forall other, other <> name -> entry_of w' other = entry_of w other) /\
    out w' = out w /\ dryrun w' = dryrun w /\ proc w' = proc w /\
    aur_helper w' = aur_helper w /\ str_exn w' = str_exn w /\
    dict_get "dependencies" e1 = Some dependencies /\
    dict_get "groups" e1 = Some (or_empty groups) /\
    dict_get "provides" e1 = Some (or_empty provides).
Proof.
  intros (d & pkgs & Hd & Hp & Hr & Hw).
  assert (Hold : forall pkg, dict_get name pkgs = Some pkg ->
                             is_dict pkg = true)
    by (intros pkg Hg; exact (entries_are_records_get _ _ _ Hr Hg)).
  destruct (upserted_record (dict_get name pkgs) name installed repo
              dependencies groups provides version install_date (stamp w)
              Hold) as [e1 He1].
  exists (upsert_world w (with_entry d pkgs name (VDict e1)) name), e1.
  destruct (upserted_fields _ _ _ _ _ _ _ _ _ _ _ Hold He1)
    as (Hi & Hrepo & Hdeps & Hgroups & Hprov).
  split; [now apply add_package_ok|].
  split.
  { exists (dict_set "packages" (VDict (dict_set name (VDict e1) pkgs)) d),
           (dict_set name (VDict e1) pkgs).
    repeat split.
    - apply dict_get_set_eq.
    - now apply entries_are_records_set. }
  split; [reflexivity|].
  rewrite entry_of_upsert_world, dict_get_set_eq.
  split; [reflexivity|]. split; [assumption|]. split; [assumption|].
  split; [|repeat split; assumption].
  intros other Ho. rewrite entry_of_upsert_world.
  rewrite dict_get_set_neq by congruence.
  symmetry. exact (entry_of_ledger w d pkgs other Hd Hp).
Qed.

Lemma store_scanned_run (found : list dict) :
  forallb clean_info found = true ->
  forall w : world,
    ledger_ok w ->
    let run := store_scanned found w in
    fst run = Ok tt /\ ledger_ok (snd run) /\
    (forall other,
        (forall info, In info found ->
                      dict_get "name" info <> Some (VStr other)) ->
        entry_of (snd run) other = entry_of w other) /\
    (forall info name,
        In info found -> dict_get "name" info = Some (VStr name) ->
        entry_field (snd run) name "installed" = Some (VBool true)).
Proof.
  induction found as [|info rest IH]; intros Hclean w Hok; cbv zeta.
  - cbn. repeat split; [assumption | intros ? ? []].
  - cbn [forallb] in Hclean. apply andb_prop in Hclean as [Hinfo Hrest].
    assert (Hname : exists n, dict_get "name" info = Some (VStr n)).
    { unfold clean_info in Hinfo.
      repeat (apply andb_prop in Hinfo as [Hinfo _]).
      destruct (dict_get "name" info) as [[| | |n| |]|]; try discriminate.
      eauto. }
    destruct Hname as [n Hn].
    set (W0 := snd (logger "INFO" "updatedb" ("Processing package: " ++ n) w)).
    assert (Hok0 : ledger_ok W0) by exact Hok.
    destruct (add_package_step W0 n
                (dict_get_or "repo" (VStr "unknown") info)
                (dict_get_or "dependencies" (VList []) info)
                (VBool true)
                (dict_get_or "version" (VStr "") info)
                (dict_get_or "install_date" (VStr "") info)
                (dict_get_or "groups" (VList []) info)
                (dict_get_or "provides" (VList []) info) Hok0)
      as (W1 & e1 & Hadd & Hok1 & _ & He1 & Hinst & _ & Hother & _).
    assert (Heq : store_scanned (info :: rest) w = store_scanned rest W1).
    { cbn [store_scanned]. unfold bind at 1, lift at 1.
      cbn [py_getitem]. rewrite Hn.
      unfold bind at 1. unfold logger at 1. fold W0.
      change (World (data w) (db_file w) (db_writable w)
                    (log w ++ [LogEntry "INFO" "updatedb"
                                 ("Processing package: " ++ n)])
                    (out w) (clock w) (tick w) (dryrun w) (aur_helper w)
                    (proc w) (stdin w) (str_exn w)
                (db_error w)) with W0.
      unfold bind. now rewrite Hadd. }
    rewrite Heq.
    destruct (IH Hrest W1 Hok1) as (Hfst & Hokr & Hkeep & Hfound).
    split; [assumption|]. split; [assumption|]. split.
    + intros other Hnot. rewrite Hkeep.
      * rewrite Hother; [reflexivity|].
        intros ->. apply (Hnot info); [now left|assumption].
      * intros i Hi. apply Hnot. now right.
    + intros i name [<- | Hin] Hiname.
      * assert (name = n) as -> by congruence.
        destruct (in_dec string_dec n
                    (map (fun i => match dict_get "name" i with
                                   | Some (VStr x) => x
                                   | _ => ""
                                   end) rest)) as [Hlater | Hnever].
        -- apply in_map_iff in Hlater as (j & Hj & Hjin).
           apply (Hfound j n Hjin).
           assert (Hcj : clean_info j = true).
           { rewrite forallb_forall in Hrest. now apply Hrest. }
           unfold clean_info in Hcj.
           repeat (apply andb_prop in Hcj as [Hcj _]).
           destruct (dict_get "name" j) as [[| | |x| |]|]; try discriminate.
           now subst.
        -- unfold entry_field. rewrite Hkeep.
           ++ rewrite He1. exact Hinst.
           ++ intros j Hj E. apply Hnever.
              apply in_map_iff. exists j. split; [now rewrite E|assumption].
      * now apply (Hfound i name).
Qed.

(** X16. Storing what a scan found only adds and updates: it succeeds,
    every package found ends up recorded as installed, and an entry whose
    name was not found is left exactly as it was, installed or not. *)
Theorem store_scanned_is_additive (found : list dict) (w : world) :
  forallb clean_info found = true ->
  ledger_ok w ->
  let run := store_scanned found w in
  fst run = Ok tt /\ ledger_ok (snd run) /\
  (forall other,
      (forall info, In info found ->
                    dict_get "name" info <> Some (VStr other)) ->
      entry_of (snd run) other = entry_of w other) /\
  (forall info name,
      In info found -> dict_get "name" info = Some (VStr name) ->
      entry_field (snd run) name "installed" = Some (VBool true)).
Proof. intros Hclean Hok. exact (store_scanned_run found Hclean w Hok). Qed.

End Additive.

Lemma ledger_ok_machine (pkgs : dict) (last : value) (dry : bool) :
  entries_are_records pkgs = true ->
  ledger_ok (machine (ledger pkgs last) dry).
Proof.
  intros Hr. eexists; exists pkgs. repeat split. exact Hr.
Qed.

Lemma store_scanned_is_additive_witness :
  let w := machine (ledger three_packages VNone) false in
  let yay := [("name", VStr "yay"); ("repo", VStr "aur");
              ("dependencies", VList [VStr "git"]); ("groups", VList []);
              ("provides", VList [])] in
  let run := store_scanned [yay] w in
  fst run = Ok tt /\
  entry_of (snd run) "htop" = entry_of w "htop" /\
  entry_field (snd run) "yay" "installed" = Some (VBool true).
Proof.
  intros w yay run.
  destruct (store_scanned_is_additive [yay] w eq_refl
              (ledger_ok_machine three_packages VNone false eq_refl))
    as (H1 & _ & H2 & H3).
  split; [exact H1|]. split.
  - apply H2. intros info [<-|[]]. discriminate.
  - apply (H3 yay); [now left|reflexivity].
Defined.

(** ** The whole rescan *)

Section Rescan.

Context {L : DateLib}.

Lemma ledger_ok_with_log (l : list log_entry) (w : world) :
  ledger_ok w -> ledger_ok (with_log l w).
Proof. intros (d & pkgs & H); exists d, pkgs; exact H. Qed.



End Rescan.


(** ** Installing *)

Section Install.

Context {L : DateLib}.

Lemma is_package_in_repos_quiet (package : string) (w : world) :
  exists b l, is_package_in_repos package w = (Ok b, with_log l w).
Proof.
  unfold is_package_in_repos, try. unfold bind.
  destruct (run_command_quiet ["pacman"; "-Si"; package] false w)
    as (r & l & ->).
  destruct r as [[code text]|e]; cbn; eexists; eexists; reflexivity.
Qed.

(** Outside a dry run, installing writes to the log and nowhere else. *)
Lemma install_package_quiet (package : string) (w : world) :
  exists r l, install_package package false w = (r, with_log l w).
Proof.
  unfold install_package. unfold bind at 1.
  destruct (is_package_in_repos_quiet package w) as (official & l & ->).
  destruct official.
  - unfold bind at 1. unfold logger at 1. cbn [with_log log].
    match goal with
    | |- context [try ?c ?h ?k ?W] =>
        destruct (checked_command_quiet
                    ["sudo"; "pacman"; "-S"; "--needed"; package] W)
          as (r & l' & -> & _)
    end.
    exists r, l'. reflexivity.
  - unfold bind at 1. cbn [with_log aur_helper].
    destruct (aur_helper w) as [h|].
    + unfold bind at 1. unfold logger at 1. cbn [with_log log].
      match goal with
      | |- context [try ?c ?hd ?k ?W] =>
          destruct (checked_command_quiet [h; "-S"; "--needed"; package] W)
            as (r & l' & -> & _)
      end.
      exists r, l'. reflexivity.
    + unfold bind, logger, ret. cbn. eexists; eexists; reflexivity.
Qed.

(** Installing, dry run or not, leaves the ledger, its file and the clock
    alone. *)
Lemma install_package_frame (package : string) (dry : bool) (w : world) :
  exists r w1,
    install_package package dry w = (r, w1) /\ same_ledger w1 w /\
    dryrun w1 = dryrun w /\ proc w1 = proc w /\ aur_helper w1 = aur_helper w.
Proof.
  destruct dry.
  - unfold install_package, bind, print, ret.
    eexists; eexists. split; [reflexivity|]. repeat split.
  - destruct (install_package_quiet package w) as (r & l & ->).
    exists r, (with_log l w). repeat split.
Qed.

(** X18. On a well-formed ledger [cmd_install] raises nothing. When it
    answers [True] the package is recorded as installed, under the repo
    [core] or [aur] and nothing else, the file holds the ledger, and no
    other entry has changed; when it answers [False] the ledger and its
    file are what they were. *)
Theorem cmd_install_outcome (w : world) (name : string)
        (others : list string) :
  ledger_ok w ->
  let run := cmd_install (name :: others) w in
  (fst run = Ok true /\
   entry_field (snd run) name "installed" = Some (VBool true) /\
   (entry_field (snd run) name "repo" = Some (VStr "core") \/
    entry_field (snd run) name "repo" = Some (VStr "aur")) /\
   db_file (snd run) = Json (data (snd run)) /\
   forall other, other <> name ->
                 entry_of (snd run) other = entry_of w other) \/
  (fst run = Ok false /\ data (snd run) = data w /\
   db_file (snd run) = db_file w).
Proof.
  intros Hok run. subst run.
  destruct (cmd_install (name :: others) w) as [r W] eqn:Hrun.
  cbn [fst snd].
  unfold cmd_install, try in Hrun. unfold bind at 1 in Hrun.
  unfold bind at 1 in Hrun.
  destruct (install_package_frame name (dryrun w) w)
    as (r1 & w1 & Hinst & Hsame & Hdry & _).
  rewrite Hinst in Hrun.
  destruct r1 as [b|e1].
  2:{ right. unfold is_Exception, bind, describe, print, ret in Hrun.
      injection Hrun as <- <-.
      destruct Hsame as (H1 & H2 & _).
      split; [reflexivity|]. split; assumption. }
  destruct b.
  - unfold bind at 1 in Hrun. unfold bind at 1 in Hrun.
    destruct (is_package_in_repos_quiet name w1) as (official & l & Hoff).
    rewrite Hoff in Hrun.
    assert (Hok1 : ledger_ok (with_log l w1)).
    { apply ledger_ok_with_log. apply (same_ledger_ok w w1); [|exact Hok].
      destruct Hsame as (H1 & H2 & H3 & H4 & H5). repeat split; congruence. }
    destruct (add_package_step (with_log l w1) name
                (VStr (if negb official then "aur" else "core"))
                (VList []) (VBool true) (VStr "") (VStr "") VNone VNone Hok1)
      as (w2 & e1 & Hadd & Hok2 & Hfile & He1 & Hi & Hrepo & Hother & _).
    unfold bind at 1 in Hrun. rewrite Hadd in Hrun.
    left.
    assert (Hent : forall other, entry_of (with_log l w1) other =
                                 entry_of w other).
    { intros other. unfold entry_of. cbn [with_log data].
      destruct Hsame as (-> & _). reflexivity. }
    destruct (negb (dryrun w)) eqn:Hd;
      unfold bind, print, ret in Hrun; injection Hrun as <- <-;
      (split; [reflexivity|]);
      (split; [unfold entry_field, entry_of; cbn [data];
               fold (entry_of w2 name); rewrite He1; exact Hi|]);
      (split; [destruct official; [left|right];
               unfold entry_field, entry_of; cbn [data];
               fold (entry_of w2 name); rewrite He1; exact Hrepo|]);
      (split; [exact Hfile|]);
      intros other Ho; unfold entry_of; cbn [data];
      fold (entry_of w2 other); rewrite (Hother other Ho); apply Hent.
  - right. unfold bind, print, ret in Hrun. injection Hrun as <- <-.
    destruct Hsame as (H1 & H2 & _).
    split; [reflexivity|]. split; assumption.
Qed.

End Install.

Lemma cmd_install_outcome_witness :
  let w := machine (ledger three_packages VNone) false in
  let run := cmd_install ["ripgrep"] w in
  (fst run = Ok true /\
   entry_field (snd run) "ripgrep" "installed" = Some (VBool true) /\
   (entry_field (snd run) "ripgrep" "repo" = Some (VStr "core") \/
    entry_field (snd run) "ripgrep" "repo" = Some (VStr "aur")) /\
   db_file (snd run) = Json (data (snd run)) /\
   forall other, other <> "ripgrep" ->
                 entry_of (snd run) other = entry_of w other) \/
  (fst run = Ok false /\ data (snd run) = data w /\
   db_file (snd run) = db_file w).
Proof.
  intros w.
  exact (cmd_install_outcome w "ripgrep" []
           (ledger_ok_machine three_packages VNone false eq_refl)).
Defined.

(** ** Syncing *)

Section Sync.

Context {L : DateLib}.

Lemma query_packages_world (filters : dict) (w : world) :
  snd (query_packages filters w) = w.
Proof.
  unfold query_packages, packages, bind, get_data, lift.
  destruct (py_getitem (data w) "packages") as [pkgs|e]; [|reflexivity].
  destruct (py_items pkgs) as [items|e]; reflexivity.
Qed.

Lemma query_packages_run (w : world) (pkgs filters : dict) :
  store_packages (data w) = Some pkgs ->
  entries_are_records pkgs = true ->
  query_packages filters w =
  (Ok (filter (fun kv => satisfies filters (snd kv)) pkgs), w).
Proof.
  intros Hp Hr.
  unfold query_packages, packages, bind, get_data, lift.
  rewrite (store_packages_getitem _ _ Hp). cbn.
  now rewrite (query_items_filter _ _ Hr).
Qed.

Lemma sync_items_frame (items : dict) (dry : bool) :
  forall (failed : list string) (w : world),
    exists r w1,
      sync_items items dry failed w = (r, w1) /\ same_ledger w1 w.
Proof.
  induction items as [|[name pkg] rest IH]; intros failed w.
  - exists (Ok failed), w. split; [reflexivity|apply same_ledger_refl].
  - cbn [sync_items]. unfold bind at 1.
    destruct (install_package_frame name dry w)
      as (r1 & w1 & -> & Hsame & _).
    destruct r1 as [b|e].
    + destruct (IH (if b then failed else (failed ++ [name])%list) w1)
        as (r & w2 & -> & Hsame2).
      exists r, w2. split; [reflexivity|].
      destruct Hsame as (A1 & A2 & A3 & A4 & A5).
      destruct Hsame2 as (B1 & B2 & B3 & B4 & B5).
      repeat split; congruence.
    + exists (Raise e), w1. split; [reflexivity|exact Hsame].
Qed.

(** X19. A sync never writes the ledger: whatever it installs and however
    it ends, the ledger in memory, its file and the clock are what they
    were, so that a package whose installation failed stays marked as
    installed. *)
Theorem cmd_sync_keeps_ledger (w : world) :
  same_ledger (snd (cmd_sync w)) w.
Proof.
  unfold cmd_sync. unfold bind at 1.
  pose proof (query_packages_world [("installed", VBool true)] w) as Hq.
  destruct (query_packages [("installed", VBool true)] w) as [r w0].
  cbn [snd] in Hq. subst w0.
  destruct r as [pkgs|e]; [|apply same_ledger_refl].
  destruct pkgs as [|kv pkgs]; [repeat split|].
  unfold bind at 1. unfold print at 1.
  set (W0 := World _ _ _ _ _ _ _ _ _ _ _ _ _).
  assert (H0 : same_ledger W0 w) by (repeat split).
  clearbody W0.
  unfold bind at 1. unfold bind at 1. unfold attempt.
  destruct (sync_items_frame (kv :: pkgs) (dryrun W0) [] W0)
    as (r & w1 & -> & Hsame).
  assert (H1 : same_ledger w1 w).
  { destruct H0 as (A1 & A2 & A3 & A4 & A5).
    destruct Hsame as (B1 & B2 & B3 & B4 & B5). repeat split; congruence. }
  destruct r as [[|n names]|e]; unfold bind, describe, print, ret;
    cbn [snd];
    destruct H1 as (B1 & B2 & B3 & B4 & B5); repeat split; assumption.
Qed.

Lemma sync_items_dry (items : dict) :
  forall (failed : list string) (w : world),
    exists w1,
      sync_items items true failed w = (Ok failed, w1) /\
      log w1 = log w /\ dryrun w1 = dryrun w /\
      out w1 =
      (out w ++ map (fun name => ("[DRY RUN] Would install: " ++ name)%string)
                    (map fst items))%list.
Proof.
  induction items as [|[name pkg] rest IH]; intros failed w.
  - exists w. cbn. rewrite app_nil_r. repeat split.
  - cbn [sync_items]. unfold bind at 1.
    unfold install_package. unfold bind at 1, print at 1, ret at 1.
    match goal with
    | |- context [sync_items rest true failed ?W] =>
        destruct (IH failed W) as (w1 & -> & Hlog & Hdry & Hout)
    end.
    exists w1. split; [reflexivity|]. cbn in Hlog, Hdry, Hout.
    split; [exact Hlog|]. split; [exact Hdry|].
    rewrite Hout. cbn [map fst]. now rewrite <- app_assoc.
Qed.

(** X20. In a dry run a sync answers [True], runs no command (nothing is
    logged) and prints one line for each package marked as installed,
    between its two lines of summary. *)
Theorem cmd_sync_dry_run (w : world) (pkgs : dict) :
  dryrun w = true ->
  store_packages (data w) = Some pkgs ->
  entries_are_records pkgs = true ->
  let run := cmd_sync w in
  fst run = Ok true /\ log (snd run) = log w /\
  out (snd run) = (out w ++ dry_sync_report (marked pkgs))%list.
Proof.
  intros Hdry Hp Hr run. subst run.
  destruct (cmd_sync w) as [r W] eqn:Hrun. cbn [fst snd].
  unfold cmd_sync in Hrun. unfold bind at 1 in Hrun.
  rewrite (query_packages_run w pkgs _ Hp Hr) in Hrun.
  unfold marked, dry_sync_report.
  destruct (filter _ pkgs) as [|kv found] eqn:Hf.
  - unfold bind, print, ret in Hrun. injection Hrun as <- <-.
    repeat split.
  - unfold bind at 1 in Hrun. unfold print at 1 in Hrun.
    unfold bind at 1 in Hrun. cbn [dryrun] in Hrun. rewrite Hdry in Hrun.
    unfold bind at 1 in Hrun. unfold attempt in Hrun.
    match type of Hrun with
    | context [sync_items ?items true [] ?W] =>
        destruct (sync_items_dry items [] W) as (w1 & Hs & Hlog & _ & Hout)
    end.
    rewrite Hs in Hrun.
    unfold bind, print, ret in Hrun. injection Hrun as <- <-.
    cbn [log out] in *.
    split; [reflexivity|]. split; [exact Hlog|].
    rewrite Hout, length_map. cbn [map fst]. rewrite <- !app_assoc.
    reflexivity.
Qed.

End Sync.

Lemma cmd_sync_dry_run_witness :
  let w := machine (ledger three_packages VNone) true in
  fst (cmd_sync w) = Ok true /\ log (snd (cmd_sync w)) = [] /\
  out (snd (cmd_sync w)) =
  ["Syncing 2 packages..."; "[DRY RUN] Would install: htop";
   "[DRY RUN] Would install: paru"; "✓ Synced 2 packages"].
Proof.
  intros w.
  exact (cmd_sync_dry_run w three_packages eq_refl eq_refl eq_refl).
Defined.

(** ** Imports only add *)

Section ImportAdds.

Context {L : DateLib}.

Lemma keeps_refl (touched : list string) (w : world) :
  ledger_ok w -> keeps touched w w.
Proof. intros Hok. repeat split; auto. Qed.

Lemma keeps_trans (t1 t2 : list string) (w w1 w2 : world) :
  keeps t1 w w1 -> keeps t2 w1 w2 -> keeps (t1 ++ t2) w w2.
Proof.
  intros (_ & A2 & A3) (B1 & B2 & B3). split; [exact B1|]. split.
  - intros other Hno. rewrite B2, A2; [reflexivity| |];
      intros Hin; apply Hno; apply in_or_app; auto.
  - intros name Hin. apply B3, A3, Hin.
Qed.

Lemma import_entry_keeps (name : string) (pkg : value) (w : world) :
  ledger_ok w ->
  exists r w1, import_entry name pkg w = (r, w1) /\ keeps [name] w w1.
Proof.
  intros Hok.
  destruct pkg as [| | | | |e];
    try (eexists; exists w; split; [reflexivity|now apply keeps_refl]).
  rewrite import_entry_record.
  destruct (add_package_step w name
              (dict_get_or "repo" (VStr "unknown") e)
              (dict_get_or "dependencies" (VList []) e)
              (dict_get_or "installed" (VBool false) e)
              (dict_get_or "version" (VStr "") e)
              (dict_get_or "install_date" (VStr "") e)
              (dict_get_or "groups" (VList []) e)
              (dict_get_or "provides" (VList []) e) Hok)
    as (w1 & e1 & -> & Hok1 & _ & He1 & _ & _ & Hother & _).
  exists (Ok tt), w1. split; [reflexivity|].
  split; [exact Hok1|]. split.
  - intros other Hno. apply Hother. intros ->. apply Hno. now left.
  - intros n Hin. destruct (string_dec n name) as [->|Hne].
    + now rewrite He1.
    + now rewrite (Hother n Hne).
Qed.

Lemma import_items_keeps (items : dict) :
  forall (k : Z) (w : world),
    ledger_ok w ->
    exists r w1,
      import_items items k w = (r, w1) /\ keeps (map fst items) w w1.
Proof.
  induction items as [|[name pkg] rest IH]; intros k w Hok.
  - exists (Ok k), w. split; [reflexivity|now apply keeps_refl].
  - cbn [import_items]. unfold bind at 1, lift at 1.
    destruct (has_all required_fields pkg) as [[|]|e].
    + unfold bind at 1.
      destruct (import_entry_keeps name pkg w Hok) as (r1 & w1 & -> & Hk1).
      destruct r1 as [[]|e].
      * destruct (IH (k + 1) w1 (proj1 Hk1)) as (r & w2 & -> & Hk2).
        exists r, w2. split; [reflexivity|].
        exact (keeps_trans [name] (map fst rest) w w1 w2 Hk1 Hk2).
      * exists (Raise e), w1. split; [reflexivity|].
        destruct Hk1 as (A1 & A2 & A3). split; [exact A1|]. split; [|exact A3].
        intros other Hno. apply A2. intros [<-|[]]. apply Hno. now left.
    + unfold bind at 1, logger at 1.
      set (W0 := World _ _ _ _ _ _ _ _ _ _ _ _ _).
      assert (Hk0 : keeps [name] w W0) by (split; [exact Hok|split; auto]).
      clearbody W0.
      destruct (IH k W0 (proj1 Hk0)) as (r & w2 & -> & Hk2).
      exists r, w2. split; [reflexivity|].
      exact (keeps_trans [name] (map fst rest) w W0 w2 Hk0 Hk2).
    + exists (Raise e), w. split; [reflexivity|now apply keeps_refl].
Qed.

(** X21. An import only adds and updates, whatever the file holds: on a
    well-formed ledger [cmd_import] raises nothing, leaves the ledger well
    formed, loses no name, and leaves every entry whose name is not in the
    file as it was. *)
Theorem cmd_import_never_removes (w : world) (args_file : list string)
        (fs : string -> import_file) :
  ledger_ok w ->
  let run := cmd_import args_file fs w in
  (exists b, fst run = Ok b) /\ ledger_ok (snd run) /\
  (forall other, ~ In other (file_names args_file fs) ->
                 entry_of (snd run) other = entry_of w other) /\
  (forall name, entry_of w name <> None ->
                entry_of (snd run) name <> None).
Proof.
  intros Hok run. subst run.
  assert (Hrun : exists b W,
             cmd_import args_file fs w = (Ok b, W) /\
             keeps (file_names args_file fs) w W).
  { assert (Hquiet : forall (msg : string) (touched : list string),
               exists b W,
                 (print msg ;;; ret false) w = (Ok b, W) /\
                 keeps touched w W).
    { intros msg touched. eexists; eexists. split; [reflexivity|].
      split; [exact Hok|]. split; auto. }
    unfold cmd_import, file_names.
    destruct args_file as [|filepath others]; [apply Hquiet|].
    destruct (fs filepath) as [| | |e|doc]; try apply Hquiet.
    unfold try. unfold bind at 1. unfold lift at 1.
    destruct doc as [| | | | |dd]; try apply (Hquiet _ _).
    cbn [py_get store_packages].
    destruct (dict_get "packages" dd) as [[| | | | |items]|];
      try apply (Hquiet _ _).
    cbn [is_dict negb]. unfold bind at 1. unfold lift at 1. cbn [py_items].
    unfold bind at 1.
    destruct (import_items_keeps items 0 w Hok) as (r & w1 & -> & Hk).
    destruct Hk as (Hk1 & Hk2 & Hk3).
    destruct r as [n|e]; unfold bind, print, ret, is_Exception;
      eexists; eexists; (split; [reflexivity|]);
      (split; [exact Hk1|split; [exact Hk2|exact Hk3]]). }
  destruct Hrun as (b & W & -> & Hk1 & Hk2 & Hk3). cbn [fst snd].
  split; [now exists b|]. split; [exact Hk1|]. split; [exact Hk2|exact Hk3].
Qed.

End ImportAdds.

Lemma cmd_import_never_removes_witness :
  let w := machine (ledger three_packages VNone) false in
  let fs := fun _ : string =>
              Parsed (VDict [("packages",
                              VDict [("yay", VDict [("repo", VStr "aur")]);
                                     ("fd", VStr "repo")])]) in
  let run := cmd_import ["packages.json"] fs w in
  (exists b, fst run = Ok b) /\
  entry_of (snd run) "htop" = entry_of w "htop".
Proof.
  intros w fs.
  destruct (cmd_import_never_removes w ["packages.json"] fs
              (ledger_ok_machine three_packages VNone false eq_refl))
    as (H1 & _ & H2 & _).
  split; [exact H1|]. apply H2.
  cbn. intros [H|[H|[]]]; discriminate.
Defined.

(** ** Dates in ISO format *)

Section Migration.

Context {L : DateLib}.

(** X22. Starting on a ledger file whose date of the last full update is
    an ISO text puts the ledger in memory with that date rewritten in the
    human format; the file itself is left as it was, and nothing is
    logged. *)
Theorem load_rewrites_iso_date (w : world) (pkgs : dict) (s : string)
        (dt : datetime) :
  db_file w = Json (ledger pkgs (VStr s)) ->
  forallb (fun kv => entry_settled (snd kv)) pkgs = true ->
  fromisoformat s = Some dt ->
  s <> "" ->
  let start := init_database w in
  fst start = Ok tt /\
  data (snd start) = ledger pkgs (VStr (Clock.strftime_human dt)) /\
  db_file (snd start) = db_file w /\ log (snd start) = log w.
Proof.
  intros Hfile Hpkgs Hiso Hs start. subst start.
  assert (Hnorm : normalize_loaded (ledger pkgs (VStr s)) =
                  Ok (ledger pkgs (VStr (Clock.strftime_human dt)))).
  { unfold normalize_loaded, ledger. cbn [py_get dict_get String.eqb
      Ascii.eqb Bool.eqb rbind py_items].
    rewrite (normalize_entries_settled pkgs Hpkgs). cbn [rbind].
    assert (Hdoc1 :
              match pkgs with
              | [] => Ok (VDict [("packages", VDict pkgs);
                                 ("metadata",
                                  VDict [("last_full_update_date", VStr s)])])
              | _ :: _ =>
                  py_setitem
                    (VDict [("packages", VDict pkgs);
                            ("metadata",
                             VDict [("last_full_update_date", VStr s)])])
                    "packages" (VDict pkgs)
              end =
              Ok (VDict [("packages", VDict pkgs);
                         ("metadata",
                          VDict [("last_full_update_date", VStr s)])])).
    { destruct pkgs; reflexivity. }
    rewrite Hdoc1. cbn [rbind py_get dict_get String.eqb Ascii.eqb Bool.eqb].
    cbn [truthy].
    destruct (String.eqb_spec s "") as [->|_]; [contradiction|].
    cbn [negb]. unfold iso_to_human, py_fromisoformat. rewrite Hiso.
    reflexivity. }
  assert (Hrun : init_database w =
                 set_data (ledger pkgs (VStr (Clock.strftime_human dt))) w).
  { unfold init_database, _load. unfold bind at 1. unfold bind at 1.
    rewrite Hfile. unfold lift. now rewrite Hnorm. }
  rewrite Hrun. unfold set_data. cbn [fst snd data db_file log].
  repeat split.
Qed.

End Migration.

Lemma load_rewrites_iso_date_witness :
  let w := booting (Json (ledger three_packages
                                 (VStr "2024-01-01T00:00:00"))) true in
  fst (@init_database excerpt w) = Ok tt /\
  data (snd (@init_database excerpt w)) =
  ledger three_packages (VStr "Mon 01 Jan 2024 12:00:00 AM ").
Proof.
  intros w.
  assert (Hne : "2024-01-01T00:00:00" <> "") by discriminate.
  destruct (@load_rewrites_iso_date excerpt w three_packages
              "2024-01-01T00:00:00" (Naive (Clock.naive 2024 1 1 0 0 0))
              eq_refl eq_refl eq_refl Hne) as (H1 & H2 & _).
  split; [exact H1|]. rewrite H2. vm_compute. reflexivity.
Defined.

(** ** The contract of an import *)

Section ImportContract.





End ImportContract.


(** C7 as it is worded fails on a file whose second entry is null: that
    entry is neither upserted nor skipped with a warning, the import stops
    at it and reports a failure with no count, and the first entry stays
    imported, in memory and in the file. *)
Lemma cmd_import_aborts :
  let htop := [("repo", VStr "core"); ("installed", VBool true);
               ("dependencies", VList [VStr "glibc"]);
               ("groups", VList []); ("provides", VList [])] in
  let doc := VDict [("packages",
                     VDict [("htop", VDict htop); ("paru", VNone)])] in
  let fs := fun _ : string => Parsed doc in
  let w := machine (ledger [] VNone) false in
  let w' := snd (cmd_import ["list.json"] fs w) in
  fst (cmd_import ["list.json"] fs w) = Ok false /\
  entry_field w' "htop" "repo" = Some (VStr "core") /\
  db_file w' = Json (data w') /\
  filter is_warning (log w') = [] /\
  out w' = ["Error importing file: argument of type 'NoneType' is not iterable"].
Proof.
  cbv zeta.
  split; [vm_compute; reflexivity|].
  split; [vm_compute; reflexivity|].
  split; [vm_compute; reflexivity|].
  split; vm_compute; reflexivity.
Qed.

(** ** Where the policy fails *)

Section PolicyFails.

Context {L : DateLib}.

Lemma policy_on_timestamp (w : world) (v : value) :
  stored_timestamp w = Ok v ->
  _check_update_policy w =
  (if negb (truthy v) then ret (true, "No previous update found")
   else
     parsed <- lift (parse_last_update v) ;;
     match parsed with
     | None => ret (true, "Invalid last update date format")
     | Some last_date =>
         t <- now ;;
         days <- lift (days_since t last_date) ;;
         ret (policy_band days)
     end) w.
Proof.
  unfold stored_timestamp, _check_update_policy.
  unfold bind at 1. unfold get_data. unfold bind at 1. unfold lift at 1.
  destruct (py_getitem (data w) "metadata") as [meta|e]; [|discriminate].
  cbn [rbind]. intros Hv. unfold bind at 1. unfold lift at 1.
  now rewrite Hv.
Qed.

(** C1, which the code does not meet. The policy is not total: a ledger
    file without [metadata] is loaded as it is, and the policy then raises
    KeyError; a stored value that is not a text makes it raise TypeError,
    and so does an ISO text with an offset. And it does not put every
    recorded date in a band: the stamp that [cmd_update] records prints an
    empty zone name, which (for a date library that, like CPython's, wants
    a zone name after the blank) no parser reads back, so that the policy
    answers that the format is invalid and requires an update whatever the
    age, be it less than 7 days. *)
Theorem check_update_policy_fails :
  (forall (w : world) (pkgs : dict),
      db_file w = Json (VDict [("packages", VDict pkgs)]) ->
      forallb (fun kv => entry_settled (snd kv)) pkgs = true ->
      let started := init_database w in
      fst started = Ok tt /\
      fst (_check_update_policy (snd started)) = Raise (KeyError "metadata")) /\
  (forall (w : world) (t : Z),
      (forall t', strptime_human (Clock.strftime_human (Naive t')) = None) ->
      (forall t', fromisoformat (Clock.strftime_human (Naive t')) = None) ->
      stored_timestamp w = Ok (VStr (Clock.strftime_human (Naive t))) ->
      fst (_check_update_policy w) =
      Ok (true, "Invalid last update date format")) /\
  (forall (w : world) (v : value),
      stored_timestamp w = Ok v ->
      truthy v = true ->
      (forall s, v <> VStr s) ->
      fst (_check_update_policy w) = Raise (TypeError "strptime" v)) /\
  (forall (w : world) (s tz : string) (t : Z),
      stored_timestamp w = Ok (VStr s) ->
      s <> "" ->
      strptime_human s = None ->
      fromisoformat s = Some (Aware t tz) ->
      fst (_check_update_policy w) = Raise (TypeError "sub" (VStr tz))).
Proof.
  split; [|split; [|split]].
  - intros w pkgs Hfile Hpkgs started. subst started.
    assert (Hnorm : normalize_loaded (VDict [("packages", VDict pkgs)]) =
                    Ok (VDict [("packages", VDict pkgs)])).
    { unfold normalize_loaded.
      cbn [py_get dict_get String.eqb Ascii.eqb Bool.eqb rbind py_items].
      rewrite (normalize_entries_settled pkgs Hpkgs). cbn [rbind].
      destruct pkgs; reflexivity. }
    assert (Hrun : init_database w =
                   set_data (VDict [("packages", VDict pkgs)]) w).
    { unfold init_database, _load. unfold bind at 1. unfold bind at 1.
      rewrite Hfile. unfold lift. now rewrite Hnorm. }
    rewrite Hrun. unfold set_data. cbn [fst snd].
    split; reflexivity.
  - intros w t Hstrp Hiso Hv.
    rewrite (policy_on_timestamp w _ Hv).
    cbn [truthy]. rewrite strftime_nonempty. cbn [negb].
    unfold bind, lift, ret, parse_last_update, py_strptime, py_fromisoformat.
    now rewrite Hstrp, Hiso.
  - intros w v Hv Htr Hnot.
    rewrite (policy_on_timestamp w _ Hv). rewrite Htr. cbn [negb].
    unfold bind, lift, parse_last_update, py_strptime.
    destruct v as [| | |s| |]; try reflexivity.
    now destruct (Hnot s).
  - intros w s tz t Hv Hs Hstrp Hiso.
    rewrite (policy_on_timestamp w _ Hv). cbn [truthy].
    destruct (String.eqb_spec s "") as [E|_]; [contradiction|]. cbn [negb].
    unfold bind, lift, now, parse_last_update, py_strptime, py_fromisoformat.
    rewrite Hstrp, Hiso. reflexivity.
Qed.

End PolicyFails.

(** A ledger file with no [metadata], and a ledger stamped five days before
    the clock of the machine. *)
Lemma check_update_policy_fails_witness :
  let bare := booting (Json (VDict [("packages", VDict [])])) true in
  let stamped :=
    machine (ledger [] (VStr (Clock.strftime_human
                                (Naive (Clock.naive 2026 10 29 17 29 0)))))
            false in
  (fst (@init_database excerpt bare) = Ok tt /\
   fst (@_check_update_policy excerpt (snd (@init_database excerpt bare)))
   = Raise (KeyError "metadata")) /\
  fst (@_check_update_policy excerpt stamped)
  = Ok (true, "Invalid last update date format").
Proof.
  intros bare stamped.
  destruct (@check_update_policy_fails excerpt) as (Hkey & Hstamp & _).
  split.
  - exact (Hkey bare [] eq_refl eq_refl).
  - exact (Hstamp stamped (Clock.naive 2026 10 29 17 29 0)
             excerpt_strptime_rejects_naive excerpt_rejects_human eq_refl).
Defined.
